(** * wilayah-aceh-etl: code derivation, upsert store and hierarchy queries

    A shallow embedding of the Express server of the repository (the current
    server with the two store providers, and the older direct-Postgres
    server kept beside it) together with [init_db.sql], and the properties
    of the specification checked against it.

    Conventions of the embedding.
    - A JavaScript string is a [string]; one character of the model stands
      for one code unit below 256, the range that holds ASCII and the
      Latin-1 supplement. Texts with other code units are outside the
      model.
    - A JavaScript object used as a property bag is a [gmap string jsval];
      reading a key that is absent gives [JUndefined].
    - The table [m_wilayah_poligon] is a [gmap string row] keyed by the
      primary key [kode_wilayah_kemendagri].
    - Code that awaits the store lives in the monad [M], which threads the
      table and the log of every statement sent to the store, and in which
      a computation returns or throws. *)

From Stdlib Require Import ZArith Ascii.
From Stdlib Require QArith_base.
From Stdlib Require Import Sorted.
From stdpp Require Import gmap strings list fin_maps.

(* ===================================================================== *)
(** ** JavaScript strings and values *)
(* ===================================================================== *)

Module JS.

(** [s.length] *)
Definition length (s : string) : Z := Z.of_nat (String.length s).

(** [s.slice(start)]: a negative [start] counts from the end, and both
    directions are clamped to the string. *)
Definition slice (s : string) (start : Z) : string :=
  let len := length s in
  let from := if (start <? 0)%Z then Z.max (len + start) 0
              else Z.min start len in
  String.substring (Z.to_nat from) (Z.to_nat (len - from)) s.

(** [s.substring(0, stop)] for a non-negative [stop]. *)
Definition substring0 (s : string) (stop : Z) : string :=
  String.substring 0 (Z.to_nat (Z.min stop (length s))) s.

(** [c] lowered when it is one of [A]..[Z]. *)
Definition lower_ascii (c : ascii) : ascii :=
  let n := nat_of_ascii c in
  if (65 <=? n)%nat && (n <=? 90)%nat then ascii_of_nat (n + 32) else c.

(** [c] lowered, for a code unit below 256: one of [A]..[Z], or one of the
    capitals of the Latin-1 supplement, U+00C0 to U+00DE without the
    multiplication sign U+00D7. *)
Definition lower_unit (c : ascii) : ascii :=
  let n := nat_of_ascii c in
  if (192 <=? n)%nat && (n <=? 222)%nat && negb (n =? 215)%nat
  then ascii_of_nat (n + 32)
  else lower_ascii c.

(** [s.toLowerCase()] *)
Fixpoint toLowerCase (s : string) : string :=
  match s with
  | EmptyString => EmptyString
  | String c s' => String (lower_unit c) (toLowerCase s')
  end.

(** The values of a property bag that the model covers: a string, [null],
    and [undefined], which reading an absent key produces. The numbers,
    booleans, arrays and objects a GeoJSON property bag can also hold are
    outside the model: what is proved of a property speaks of bags whose
    values are strings or [null]. *)
Inductive jsval :=
| JUndefined
| JNull
| JStr (s : string).

(** String conversion, as a template literal applies it to [${v}]. *)
Definition ToString (v : jsval) : string :=
  match v with
  | JUndefined => "undefined"
  | JNull => "null"
  | JStr s => s
  end.

(** [!v] *)
Definition falsy (v : jsval) : bool :=
  match v with
  | JStr s => bool_decide (s = "")
  | _ => true
  end.

Inductive exn :=
| TypeError (msg : string)
| Error (msg : string).

(** The outcome of an expression that can throw. *)
Inductive completion (A : Type) :=
| Normal (a : A)
| Throw (e : exn).
Arguments Normal {A} a.
Arguments Throw {A} e.

(** [p.key] on a property bag. *)
Definition get (p : gmap string jsval) (key : string) : jsval :=
  default JUndefined (p !! key).

(** [v.slice(start)]: of the values of the model only a string has the
    method; [undefined] and [null] have no properties. *)
Definition call_slice (v : jsval) (start : Z) : completion string :=
  match v with
  | JStr s => Normal (slice s start)
  | JUndefined => Throw (TypeError "Cannot read properties of undefined (reading 'slice')")
  | JNull => Throw (TypeError "Cannot read properties of null (reading 'slice')")
  end.

End JS.
Export JS (jsval(..), exn(..), completion(..)).

Global Instance jsval_eq_dec : EqDecision jsval.
Proof. solve_decision. Defined.

(* ===================================================================== *)
(** ** The code deriver: [transformProperties] *)
(* ===================================================================== *)

(** The object [{ kode, nama }] returned by [transformProperties]. *)
Record derived := { kode : jsval; nama : jsval }.

(** [transformProperties(feature, level)], on [feature.properties]; a
    feature whose [properties] member is [null] or missing is [None]. *)
Definition transformProperties (p : option (gmap string jsval)) (level : Z)
  : completion derived :=
  let no_bag := Throw (TypeError "Cannot read properties of null") in
  if (level =? 1)%Z then
    match p with
    | None => no_bag
    | Some p =>
        Normal {| kode := JS.get p "kd_propinsi"; nama := JS.get p "nm_propinsi" |}
    end
  else if (level =? 2)%Z then
    match p with
    | None => no_bag
    | Some p =>
        Normal {| kode := JStr (JS.ToString (JS.get p "kd_propinsi") +:+ "." +:+
                                JS.ToString (JS.get p "kd_dati2"));
                  nama := JS.get p "nm_dati2" |}
    end
  else if (level =? 3)%Z then
    match p with
    | None => no_bag
    | Some p =>
        match JS.call_slice (JS.get p "kd_kecamatan") (-2) with
        | Throw e => Throw e
        | Normal kecCode =>
            Normal {| kode := JStr (JS.ToString (JS.get p "kd_propinsi") +:+ "." +:+
                                    JS.ToString (JS.get p "kd_dati2") +:+ "." +:+
                                    kecCode);
                      nama := JS.get p "nm_kecamatan" |}
        end
    end
  else if (level =? 4)%Z then
    match p with
    | None => no_bag
    | Some p =>
        match JS.call_slice (JS.get p "kd_kecamatan") (-2) with
        | Throw e => Throw e
        | Normal kecCode =>
            let kelCode := "2" +:+ JS.ToString (JS.get p "kd_kelurahan") in
            Normal {| kode := JStr (JS.ToString (JS.get p "kd_propinsi") +:+ "." +:+
                                    JS.ToString (JS.get p "kd_dati2") +:+ "." +:+
                                    kecCode +:+ "." +:+ kelCode);
                      nama := JS.get p "nm_kelurahan" |}
        end
    end
  else Normal {| kode := JStr ""; nama := JStr "" |}.

(** The last [n] characters of [s], as the specification words it. *)
Definition last_chars (n : nat) (s : string) : string :=
  String.string_of_list_ascii
    (reverse (take n (reverse (String.list_ascii_of_string s)))).

(* ===================================================================== *)
(** ** What lies outside the repository: PostGIS and the JSON codec *)
(* ===================================================================== *)

(** The PostGIS functions the SQL of the program calls, and the one
    setting of the database server the SQL depends on. Nothing is assumed
    about them beyond their types. *)
Class PostGIS := {
  (** Whether [lower] and [ILIKE] fold the capitals outside ASCII: that
      depends on the locale of the database ([true] under a UTF-8 locale,
      [false] under the locale [C]). *)
  lower_folds_latin1 : bool;
  pg_geometry : Type;
  (** [ST_GeomFromGeoJSON(text)]; [None] when PostGIS raises. *)
  ST_GeomFromGeoJSON : string -> option pg_geometry;
  ST_Force2D : pg_geometry -> pg_geometry;
  (** [ST_SimplifyPreserveTopology(g, tolerance)] *)
  ST_SimplifyPreserveTopology : pg_geometry -> QArith_base.Q -> pg_geometry;
  ST_Multi : pg_geometry -> pg_geometry;
  (** whether a value is accepted by a [GEOMETRY(MultiPolygon, 4326)] column *)
  is_MultiPolygon_4326 : pg_geometry -> bool;
  (** [ST_AsGeoJSON(g)], a text *)
  ST_AsGeoJSON : pg_geometry -> string
}.

(** [JSON.stringify] and [JSON.parse] on GeoJSON geometry objects. *)
Class JSON := {
  geojson : Type;
  JSON_stringify : geojson -> string;
  (** [None] when [JSON.parse] throws a [SyntaxError]. *)
  JSON_parse : string -> option geojson
}.

(* ===================================================================== *)
(** ** The table [m_wilayah_poligon] and the SQL run against it *)
(* ===================================================================== *)

Module Sql.
Section Sql.
Context `{PostGIS}.

(** One row, without its primary key [kode_wilayah_kemendagri], which is
    the key of the map. [None] in a text column is SQL [NULL]. The width
    of the [VARCHAR(255)] columns is not represented: texts are stored
    whole. *)
Record row := {
  nama_wilayah_kemendagri : option string;
  level : Z;
  geometry : pg_geometry;
  created_at : Z;
  updated_at : Z
}.

(** The order in which a sequential scan meets the rows. *)
Definition scan (t : gmap string row) : list (string * row) := map_to_list t.

(** [s LIKE pattern] with the default escape character: [%] matches any
    run of characters, [_] any one character, and a backslash makes the
    next pattern character literal. (PostgreSQL raises on a pattern that
    ends in a lone backslash; every pattern this program builds ends
    in [%], so that branch is never reached and is [false] here.) *)
Fixpoint like (pattern : string) : string -> bool :=
  match pattern with
  | EmptyString => fun s => bool_decide (s = "")
  | String c rest =>
      if Ascii.eqb c "%" then
        fix any (s : string) : bool :=
          like rest s ||
          match s with
          | EmptyString => false
          | String _ s' => any s'
          end
      else if Ascii.eqb c "_" then
        fun s => match s with
                 | EmptyString => false
                 | String _ s' => like rest s'
                 end
      else if Ascii.eqb c "\" then
        match rest with
        | EmptyString => fun _ => false
        | String e rest' =>
            fun s => match s with
                     | EmptyString => false
                     | String d s' => Ascii.eqb e d && like rest' s'
                     end
        end
      else
        fun s => match s with
                 | EmptyString => false
                 | String d s' => Ascii.eqb c d && like rest s'
                 end
  end.

(** [lower] on one character: [A]..[Z] always, the capitals of the
    Latin-1 supplement when the locale folds them. *)
Definition lower_char (c : ascii) : ascii :=
  if lower_folds_latin1 then JS.lower_unit c else JS.lower_ascii c.

(** [lower(text)] *)
Fixpoint lower (s : string) : string :=
  match s with
  | EmptyString => EmptyString
  | String c s' => String (lower_char c) (lower s')
  end.

(** [s ILIKE pattern] *)
Definition ilike (pattern s : string) : bool := like (lower pattern) (lower s).

(** The tolerance [0.0001] written in every upsert. *)
Definition tolerance : QArith_base.Q := QArith_base.Qmake 1 10000.

(** [ST_Multi(ST_SimplifyPreserveTopology(ST_Force2D(ST_GeomFromGeoJSON(j)), 0.0001))] *)
Definition simplified (j : string) : option pg_geometry :=
  g ← ST_GeomFromGeoJSON j;
  Some (ST_Multi (ST_SimplifyPreserveTopology (ST_Force2D g) tolerance)).

(** [INSERT INTO m_wilayah_poligon (kode, nama, level, geometry, updated_at)
     VALUES ($1, $2, $3, <simplified $4>, NOW())
     ON CONFLICT (kode) DO UPDATE SET nama = EXCLUDED.nama,
       geometry = EXCLUDED.geometry, updated_at = NOW()],
    the statement of [upsertFeature] and of the older sync loop. [None]
    when the statement raises: the geometry cannot be built or does not
    fit the column, or the primary key is [NULL]. [created_at] takes its
    default, the current timestamp. *)
Definition insert_on_conflict (now : Z) (p1 p2 : option string) (p3 : Z)
    (p4 : string) (t : gmap string row) : option (gmap string row) :=
  g ← simplified p4;
  k ← p1;
  if is_MultiPolygon_4326 g then
    Some (match t !! k with
          | None =>
              <[k := {| nama_wilayah_kemendagri := p2; level := p3;
                        geometry := g; created_at := now;
                        updated_at := now |}]> t
          | Some old =>
              <[k := {| nama_wilayah_kemendagri := p2; level := level old;
                        geometry := g; created_at := created_at old;
                        updated_at := now |}]> t
          end)
  else None.

(** The function [upsert_wilayah(p_kode, p_nama, p_level, p_geojson)] of
    [init_db.sql]; [p_geojson] is the JSON text of the argument. *)
Definition upsert_wilayah (now : Z) (p_kode p_nama : option string)
    (p_level : Z) (p_geojson : string) (t : gmap string row)
    : option (gmap string row) :=
  g ← simplified p_geojson;
  k ← p_kode;
  if is_MultiPolygon_4326 g then
    Some (match t !! k with
          | None =>
              <[k := {| nama_wilayah_kemendagri := p_nama; level := p_level;
                        geometry := g; created_at := now;
                        updated_at := now |}]> t
          | Some old =>
              <[k := {| nama_wilayah_kemendagri := p_nama; level := level old;
                        geometry := g; created_at := created_at old;
                        updated_at := now |}]> t
          end)
  else None.

(** A result row [(id, name, geom)] with [geom] the text of
    [ST_AsGeoJSON(geometry)]. *)
Record geo_row := { id : string; name : option string; geom : string }.

Definition to_geo_row (kr : string * row) : geo_row :=
  {| id := kr.1; name := nama_wilayah_kemendagri kr.2;
     geom := ST_AsGeoJSON (geometry kr.2) |}.

(** [SELECT kode AS id, nama AS name, ST_AsGeoJSON(geometry) AS geom
     FROM m_wilayah_poligon WHERE level = $1 AND kode LIKE $2] *)
Definition select_level_like (p1 : Z) (p2 : string) (t : gmap string row)
    : list geo_row :=
  to_geo_row <$>
    filter (fun kr => bool_decide (level kr.2 = p1) && like p2 kr.1 = true) (scan t).

(** [... WHERE level = $1 AND kode = $2], of the older server. *)
Definition select_level_eq (p1 : Z) (p2 : string) (t : gmap string row)
    : list geo_row :=
  to_geo_row <$>
    filter (fun kr => bool_decide (level kr.2 = p1) && bool_decide (kr.1 = p2) = true)
           (scan t).

(** The function [get_wilayah_by_level(p_level, p_parent_code)] of
    [init_db.sql]. *)
Definition get_wilayah_by_level (p_level : Z) (p_parent_code : option string)
    (t : gmap string row) : list geo_row :=
  to_geo_row <$>
    filter (fun kr =>
              bool_decide (level kr.2 = p_level) &&
              match p_parent_code with
              | None => true
              | Some c => like (c +:+ "%") kr.1
              end = true)
           (scan t).

(** A result row [(id, name, level)] of a search. *)
Record hit := { hit_id : string; hit_name : option string; hit_level : Z }.

Definition to_hit (kr : string * row) : hit :=
  {| hit_id := kr.1; hit_name := nama_wilayah_kemendagri kr.2;
     hit_level := level kr.2 |}.

(** [ORDER BY level ASC, nama ASC]: [a] may stand before [b]. A [NULL]
    name sorts last. *)
Definition order_by_level_nama (a b : string * row) : bool :=
  if (level a.2 <? level b.2)%Z then true
  else if (level b.2 <? level a.2)%Z then false
  else match nama_wilayah_kemendagri a.2, nama_wilayah_kemendagri b.2 with
       | Some x, Some y => String.leb x y
       | Some _, None => true
       | None, Some _ => false
       | None, None => true
       end.

Fixpoint insert_by (le : string * row -> string * row -> bool)
    (x : string * row) (l : list (string * row)) : list (string * row) :=
  match l with
  | [] => [x]
  | y :: l' => if le x y then x :: l else y :: insert_by le x l'
  end.

Definition sort_by (le : string * row -> string * row -> bool)
    (l : list (string * row)) : list (string * row) :=
  foldr (insert_by le) [] l.

(** [SELECT kode AS id, nama AS name, level FROM m_wilayah_poligon
     WHERE lower(nama) LIKE $1 ORDER BY level ASC, nama ASC LIMIT 10] *)
Definition select_search (p1 : string) (t : gmap string row) : list hit :=
  to_hit <$>
    take 10 (sort_by order_by_level_nama
      (filter (fun kr => match nama_wilayah_kemendagri kr.2 with
                         | Some n => like p1 (lower n)
                         | None => false
                         end = true) (scan t))).

(** The function [search_wilayah(p_query)] of [init_db.sql]. *)
Definition search_wilayah (p_query : string) (t : gmap string row) : list hit :=
  to_hit <$>
    take 10 (sort_by order_by_level_nama
      (filter (fun kr => match nama_wilayah_kemendagri kr.2 with
                         | Some n => like ("%" +:+ lower p_query +:+ "%") (lower n)
                         | None => false
                         end = true) (scan t))).

(** The fallback of the search route through the REST interface:
    [.select(kode, nama, level).ilike(nama, pattern)
     .order(level).order(nama).limit(10)]. *)
Definition rest_search (pattern : string) (t : gmap string row)
    : list (string * row) :=
  take 10 (sort_by order_by_level_nama
    (filter (fun kr => match nama_wilayah_kemendagri kr.2 with
                       | Some n => ilike pattern n
                       | None => false
                       end = true) (scan t))).

End Sql.
End Sql.

(* ===================================================================== *)
(** ** The process: configuration, the store link, and the monad [M] *)
(* ===================================================================== *)

(** [process.env.DB_PROVIDER === 'SUPABASE'], or the default. *)
Inductive provider := POSTGRES | SUPABASE.

(** Every statement the server can send to the store, with its arguments:
    the texts given to [pool.query], the functions called through
    [supabaseAdmin.rpc], and the REST select of the search fallback. *)
Inductive store_call :=
| pool_select_level_like (level : Z) (pattern : string)
| pool_select_level_eq (level : Z) (code : string)
| pool_select_search (pattern : string)
| pool_insert_on_conflict (kode nama : option string) (level : Z)
                          (geometryStr : string)
| rpc_get_wilayah_by_level (p_level : Z) (p_parent_code : string)
| rpc_search_wilayah (p_query : string)
| rpc_upsert_wilayah (p_kode p_nama : option string) (p_level : Z)
                     (p_geojson : string)
| rest_select_ilike (pattern : string).

(** What the process does not control.
    - [DB_PROVIDER]: the provider selected in the environment;
    - [supabaseAdmin]: whether [lib/supabase] exported a client ([false]
      when it exported [null]);
    - [answers n]: whether the [n]-th statement sent by the process reaches
      the store and is run there (otherwise the call fails);
    - [NOW n]: the store's clock when the [n]-th statement runs. *)
Record env := {
  DB_PROVIDER : provider;
  supabaseAdmin : bool;
  answers : nat -> bool;
  NOW : nat -> Z
}.

(** A GeoJSON feature as the routes read it. *)
Record feature `{JSON} := {
  properties : option (gmap string jsval);
  geometry : geojson
}.

(** A parameter of a statement: [undefined] and [null] travel as [NULL]. *)
Definition to_param (v : jsval) : option string :=
  match v with
  | JStr s => Some s
  | JUndefined | JNull => None
  end.

Section Server.
Context `{PostGIS} `{JSON}.
Variable E : env.

(** The state threaded through a request: the table, and every statement
    sent so far, oldest first. *)
Record world := {
  table : gmap string Sql.row;
  sent : list store_call
}.

Definition M (A : Type) : Type := world -> completion A * world.

Definition ret {A} (a : A) : M A := fun w => (Normal a, w).

Definition throw {A} (e : exn) : M A := fun w => (Throw e, w).

Definition bind {A B} (m : M A) (k : A -> M B) : M B :=
  fun w => match m w with
           | (Normal a, w') => k a w'
           | (Throw e, w') => (Throw e, w')
           end.

Definition lift {A} (c : completion A) : M A := fun w => (c, w).

Notation "'let*' x ':=' m 'in' k" := (bind m (fun x => k))
  (at level 10, x name, m at level 100, k at level 200).

(** Sending one statement: it is logged; if the store answers, [run] is
    applied to the table at the store's current time. [None] is a failed
    call, either unanswered or raised by the store. *)
Definition send {A} (c : store_call)
    (run : Z -> gmap string Sql.row -> option (A * gmap string Sql.row))
    (w : world) : option A * world :=
  let n := length (sent w) in
  if answers E n then
    match run (NOW E n) (table w) with
    | Some (a, t') => (Some a, {| table := t'; sent := sent w ++ [c] |})
    | None => (None, {| table := table w; sent := sent w ++ [c] |})
    end
  else (None, {| table := table w; sent := sent w ++ [c] |}).

(** [await pool.query(text, params)]: a failed call rejects. *)
Definition pool_query {A} (c : store_call)
    (run : Z -> gmap string Sql.row -> option (A * gmap string Sql.row))
    : M A :=
  fun w => match send c run w with
           | (Some a, w') => (Normal a, w')
           | (None, w') => (Throw (Error "query failed"), w')
           end.

(** [await supabaseAdmin.rpc(...)] and [await supabaseAdmin.from(...)...]:
    the promise resolves to [{ data, error }], here [Some data] or [None];
    calling a method of a [null] client throws. *)
Definition supabase_call {A} (c : store_call)
    (run : Z -> gmap string Sql.row -> option (A * gmap string Sql.row))
    : M (option A) :=
  if supabaseAdmin E then
    fun w => let (r, w') := send c run w in (Normal r, w')
  else throw (TypeError "Cannot read properties of null").

(** A read leaves the table as it is. *)
Definition reading {A} (q : gmap string Sql.row -> option A)
    : Z -> gmap string Sql.row -> option (A * gmap string Sql.row) :=
  fun _ t => a ← q t; Some (a, t).

Definition writing (u : Z -> gmap string Sql.row -> option (gmap string Sql.row))
    : Z -> gmap string Sql.row -> option (unit * gmap string Sql.row) :=
  fun now t => t' ← u now t; Some (tt, t').

(* ------------------------------------------------------------------- *)
(** *** [upsertFeature] and the sync loop *)
(* ------------------------------------------------------------------- *)

(** [upsertFeature(kode, nama, level, geometryObject)]. On the Supabase
    side the client serialises the argument object, so the function
    receives the JSON text of [geometryObject]. An argument that is [null]
    reaches the statement as [NULL] with both providers, and so does an
    [undefined] one through the driver; the RPC client leaves an
    [undefined] argument out of its request, and what the gateway answers
    then is not in the repository: the model sends [NULL] there too, and
    the comparison of the providers is stated for a defined name. *)
Definition upsertFeature (kode nama : jsval) (level : Z)
    (geometryObject : geojson) : M unit :=
  match DB_PROVIDER E with
  | SUPABASE =>
      if negb (supabaseAdmin E) then
        throw (Error "Supabase Admin client is not initialized. Check SUPABASE_URL and SUPABASE_SERVICE_KEY in .env")
      else
        let* r := supabase_call
                    (rpc_upsert_wilayah (to_param kode) (to_param nama) level
                                        (JSON_stringify geometryObject))
                    (writing (fun now =>
                       Sql.upsert_wilayah now (to_param kode) (to_param nama)
                                          level (JSON_stringify geometryObject))) in
        match r with
        | None => throw (Error "Supabase RPC Error")
        | Some _ => ret tt
        end
  | POSTGRES =>
      let geometryStr := JSON_stringify geometryObject in
      pool_query
        (pool_insert_on_conflict (to_param kode) (to_param nama) level geometryStr)
        (writing (fun now =>
           Sql.insert_on_conflict now (to_param kode) (to_param nama)
                                  level geometryStr))
  end.

(** [for (const feature of data.features) { ... totalProcessed++ }] *)
Fixpoint sync_features (features : list feature) (level : Z)
    (totalProcessed : Z) : M Z :=
  match features with
  | [] => ret totalProcessed
  | feature :: rest =>
      let* d := lift (transformProperties (properties feature) level) in
      let* _ := upsertFeature (kode d) (nama d) level (geometry feature) in
      sync_features rest level (totalProcessed + 1)%Z
  end.

(** [for (const file of files) { ... }], each file given with the level
    detected from its name and its parsed features. *)
Fixpoint sync_files (files : list (Z * list feature)) (totalProcessed : Z)
    : M Z :=
  match files with
  | [] => ret totalProcessed
  | (level, features) :: rest =>
      let* n := sync_features features level totalProcessed in
      sync_files rest n
  end.

(** The answers of [POST /api/db/sync] once the files are read. *)
Inductive sync_response :=
| sync_ok (processed : Z)
| sync_500.


(* ------------------------------------------------------------------- *)
(** *** [GET /api/db/geojson] *)
(* ------------------------------------------------------------------- *)

(** The [geom] member of a row as JavaScript sees it: the driver hands
    over the text, the RPC client the parsed JSON. *)
Inductive geom_value :=
| geom_string (s : string)
| geom_object (j : geojson).

Record js_row := { row_id : string; row_name : option string;
                   row_geom : geom_value }.

Definition driver_row (r : Sql.geo_row) : js_row :=
  {| row_id := Sql.id r; row_name := Sql.name r;
     row_geom := geom_string (Sql.geom r) |}.

(** The [::json] cast of the function's result column, then the decoding
    of the response body; [None] if the text is not JSON. *)
Definition rpc_row (r : Sql.geo_row) : option js_row :=
  j ← JSON_parse (Sql.geom r);
  Some {| row_id := Sql.id r; row_name := Sql.name r;
          row_geom := geom_object j |}.

(** One [Feature] of a response; [None] is [geometry: null]. *)
Record Feature := { f_name : option string; f_id : string;
                    f_geometry : option geojson }.

(** [toFeatureCollection(rows)]; the [features] array of the collection. *)
Definition toFeatureCollection (rows : list js_row) : list Feature :=
  (fun row =>
     {| f_name := row_name row; f_id := row_id row;
        f_geometry := match row_geom row with
                      | geom_string s => JSON_parse s
                      | geom_object j => Some j
                      end |}) <$> rows.

(** [fetchGeoData(targetLevel, codePrefix)] *)
Definition fetchGeoData (targetLevel : Z) (codePrefix : string)
    : M (list js_row) :=
  match DB_PROVIDER E with
  | SUPABASE =>
      let* r := supabase_call
                  (rpc_get_wilayah_by_level targetLevel codePrefix)
                  (reading (fun t =>
                     mapM rpc_row
                          (Sql.get_wilayah_by_level targetLevel
                                                    (Some codePrefix) t))) in
      match r with
      | None => ret []
      | Some data => ret data
      end
  | POSTGRES =>
      let* rows := pool_query
                     (pool_select_level_like targetLevel (codePrefix +:+ "%"))
                     (reading (fun t =>
                        Some (Sql.select_level_like targetLevel
                                                    (codePrefix +:+ "%") t))) in
      ret (driver_row <$> rows)
  end.

(** The object [result]: one [data] member per level, [None] for [null]. *)
Record bundle := {
  provinsi : option (list Feature);
  kabupaten : option (list Feature);
  kecamatan : option (list Feature);
  kelurahan : option (list Feature)
}.

Definition empty_bundle : bundle :=
  {| provinsi := None; kabupaten := None; kecamatan := None; kelurahan := None |}.

(** [if (rows.length > 0) result.<slot>.data = toFeatureCollection(rows)] *)
Definition fill (rows : list js_row) (old : option (list Feature))
    : option (list Feature) :=
  if (0 <? Z.of_nat (length rows))%Z then Some (toFeatureCollection rows) else old.

Definition set_provinsi (rows : list js_row) (r : bundle) : bundle :=
  {| provinsi := fill rows (provinsi r); kabupaten := kabupaten r;
     kecamatan := kecamatan r; kelurahan := kelurahan r |}.
Definition set_kabupaten (rows : list js_row) (r : bundle) : bundle :=
  {| provinsi := provinsi r; kabupaten := fill rows (kabupaten r);
     kecamatan := kecamatan r; kelurahan := kelurahan r |}.
Definition set_kecamatan (rows : list js_row) (r : bundle) : bundle :=
  {| provinsi := provinsi r; kabupaten := kabupaten r;
     kecamatan := fill rows (kecamatan r); kelurahan := kelurahan r |}.
Definition set_kelurahan (rows : list js_row) (r : bundle) : bundle :=
  {| provinsi := provinsi r; kabupaten := kabupaten r;
     kecamatan := kecamatan r; kelurahan := fill rows (kelurahan r) |}.

(** The body of the [try] block of the route. *)
Definition geojson_try (code : string) : M bundle :=
  let result := empty_bundle in
  let codeLen := JS.length code in
  if (codeLen =? 2)%Z then
    let* provRows := fetchGeoData 1 code in
    let result := set_provinsi provRows result in
    let* kabRows := fetchGeoData 2 code in
    let result := set_kabupaten kabRows result in
    ret result
  else if (codeLen =? 5)%Z then
    let* kabRows := fetchGeoData 2 code in
    let result := set_kabupaten kabRows result in
    let* kecRows := fetchGeoData 3 code in
    let result := set_kecamatan kecRows result in
    let* kelRows := fetchGeoData 4 code in
    let result := set_kelurahan kelRows result in
    ret result
  else if (codeLen =? 8)%Z then
    let* kabRows := fetchGeoData 2 (JS.substring0 code 5) in
    let result := set_kabupaten kabRows result in
    let* kecRows := fetchGeoData 3 code in
    let result := set_kecamatan kecRows result in
    let* kelRows := fetchGeoData 4 code in
    let result := set_kelurahan kelRows result in
    ret result
  else if (13 <=? codeLen)%Z then
    let* kecRows := fetchGeoData 3 (JS.substring0 code 8) in
    let result := set_kecamatan kecRows result in
    let* kelRows := fetchGeoData 4 code in
    let result := set_kelurahan kelRows result in
    ret result
  else ret result.

(** The answers of the route. *)
Inductive geojson_response :=
| geojson_200 (result : bundle)
| geojson_400          (* [{ error: 'Code is required' }] *)
| geojson_500.         (* [{ error: "Database error" }] *)

(** [app.get('/api/db/geojson', ...)] on [req.query.code]. *)
Definition geojson_route (code : option string)
    : world -> geojson_response * world :=
  fun w =>
    match code with
    | None => (geojson_400, w)
    | Some code =>
        if JS.falsy (JStr code) then (geojson_400, w)
        else match geojson_try code w with
             | (Normal result, w') => (geojson_200 result, w')
             | (Throw _, w') => (geojson_500, w')
             end
    end.

(* ------------------------------------------------------------------- *)
(** *** [GET /api/search] *)
(* ------------------------------------------------------------------- *)

Inductive search_response :=
| search_200 (rows : list Sql.hit)
| search_500.          (* [{ error: "Search failed" }] *)

(** The body of the [try] block of the search route. *)
Definition search_try (query : string) : M (list Sql.hit) :=
  match DB_PROVIDER E with
  | SUPABASE =>
      let* r := supabase_call (rpc_search_wilayah query)
                  (reading (fun t => Some (Sql.search_wilayah query t))) in
      match r with
      | None =>
          let* fallback :=
            supabase_call (rest_select_ilike ("%" +:+ query +:+ "%"))
              (reading (fun t =>
                 Some (Sql.rest_search ("%" +:+ query +:+ "%") t))) in
          match fallback with
          | None => throw (Error "fallbackError")
          | Some fallbackData => ret (Sql.to_hit <$> fallbackData)
          end
      | Some data => ret data
      end
  | POSTGRES =>
      pool_query
        (pool_select_search ("%" +:+ JS.toLowerCase query +:+ "%"))
        (reading (fun t =>
           Some (Sql.select_search ("%" +:+ JS.toLowerCase query +:+ "%") t)))
  end.

(** [if (!query || query.length < 3) return res.json([])] *)
Definition search_guard (query : option string) : bool :=
  match query with
  | None => true
  | Some q => JS.falsy (JStr q) || (JS.length q <? 3)%Z
  end.

(** [app.get('/api/search', ...)] on [req.query.q]. *)
Definition search_route (query : option string)
    : world -> search_response * world :=
  fun w =>
    if search_guard query then (search_200 [], w)
    else match search_try (default "" query) w with
         | (Normal rows, w') => (search_200 rows, w')
         | (Throw _, w') => (search_500, w')
         end.

(* ------------------------------------------------------------------- *)
(** *** The older server: one provider, one statement per fetch *)
(* ------------------------------------------------------------------- *)

(** [toFeatureCollection(rows)] of the older server: [JSON.parse] is not
    guarded, so a text that does not parse throws. *)
Fixpoint legacy_toFeatureCollection (rows : list Sql.geo_row)
    : completion (list Feature) :=
  match rows with
  | [] => Normal []
  | row :: rest =>
      match JSON_parse (Sql.geom row) with
      | None => Throw (Error "SyntaxError")
      | Some j =>
          match legacy_toFeatureCollection rest with
          | Throw e => Throw e
          | Normal fs =>
              Normal ({| f_name := Sql.name row; f_id := Sql.id row;
                         f_geometry := Some j |} :: fs)
          end
      end
  end.

Definition legacy_fill (rows : list Sql.geo_row) (old : option (list Feature))
    : M (option (list Feature)) :=
  if (0 <? Z.of_nat (length rows))%Z then
    let* fc := lift (legacy_toFeatureCollection rows) in ret (Some fc)
  else ret old.

(** [... WHERE level = <level> AND kode_wilayah_kemendagri = $1] *)
Definition legacy_exact (level : Z) (code : string) : M (list Sql.geo_row) :=
  pool_query (pool_select_level_eq level code)
             (reading (fun t => Some (Sql.select_level_eq level code t))).

(** [... WHERE level = <level> AND kode_wilayah_kemendagri LIKE $1] with
    the parameter [`${code}.%`]. *)
Definition legacy_children (level : Z) (code : string) : M (list Sql.geo_row) :=
  pool_query (pool_select_level_like level (code +:+ ".%"))
             (reading (fun t =>
                Some (Sql.select_level_like level (code +:+ ".%") t))).

Definition legacy_geojson_try (code : string) : M bundle :=
  let codeLen := JS.length code in
  if (codeLen =? 2)%Z then
    let* provRes := legacy_exact 1 code in
    let* prov := legacy_fill provRes None in
    let* kabRes := legacy_children 2 code in
    let* kab := legacy_fill kabRes None in
    ret {| provinsi := prov; kabupaten := kab;
           kecamatan := None; kelurahan := None |}
  else if (codeLen =? 5)%Z then
    let* kabRes := legacy_exact 2 code in
    let* kab := legacy_fill kabRes None in
    let* kecRes := legacy_children 3 code in
    let* kec := legacy_fill kecRes None in
    let* kelRes := legacy_children 4 code in
    let* kel := legacy_fill kelRes None in
    ret {| provinsi := None; kabupaten := kab;
           kecamatan := kec; kelurahan := kel |}
  else if (codeLen =? 8)%Z then
    let* kabRes := legacy_exact 2 (JS.substring0 code 5) in
    let* kab := legacy_fill kabRes None in
    let* kecRes := legacy_exact 3 code in
    let* kec := legacy_fill kecRes None in
    let* kelRes := legacy_children 4 code in
    let* kel := legacy_fill kelRes None in
    ret {| provinsi := None; kabupaten := kab;
           kecamatan := kec; kelurahan := kel |}
  else if (13 <=? codeLen)%Z then
    let* kecRes := legacy_exact 3 (JS.substring0 code 8) in
    let* kec := legacy_fill kecRes None in
    let* kelRes := legacy_exact 4 code in
    let* kel := legacy_fill kelRes None in
    ret {| provinsi := None; kabupaten := None;
           kecamatan := kec; kelurahan := kel |}
  else ret empty_bundle.

Definition legacy_geojson_route (code : option string)
    : world -> geojson_response * world :=
  fun w =>
    match code with
    | None => (geojson_400, w)
    | Some code =>
        if JS.falsy (JStr code) then (geojson_400, w)
        else match legacy_geojson_try code w with
             | (Normal result, w') => (geojson_200 result, w')
             | (Throw _, w') => (geojson_500, w')
             end
    end.

Definition legacy_search_route (query : option string)
    : world -> search_response * world :=
  fun w =>
    if search_guard query then (search_200 [], w)
    else
      let q := default "" query in
      match pool_query
              (pool_select_search ("%" +:+ JS.toLowerCase q +:+ "%"))
              (reading (fun t =>
                 Some (Sql.select_search ("%" +:+ JS.toLowerCase q +:+ "%") t)))
              w with
      | (Normal rows, w') => (search_200 rows, w')
      | (Throw _, w') => (search_500, w')
      end.

End Server.

(* ===================================================================== *)
(** ** Concrete inputs *)
(* ===================================================================== *)

(** A stand-in for PostGIS and for the JSON codec on which the model can be
    run: a geometry is the text it was built from, the empty text is
    rejected, and every text parses; the locale folds the capitals outside
    ASCII. *)
Module Toy.

Definition postgis : PostGIS :=
  {| lower_folds_latin1 := true;
     pg_geometry := string;
     ST_GeomFromGeoJSON := fun s => if bool_decide (s = "") then None else Some s;
     ST_Force2D := fun g => g;
     ST_SimplifyPreserveTopology := fun g _ => g;
     ST_Multi := fun g => g;
     is_MultiPolygon_4326 := fun _ => true;
     ST_AsGeoJSON := fun g => g |}.

Definition json : JSON :=
  {| geojson := string;
     JSON_stringify := fun j => j;
     JSON_parse := fun s => Some s |}.

(** A store that answers every statement, at time [n] for the [n]-th. *)
Definition env_of (p : provider) : env :=
  {| DB_PROVIDER := p; supabaseAdmin := true;
     answers := fun _ => true; NOW := Z.of_nat |}.

(** A store that answers nothing. *)
Definition env_down (p : provider) : env :=
  {| DB_PROVIDER := p; supabaseAdmin := true;
     answers := fun _ => false; NOW := Z.of_nat |}.


Definition mk_row (n : string) (l : Z) : @Sql.row postgis :=
  @Sql.Build_row postgis (Some n) l "{}" 0 0.

Definition start (t : gmap string (@Sql.row postgis)) : @world postgis :=
  {| table := t; sent := [] |}.

(** Property bags of the specification's examples. *)
Definition kecamatan_0105 : gmap string jsval :=
  {[ "kd_propinsi" := JStr "11"; "kd_dati2" := JStr "01";
     "kd_kecamatan" := JStr "0105"; "nm_kecamatan" := JStr "Bakongan" ]}.

Definition kecamatan_05 : gmap string jsval :=
  {[ "kd_propinsi" := JStr "11"; "kd_dati2" := JStr "01";
     "kd_kecamatan" := JStr "05"; "nm_kecamatan" := JStr "Bakongan" ]}.

Definition kelurahan_003 : gmap string jsval :=
  {[ "kd_propinsi" := JStr "11"; "kd_dati2" := JStr "01";
     "kd_kecamatan" := JStr "0105"; "kd_kelurahan" := JStr "003";
     "nm_kelurahan" := JStr "Keude Bakongan" ]}.

(** A second-level bag whose second-level code is absent. *)
Definition kabupaten_without_code : gmap string jsval :=
  {[ "kd_propinsi" := JStr "11"; "nm_dati2" := JStr "Aceh Selatan" ]}.

(** A province, one of its regencies, and a region of another
    three-digit province code. *)
Definition wide_codes : gmap string (@Sql.row postgis) :=
  {[ "11" := mk_row "Aceh" 1;
     "11.01" := mk_row "Aceh Selatan" 2;
     "110.01" := mk_row "Lain" 2 ]}.

(** The regencies 11.1 and 11.10 of the specification's example. *)
Definition narrow_codes : gmap string (@Sql.row postgis) :=
  {[ "11.1" := mk_row "Satu" 2; "11.10" := mk_row "Sepuluh" 2 ]}.

(** A district with its regency and one village, and a regency whose
    identifier extends that of the first. *)
Definition bakongan : gmap string (@Sql.row postgis) :=
  {[ "11.01" := mk_row "Aceh Selatan" 2;
     "11.011" := mk_row "Lain" 2;
     "11.01.05" := mk_row "Bakongan" 3;
     "11.01.05.2003" := mk_row "Keude Bakongan" 4 ]}.

Definition feature_of (bag : gmap string jsval) (g : string) : @feature json :=
  @Build_feature json (Some bag) g.


Definition named (n i g : string) : @Feature json :=
  @Build_Feature json (Some n) i (Some g).

End Toy.

(* ===================================================================== *)
(** ** Vocabulary of the statements *)
(* ===================================================================== *)

(** The code properties [transformProperties] reads at each level. *)
Definition required_codes (level : Z) : list string :=
  if (level =? 1)%Z then ["kd_propinsi"]
  else if (level =? 2)%Z then ["kd_propinsi"; "kd_dati2"]
  else if (level =? 3)%Z then ["kd_propinsi"; "kd_dati2"; "kd_kecamatan"]
  else if (level =? 4)%Z then
    ["kd_propinsi"; "kd_dati2"; "kd_kecamatan"; "kd_kelurahan"]
  else [].

(** [s] holds the text [undefined]. *)
Definition renders_undefined (s : string) : Prop :=
  exists u v, s = u +:+ "undefined" +:+ v.

(** What a reader observes of a row: name, level and geometry. *)
Abbreviation observation := (option string * Z * pg_geometry)%type.

Section Vocabulary.
Context `{PostGIS} `{JSON}.

(** The row an upsert leaves under its key. *)
Definition upserted (now : Z) (p_nama : option string) (p_level : Z)
    (g : pg_geometry) (old : option Sql.row) : Sql.row :=
  match old with
  | None => Sql.Build_row p_nama p_level g now now
  | Some r => Sql.Build_row p_nama (Sql.level r) g (Sql.created_at r) now
  end.

Definition observe (r : Sql.row) : observation :=
  (Sql.nama_wilayah_kemendagri r, Sql.level r, Sql.geometry r).

(** One successful upsert, as data: identifier, name, level, geometry. *)
Record upsert_op := {
  op_kode : string;
  op_nama : option string;
  op_level : Z;
  op_geometry : pg_geometry
}.

(** The effect of an upsert on what is observed under the key [k]. *)
Definition act (k : string) (x : option observation) (o : upsert_op)
    : option observation :=
  if decide (op_kode o = k) then
    Some (op_nama o,
          match x with Some (_, l, _) => l | None => op_level o end,
          op_geometry o)
  else x.

(** The upsert a feature leads to when nothing fails; it depends on the
    feature and the level only. *)
Definition feature_op (level : Z) (f : feature) : option upsert_op :=
  match transformProperties (properties f) level with
  | Throw _ => None
  | Normal d =>
      k ← to_param (kode d);
      g ← Sql.simplified (JSON_stringify (geometry f));
      if is_MultiPolygon_4326 g then
        Some {| op_kode := k; op_nama := to_param (nama d);
                op_level := level; op_geometry := g |}
      else None
  end.


(** The world after one more statement has been sent and the table left
    as it was. *)
Definition logged (w : world) (c : store_call) : world :=
  {| table := table w; sent := sent w ++ [c] |}.

(** How a fetch of the plan selects its rows: the row with that very
    identifier, or the rows below it. *)
Inductive match_kind := exact | children.

(** The fetch plan of the specification (section 4.3), in the order the
    server issues it, with the depth read off the length of the
    identifier as the server does: level, kind of match, identifier. *)
Definition fetch_plan (code : string) : list (Z * match_kind * string) :=
  let codeLen := JS.length code in
  if (codeLen =? 2)%Z then [(1%Z, exact, code); (2%Z, children, code)]
  else if (codeLen =? 5)%Z then
    [(2%Z, exact, code); (3%Z, children, code); (4%Z, children, code)]
  else if (codeLen =? 8)%Z then
    [(2%Z, exact, JS.substring0 code 5); (3%Z, exact, code);
     (4%Z, children, code)]
  else if (13 <=? codeLen)%Z then
    [(3%Z, exact, JS.substring0 code 8); (4%Z, exact, code)]
  else [].

(** The statement each server sends for one fetch of the plan. *)
Definition legacy_call (f : Z * match_kind * string) : store_call :=
  match f with
  | (l, exact, c) => pool_select_level_eq l c
  | (l, children, c) => pool_select_level_like l (c +:+ ".%")
  end.



End Vocabulary.

(** A text without the characters [LIKE] reads specially. *)
Fixpoint plain (s : string) : bool :=
  match s with
  | EmptyString => true
  | String c rest =>
      negb (Ascii.eqb c "%") && negb (Ascii.eqb c "_") && negb (Ascii.eqb c "\")
      && plain rest
  end.

(* ===================================================================== *)
(** ** The rest of the server *)
(* ===================================================================== *)

(** [s.startsWith(x)] and [s.endsWith(x)]. *)
Module JSText.

Definition startsWith (s x : string) : bool := String.prefix x s.

Definition endsWith (s x : string) : bool :=
  String.prefix (String.rev x) (String.rev s).

(** [\d] *)
Definition is_digit (c : ascii) : bool :=
  let n := nat_of_ascii c in (48 <=? n)%nat && (n <=? 57)%nat.

(** The characters [.] of a regular expression matches: any but a line
    terminator. Of the line terminators, the line feed and the carriage
    return are characters of the model. *)
Definition not_line_terminator (c : ascii) : bool :=
  negb (Ascii.eqb c "010") && negb (Ascii.eqb c "013").

Fixpoint all_chars (ok : ascii -> bool) (s : string) : bool :=
  match s with
  | EmptyString => true
  | String c rest => ok c && all_chars ok rest
  end.

(** [file.match(/^\d{2}_.+$/)] *)
Definition province_pattern (file : string) : bool :=
  match file with
  | String a (String b (String u rest)) =>
      is_digit a && is_digit b && Ascii.eqb u "_"
      && negb (bool_decide (rest = "")) && all_chars not_line_terminator rest
  | _ => false
  end.

End JSText.

(** The level the sync route reads off a file name:
    [let level = 2; if (file.endsWith('_kecamatan.geojson')) level = 3;
     else if (file.endsWith('_kelurahan.geojson')) level = 4;
     else if (file === '11_Aceh.geojson' || file.match(/^\d{2}_.+$/)) level = 1] *)
Definition detectLevel (file : string) : Z :=
  if JSText.endsWith file "_kecamatan.geojson" then 3%Z
  else if JSText.endsWith file "_kelurahan.geojson" then 4%Z
  else if bool_decide (file = "11_Aceh.geojson") || JSText.province_pattern file
  then 1%Z
  else 2%Z.

(** The number of occurrences of [c] in [s]. *)
Fixpoint count_char (c : ascii) (s : string) : nat :=
  match s with
  | EmptyString => 0
  | String d rest => (if Ascii.eqb c d then 1 else 0) + count_char c rest
  end.

(** [n] underscores. *)
Fixpoint underscores (n : nat) : string :=
  match n with
  | O => EmptyString
  | S m => String "_" (underscores m)
  end.

(** Identifiers of fixed width: the identifier [k] of a row stored at
    [level] has the length of that level (2, 5, 8 or 13) and its dots where
    the segments of two characters end. *)
Definition dot_at (i : nat) (k : string) : bool :=
  bool_decide (String.get i k = Some "."%char).

Definition canonical_id (level : Z) (k : string) : bool :=
  if (level =? 1)%Z then (String.length k =? 2)%nat
  else if (level =? 2)%Z then (String.length k =? 5)%nat && dot_at 2 k
  else if (level =? 3)%Z then (String.length k =? 8)%nat && dot_at 5 k
  else if (level =? 4)%Z then
    (String.length k =? 13)%nat && dot_at 5 k && dot_at 8 k
  else true.

Definition fixed_width `{PostGIS} (t : gmap string Sql.row) : Prop :=
  map_Forall (fun k row => canonical_id (Sql.level row) k = true) t.

(* ===================================================================== *)
(** ** The routes from the request on *)
(* ===================================================================== *)

(** A file of the directory [geojson]: its name, and the features of its
    content; [None] when the content is not JSON or its [features] member
    cannot be iterated, in which case reading the file throws. *)
Record geojson_file `{JSON} := {
  file_name : string;
  file_features : option (list feature)
}.

(** What [POST /api/db/sync] answers. *)
Inductive sync_answer :=
| sync_400                 (* [{ error: 'Code is required' }] *)
| sync_no_directory        (* 500, [{ error: 'GEOJSON directory not found' }] *)
| sync_404                 (* [{ error: 'No source files found' }] *)
| sync_done (r : sync_response).

(** The environment as seen after one statement has been sent without
    being logged: statement [n] of the rest is statement [n + 1]. *)
Definition later (E : env) : env :=
  {| DB_PROVIDER := DB_PROVIDER E; supabaseAdmin := supabaseAdmin E;
     answers := fun n => answers E (S n); NOW := fun n => NOW E (S n) |}.

(** The object [stats] of the status route. *)
Record stats := {
  s_provinsi : Z;
  s_kabupaten : Z;
  s_kecamatan : Z;
  s_kelurahan : Z;
  s_available : bool;
  s_fileAvailable : bool
}.

(** What [GET /api/db/status] answers. *)
Inductive status_response :=
| status_400                     (* [{ error: 'Code is required' }] *)
| status_200 (s : stats)
| status_unavailable.            (* [{ available: false, error: ... }] *)

Section Routes.
Context `{PostGIS} `{JSON}.
Variable E : env.

Local Notation "'let*' x ':=' m 'in' k" := (bind m (fun x => k))
  (at level 10, x name, m at level 100, k at level 200).

(* ------------------------------------------------------------------- *)
(** *** [POST /api/db/sync] *)
(* ------------------------------------------------------------------- *)

(** [file.startsWith(code) && file.endsWith('.geojson')] *)
Definition sync_selects (code : string) (file : geojson_file) : bool :=
  JSText.startsWith (file_name file) code
  && JSText.endsWith (file_name file) ".geojson".

(** [for (const file of files) { const data = JSON.parse(...); let level = ...;
     for (const feature of data.features) { ... } }] *)
Fixpoint sync_loop (files : list geojson_file) (totalProcessed : Z) : M Z :=
  match files with
  | [] => ret totalProcessed
  | file :: rest =>
      match file_features file with
      | None => throw (Error "SyntaxError")
      | Some features =>
          let level := detectLevel (file_name file) in
          let* n := sync_features E features level totalProcessed in
          sync_loop rest n
      end
  end.

(** [app.post('/api/db/sync', ...)] on [req.body.code], a string or
    absent, and the directory [geojson], [None] when it does not exist; a
    directory that exists is taken to be readable. *)
Definition sync_request (code : option string)
    (directory : option (list geojson_file))
    : world -> sync_answer * world :=
  fun w =>
    match code with
    | None => (sync_400, w)
    | Some code =>
        if JS.falsy (JStr code) then (sync_400, w)
        else match directory with
             | None => (sync_no_directory, w)
             | Some dir =>
                 let files := filter (fun f => sync_selects code f = true) dir in
                 if (Z.of_nat (length files) =? 0)%Z then (sync_404, w)
                 else match sync_loop files 0 w with
                      | (Normal n, w') => (sync_done (sync_ok n), w')
                      | (Throw _, w') => (sync_done sync_500, w')
                      end
             end
    end.

(* ------------------------------------------------------------------- *)
(** *** [seedInitialData] *)
(* ------------------------------------------------------------------- *)

(** [SELECT 1 FROM m_wilayah_poligon WHERE level = 1 LIMIT 1] *)
Definition select_1_where_level_1 (t : gmap string Sql.row) : list Z :=
  take 1 ((fun _ => 1%Z) <$>
          filter (fun kr => Sql.level kr.2 = 1%Z) (Sql.scan t)).

(** [.from('m_wilayah_poligon').select('*', { count: 'exact', head: true })
     .eq('level', 1)]: the count. *)
Definition count_where_level_1 (t : gmap string Sql.row) : Z :=
  Z.of_nat (length (filter (fun kr => Sql.level kr.2 = 1%Z) (Sql.scan t))).

(** The first part of [seedInitialData]: [Some exists], or [None] where
    the function returns before it tests [exists]: the client is missing,
    or the statement failed. The statement is the first the call sends;
    it is not among the statements the log lists. *)
Definition seed_check (w : world) : option bool :=
  match DB_PROVIDER E with
  | SUPABASE =>
      if negb (supabaseAdmin E) then None
      else if answers E (length (sent w)) then
        Some (0 <? count_where_level_1 (table w))%Z
      else None
  | POSTGRES =>
      if answers E (length (sent w)) then
        Some (0 <? Z.of_nat (length (select_1_where_level_1 (table w))))%Z
      else None
  end.

(** [seedInitialData()], on the file [11_Aceh.geojson]: [None] when the
    file does not exist. Whatever the loop throws is caught and logged, and
    the function returns nothing: what it leaves is the world. *)
Definition seedInitialData (seed_file : option geojson_file) : world -> world :=
  fun w =>
    match seed_check w with
    | None => w
    | Some true => w
    | Some false =>
        match seed_file with
        | None => w
        | Some file =>
            match file_features file with
            | None => w
            | Some features => (sync_features (later E) features 1 0 w).2
            end
        end
    end.

(* ------------------------------------------------------------------- *)
(** *** [GET /api/db/status] *)
(* ------------------------------------------------------------------- *)

(** The levels of the rows whose identifier matches. *)
Definition levels_like (pattern : string) (t : gmap string Sql.row) : list Z :=
  (fun kr => Sql.level kr.2) <$>
    filter (fun kr => Sql.like pattern kr.1 = true) (Sql.scan t).

Definition levels_ilike (pattern : string) (t : gmap string Sql.row) : list Z :=
  (fun kr => Sql.level kr.2) <$>
    filter (fun kr => Sql.ilike pattern kr.1 = true) (Sql.scan t).

(** [SELECT level, COUNT( * ) as count FROM m_wilayah_poligon
     WHERE kode_wilayah_kemendagri LIKE $1 GROUP BY level]: one row per
    level met, with the number of rows of that level. *)
Definition select_count_group_by_level (p1 : string) (t : gmap string Sql.row)
    : list (Z * Z) :=
  let ls := levels_like p1 t in
  (fun l => (l, Z.of_nat (length (filter (fun x => x = l) ls))))
    <$> remove_dups ls.

Definition zero_stats : stats :=
  {| s_provinsi := 0; s_kabupaten := 0; s_kecamatan := 0; s_kelurahan := 0;
     s_available := false; s_fileAvailable := false |}.

(** [if (row.level === 1) stats.provinsi = parseInt(row.count); ...] *)
Definition set_count (s : stats) (row : Z * Z) : stats :=
  let s1 := if (row.1 =? 1)%Z then
              {| s_provinsi := row.2; s_kabupaten := s_kabupaten s;
                 s_kecamatan := s_kecamatan s; s_kelurahan := s_kelurahan s;
                 s_available := s_available s;
                 s_fileAvailable := s_fileAvailable s |} else s in
  let s2 := if (row.1 =? 2)%Z then
              {| s_provinsi := s_provinsi s1; s_kabupaten := row.2;
                 s_kecamatan := s_kecamatan s1; s_kelurahan := s_kelurahan s1;
                 s_available := s_available s1;
                 s_fileAvailable := s_fileAvailable s1 |} else s1 in
  let s3 := if (row.1 =? 3)%Z then
              {| s_provinsi := s_provinsi s2; s_kabupaten := s_kabupaten s2;
                 s_kecamatan := row.2; s_kelurahan := s_kelurahan s2;
                 s_available := s_available s2;
                 s_fileAvailable := s_fileAvailable s2 |} else s2 in
  if (row.1 =? 4)%Z then
    {| s_provinsi := s_provinsi s3; s_kabupaten := s_kabupaten s3;
       s_kecamatan := s_kecamatan s3; s_kelurahan := row.2;
       s_available := s_available s3;
       s_fileAvailable := s_fileAvailable s3 |} else s3.

(** [if (r.level === 1) stats.provinsi++; ...] *)
Definition count_level (s : stats) (level : Z) : stats :=
  let s1 := if (level =? 1)%Z then
              {| s_provinsi := s_provinsi s + 1; s_kabupaten := s_kabupaten s;
                 s_kecamatan := s_kecamatan s; s_kelurahan := s_kelurahan s;
                 s_available := s_available s;
                 s_fileAvailable := s_fileAvailable s |} else s in
  let s2 := if (level =? 2)%Z then
              {| s_provinsi := s_provinsi s1; s_kabupaten := s_kabupaten s1 + 1;
                 s_kecamatan := s_kecamatan s1; s_kelurahan := s_kelurahan s1;
                 s_available := s_available s1;
                 s_fileAvailable := s_fileAvailable s1 |} else s1 in
  let s3 := if (level =? 3)%Z then
              {| s_provinsi := s_provinsi s2; s_kabupaten := s_kabupaten s2;
                 s_kecamatan := s_kecamatan s2 + 1; s_kelurahan := s_kelurahan s2;
                 s_available := s_available s2;
                 s_fileAvailable := s_fileAvailable s2 |} else s2 in
  if (level =? 4)%Z then
    {| s_provinsi := s_provinsi s3; s_kabupaten := s_kabupaten s3;
       s_kecamatan := s_kecamatan s3; s_kelurahan := s_kelurahan s3 + 1;
       s_available := s_available s3;
       s_fileAvailable := s_fileAvailable s3 |} else s3.

Definition set_available (b : bool) (s : stats) : stats :=
  {| s_provinsi := s_provinsi s; s_kabupaten := s_kabupaten s;
     s_kecamatan := s_kecamatan s; s_kelurahan := s_kelurahan s;
     s_available := b; s_fileAvailable := s_fileAvailable s |}.

Definition set_fileAvailable (b : bool) (s : stats) : stats :=
  {| s_provinsi := s_provinsi s; s_kabupaten := s_kabupaten s;
     s_kecamatan := s_kecamatan s; s_kelurahan := s_kelurahan s;
     s_available := s_available s; s_fileAvailable := b |}.

(** The first part of the [try] block: the statistics read from the
    store. The route only reads; its statements are numbered from the
    length of the log and are not added to it. With the Supabase provider
    the first statement is sent and its answer left unused; the second
    counts, and the third is sent when the count is positive. The REST
    interface is taken to return every row the statement selects. *)
Definition status_stats (code : string) (w : world) : completion stats :=
  let n := length (sent w) in
  match DB_PROVIDER E with
  | SUPABASE =>
      if negb (supabaseAdmin E) then
        Throw (Error "Supabase Admin not initialized")
      else if answers E (S n) then
        let count := Z.of_nat (length (levels_ilike (code +:+ "%") (table w))) in
        let s := set_available (0 <? count)%Z zero_stats in
        if s_available s then
          if answers E (S (S n)) then
            Normal (foldl count_level s (levels_ilike (code +:+ "%") (table w)))
          else Normal s
        else Normal s
      else Normal zero_stats
  | POSTGRES =>
      if answers E n then
        let rows := select_count_group_by_level (code +:+ "%") (table w) in
        Normal (set_available (0 <? Z.of_nat (length rows))%Z
                              (foldl set_count zero_stats rows))
      else Throw (Error "query failed")
  end.

(** [app.get('/api/db/status', ...)] on [req.query.code]. The test of the
    directory (lines 272 to 279 of the route) builds a regular expression
    from [code]; its outcome is taken as given: [None] when the directory
    does not exist, [Some (Throw _)] when the test throws. *)
Definition status_route (code : option string)
    (hasFile : option (completion bool)) (w : world) : status_response :=
  match code with
  | None => status_400
  | Some code =>
      if JS.falsy (JStr code) then status_400
      else match status_stats code w with
           | Throw _ => status_unavailable
           | Normal s =>
               match hasFile with
               | None => status_200 s
               | Some (Throw _) => status_unavailable
               | Some (Normal b) => status_200 (set_fileAvailable b s)
               end
           end
  end.

End Routes.

(** [t'] keeps every row of [t], with its level and creation time, and
    the level of each row it adds is among [levels]. *)
Definition grows_by `{PostGIS} (levels : Z -> Prop)
    (t t' : gmap string Sql.row) : Prop :=
  (forall k r, t !! k = Some r ->
     exists r', t' !! k = Some r' /\ Sql.level r' = Sql.level r
                /\ Sql.created_at r' = Sql.created_at r)
  /\ (forall k r', t !! k = None -> t' !! k = Some r' -> levels (Sql.level r')).

(** The same, for the four levels of the hierarchy. *)
Definition extends_table `{PostGIS} (t t' : gmap string Sql.row) : Prop :=
  grows_by (fun l => 1 <= l <= 4)%Z t t'.

(** An identifier made of digits and dots. *)
Definition is_id_char (c : ascii) : bool :=
  JSText.is_digit c || Ascii.eqb c ".".

Definition digits_and_dots (code : string) : bool :=
  JSText.all_chars is_id_char code.

(** A text of ASCII characters only. *)
Definition ascii_text (s : string) : bool :=
  JSText.all_chars (fun c => (nat_of_ascii c <? 128)%nat) s.

(** The statement [upsertFeature] sends with each provider. *)
Definition upsert_statement (E : env) (kode nama : option string) (level : Z)
    (geometryStr : string) : store_call :=
  match DB_PROVIDER E with
  | POSTGRES => pool_insert_on_conflict kode nama level geometryStr
  | SUPABASE => rpc_upsert_wilayah kode nama level geometryStr
  end.

(** The order of the hits of a search: by level, then by name, a missing
    name last. *)
Definition hit_le (a b : Sql.hit) : bool :=
  if (Sql.hit_level a <? Sql.hit_level b)%Z then true
  else if (Sql.hit_level b <? Sql.hit_level a)%Z then false
  else match Sql.hit_name a, Sql.hit_name b with
       | Some x, Some y => String.leb x y
       | Some _, None => true
       | None, Some _ => false
       | None, None => true
       end.

(** The text a search looks for in the lowered names: the query as
    JavaScript lowers it with the direct provider, and as the database
    lowers it in [search_wilayah]. *)
Definition search_needle `{PostGIS} (E : env) (q : string) : string :=
  match DB_PROVIDER E with
  | POSTGRES => JS.toLowerCase q
  | SUPABASE => Sql.lower q
  end.

(** [p] occurs in [s]. *)
Definition occurs_in (p s : string) : Prop := exists u v, s = u +:+ p +:+ v.

(** [n] percent signs. *)
Fixpoint percents (n : nat) : string :=
  match n with
  | O => EmptyString
  | S m => String "%" (percents m)
  end.

(** Tables and directories on which the statements can be run. *)
Module Sample.

(** A province, a regency, a district and a village, with the identifiers
    the deriver gives them. *)
Definition aceh_selatan : gmap string (@Sql.row Toy.postgis) :=
  {[ "11" := Toy.mk_row "Aceh" 1;
     "11.01" := Toy.mk_row "Aceh Selatan" 2;
     "11.01.05" := Toy.mk_row "Bakongan" 3;
     "11.01.05.2003" := Toy.mk_row "Keude Bakongan" 4 ]}.

(** A first-level bag whose code is absent. *)
Definition province_without_code : gmap string jsval :=
  {[ "nm_propinsi" := JStr "Aceh" ]}.

Definition province_file : @geojson_file Toy.json :=
  @Build_geojson_file Toy.json "11_Aceh.geojson"
    (Some [Toy.feature_of {[ "kd_propinsi" := JStr "11";
                             "nm_propinsi" := JStr "Aceh" ]} "{a}"]).

Definition kecamatan_file : @geojson_file Toy.json :=
  @Build_geojson_file Toy.json "11.01_kecamatan.geojson"
    (Some [Toy.feature_of Toy.kecamatan_0105 "{k}"]).

Definition broken_file : @geojson_file Toy.json :=
  @Build_geojson_file Toy.json "11.02_kecamatan.geojson" None.

Definition directory : list (@geojson_file Toy.json) :=
  [province_file; kecamatan_file; broken_file].

End Sample.

(* ===================================================================== *)
(** * Properties *)
(* ===================================================================== *)

(** ** Strings *)

Lemma list_of_substring (s : string) (n m : nat) :
  String.list_ascii_of_string (String.substring n m s)
  = take m (drop n (String.list_ascii_of_string s)).
Proof.
  revert n m. induction s as [|c s IH]; intros [|n] [|m]; simpl; trivial.
  now rewrite (IH 0%nat m).
Qed.

Lemma length_list_of_string (s : string) :
  length (String.list_ascii_of_string s) = String.length s.
Proof. induction s; simpl; congruence. Qed.

(** [slice(-2)] is the last two characters. *)
Lemma slice_last_chars (s : string) : JS.slice s (-2) = last_chars 2 s.
Proof.
  unfold JS.slice, last_chars, JS.length.
  rewrite <- (String.string_of_list_ascii_of_string (String.substring _ _ s)).
  f_equal. rewrite list_of_substring, take_reverse, reverse_involutive.
  rewrite length_list_of_string.
  change (-2 <? 0)%Z with true. cbv iota.
  set (len := String.length s).
  replace (Z.to_nat (Z.max (Z.of_nat len + -2) 0)) with (len - 2)%nat by lia.
  apply take_ge. rewrite length_drop, length_list_of_string. fold len. lia.
Qed.

(** ** The code deriver *)

(** C1. With the top, second and third codes present as strings, the
    level-3 identifier is top + "." + second + "." + the last two
    characters of the third code; at level 4 the same is followed by "."
    and the fourth code with the digit 2 put before it. The examples of
    the specification: third codes 0105 and 05 both give the segment 05,
    and the fourth code 003 gives the segment 2003. *)
Theorem derive_level3_level4 (p : gmap string jsval) (a b c : string) :
  JS.get p "kd_propinsi" = JStr a ->
  JS.get p "kd_dati2" = JStr b ->
  JS.get p "kd_kecamatan" = JStr c ->
  transformProperties (Some p) 3
    = Normal {| kode := JStr (a +:+ "." +:+ b +:+ "." +:+ last_chars 2 c);
                nama := JS.get p "nm_kecamatan" |}
  /\ (forall d, JS.get p "kd_kelurahan" = JStr d ->
        transformProperties (Some p) 4
        = Normal {| kode := JStr (a +:+ "." +:+ b +:+ "." +:+ last_chars 2 c
                                  +:+ "." +:+ ("2" +:+ d));
                    nama := JS.get p "nm_kelurahan" |})
  /\ transformProperties (Some Toy.kecamatan_0105) 3
     = Normal {| kode := JStr "11.01.05"; nama := JStr "Bakongan" |}
  /\ transformProperties (Some Toy.kecamatan_05) 3
     = Normal {| kode := JStr "11.01.05"; nama := JStr "Bakongan" |}
  /\ transformProperties (Some Toy.kelurahan_003) 4
     = Normal {| kode := JStr "11.01.05.2003"; nama := JStr "Keude Bakongan" |}.
Proof.
  intros Ha Hb Hc. repeat split.
  - unfold transformProperties. simpl. rewrite Ha, Hb, Hc. simpl.
    now rewrite slice_last_chars.
  - intros d Hd. unfold transformProperties. simpl.
    rewrite Ha, Hb, Hc, Hd. simpl. now rewrite slice_last_chars.
Qed.

Lemma derive_level3_level4_witness :
  transformProperties (Some Toy.kelurahan_003) 3
  = Normal {| kode := JStr ("11" +:+ "." +:+ "01" +:+ "." +:+ last_chars 2 "0105");
              nama := JS.get Toy.kelurahan_003 "nm_kecamatan" |}.
Proof.
  apply (derive_level3_level4 Toy.kelurahan_003 "11" "01" "0105");
    reflexivity.
Defined.

Lemma append_assoc (a b c : string) : (a +:+ b) +:+ c = a +:+ b +:+ c.
Proof.
  induction a as [|x a IH]; [reflexivity|].
  change (String x ((a +:+ b) +:+ c) = String x (a +:+ b +:+ c)).
  now rewrite IH.
Qed.

Lemma renders_undefined_left (v : string) :
  renders_undefined (JS.ToString JUndefined +:+ v).
Proof. exists "", v. reflexivity. Qed.

Lemma renders_undefined_right (u s : string) :
  renders_undefined s -> renders_undefined (u +:+ s).
Proof.
  intros (x & y & ->). exists (u +:+ x), y. now rewrite append_assoc.
Qed.

Lemma get_absent (p : gmap string jsval) (k : string) :
  p !! k = None -> JS.get p k = JUndefined.
Proof. unfold JS.get. now intros ->. Qed.

Lemma append_dot_nonempty (a b : string) : a +:+ "." +:+ b <> "".
Proof. destruct a; discriminate. Qed.

Section Deriver.
Context `{PostGIS} `{JSON}.

(** C7 as stated fails: a second-level feature without its second-level
    code gets the identifier 11.undefined, which is not empty. *)
Lemma derive_missing_code_not_empty :
  Toy.kabupaten_without_code !! "kd_dati2" = None
  /\ "kd_dati2" ∈ required_codes 2
  /\ transformProperties (Some Toy.kabupaten_without_code) 2
     = Normal {| kode := JStr "11.undefined"; nama := JStr "Aceh Selatan" |}
  /\ JStr "11.undefined" <> JStr "".
Proof.
  split; [reflexivity|]. split; [|split; [reflexivity | discriminate]].
  unfold required_codes; simpl. repeat constructor.
Qed.

(** The loop over a batch goes on after the features that succeeded. *)
Lemma sync_features_app (E : env) (before rest : list feature) (level : Z) :
  forall (n m : Z) (w w1 : world),
    sync_features E before level n w = (Normal m, w1) ->
    sync_features E (before ++ rest) level n w
    = sync_features E rest level m w1.
Proof.
  induction before as [|f before IH]; intros n m w w1 Hrun.
  - injection Hrun as <- <-. reflexivity.
  - simpl in *. unfold bind, lift in *.
    destruct (transformProperties (properties f) level) as [d|e]; [|discriminate].
    destruct (upsertFeature E (kode d) (nama d) level (geometry f) w)
      as [[[]|e] w0]; [|discriminate].
    exact (IH _ _ _ _ Hrun).
Qed.

(** What [upsertFeature] sends, and that an identifier which is
    [undefined] makes the statement fail in the store. *)
Lemma upsertFeature_sends (E : env) kode nama level (g : geojson) (w : world) :
  (DB_PROVIDER E = SUPABASE -> supabaseAdmin E = true) ->
  exists c w',
    upsertFeature E kode nama level g w = (c, w')
    /\ sent w' = sent w ++ [upsert_statement E (to_param kode) (to_param nama)
                                             level (JSON_stringify g)]
    /\ (to_param kode = None -> (exists e, c = Throw e) /\ table w' = table w).
Proof.
  intros Hadmin. unfold upsertFeature, upsert_statement.
  destruct (DB_PROVIDER E).
  - unfold pool_query, send, writing.
    destruct (answers E _).
    + destruct (Sql.insert_on_conflict _ _ _ _ _ _) as [t'|] eqn:Hrun; simpl.
      * do 2 eexists. split; [reflexivity|]. split; [reflexivity|].
        intros Hnull. rewrite Hnull in Hrun. unfold Sql.insert_on_conflict in Hrun.
        destruct (Sql.simplified _); discriminate.
      * do 2 eexists. split; [reflexivity|]. split; [reflexivity|]. eauto.
    + do 2 eexists. split; [reflexivity|]. split; [reflexivity|]. eauto.
  - unfold bind, supabase_call, send, writing. rewrite (Hadmin eq_refl).
    cbn [negb]. cbv beta iota.
    destruct (answers E _).
    + destruct (Sql.upsert_wilayah _ _ _ _ _ _) as [t'|] eqn:Hrun; simpl.
      * do 2 eexists. split; [reflexivity|]. split; [reflexivity|].
        intros Hnull. rewrite Hnull in Hrun. unfold Sql.upsert_wilayah in Hrun.
        destruct (Sql.simplified _); discriminate.
      * do 2 eexists. split; [reflexivity|]. split; [reflexivity|]. eauto.
    + do 2 eexists. split; [reflexivity|]. split; [reflexivity|]. eauto.
Qed.

(** C7, amended. [transformProperties] is a function of the property bag
    and the level. On a property bag whose values are strings or [null],
    when a code it reads at a level from 1 to 4 is absent, it never
    yields the empty identifier: at level 1 the identifier is
    [undefined]; at levels 3 and 4 it throws a [TypeError] when the
    third-level code is absent or [null]; in every other case it returns a
    non-empty identifier in which the absent code reads [undefined]. The
    sync loop does not look at the identifier: with either provider and at
    any place of a batch, it sends the upsert of what was derived and goes
    on or stops by the outcome of that statement alone; an identifier that
    is [undefined] reaches the store as [NULL], where the statement fails,
    and a throw of the deriver stops the loop before anything is sent for
    the feature. *)
Theorem derive_missing_code (p : gmap string jsval) (level : Z) (k : string) :
  (1 <= level <= 4)%Z ->
  k ∈ required_codes level ->
  p !! k = None ->
  (level = 1%Z ->
     transformProperties (Some p) level
     = Normal {| kode := JUndefined; nama := JS.get p "nm_propinsi" |})
  /\ (level <> 1%Z ->
        ((level = 3 \/ level = 4)%Z
         /\ (JS.get p "kd_kecamatan" = JUndefined
             \/ JS.get p "kd_kecamatan" = JNull) ->
         exists msg, transformProperties (Some p) level = Throw (TypeError msg))
        /\ (~ ((level = 3 \/ level = 4)%Z
               /\ (JS.get p "kd_kecamatan" = JUndefined
                   \/ JS.get p "kd_kecamatan" = JNull)) ->
            exists d s,
              transformProperties (Some p) level = Normal d
              /\ kode d = JStr s /\ s <> "" /\ renders_undefined s))
  /\ (k = "kd_kecamatan" ->
        exists msg, transformProperties (Some p) level = Throw (TypeError msg))
  /\ (forall d, transformProperties (Some p) level = Normal d ->
        kode d <> JStr "")
  /\ (forall (E : env) (w w1 : world) (before rest : list feature)
             (f : feature) (n m : Z),
        properties f = Some p ->
        (DB_PROVIDER E = SUPABASE -> supabaseAdmin E = true) ->
        sync_features E before level n w = (Normal m, w1) ->
        match transformProperties (Some p) level with
        | Throw e =>
            sync_features E (before ++ f :: rest) level n w = (Throw e, w1)
        | Normal d =>
            exists c w2,
              upsertFeature E (kode d) (nama d) level (geometry f) w1 = (c, w2)
              /\ sent w2
                 = sent w1 ++ [upsert_statement E (to_param (kode d))
                                 (to_param (nama d)) level
                                 (JSON_stringify (geometry f))]
              /\ sync_features E (before ++ f :: rest) level n w
                 = match c with
                   | Normal _ => sync_features E rest level (m + 1) w2
                   | Throw e => (Throw e, w2)
                   end
              /\ (kode d = JUndefined ->
                    (exists e, c = Throw e) /\ table w2 = table w1)
        end).
Proof.
  intros Hlevel Hk Hp.
  assert (Hcases : level = 1%Z \/ level = 2%Z \/ level = 3%Z \/ level = 4%Z) by lia.
  assert (Hundef := get_absent p k Hp).
  assert (Hmain :
    (level = 1%Z ->
       transformProperties (Some p) level
       = Normal {| kode := JUndefined; nama := JS.get p "nm_propinsi" |})
    /\ (level <> 1%Z ->
          match transformProperties (Some p) level with
          | Throw e =>
              (level = 3 \/ level = 4)%Z
              /\ (JS.get p "kd_kecamatan" = JUndefined
                  \/ JS.get p "kd_kecamatan" = JNull)
              /\ exists msg, e = TypeError msg
          | Normal d =>
              ((level = 3 \/ level = 4)%Z ->
                 exists c, JS.get p "kd_kecamatan" = JStr c)
              /\ exists s, kode d = JStr s /\ s <> "" /\ renders_undefined s
          end)).
  { destruct Hcases as [-> | [-> | [-> | ->]]]; unfold required_codes in Hk;
      simpl in Hk; split; try (intros; lia); intros _;
      unfold transformProperties; simpl.
    - apply list_elem_of_singleton in Hk. subst k. now rewrite Hundef.
    - split; [intros [Hc|Hc]; discriminate Hc|].
      eexists; split; [reflexivity|]. split; [apply append_dot_nonempty|].
      set_unfold in Hk. destruct Hk as [-> | [-> | []]]; rewrite Hundef.
      + apply renders_undefined_left.
      + apply renders_undefined_right. exists ".", "". reflexivity.
    - destruct (JS.get p "kd_kecamatan") as [| |c] eqn:Hc; simpl;
        try (split; [lia|]; split; [tauto | eexists; reflexivity]).
      split; [intros _; now exists c|].
      eexists; split; [reflexivity|]. split; [apply append_dot_nonempty|].
      set_unfold in Hk. destruct Hk as [-> | [-> | [-> | []]]].
      + rewrite Hundef. apply renders_undefined_left.
      + rewrite Hundef. apply renders_undefined_right.
        exists ".", ("." +:+ JS.slice c (-2)). reflexivity.
      + congruence.
    - destruct (JS.get p "kd_kecamatan") as [| |c] eqn:Hc; simpl;
        try (split; [lia|]; split; [tauto | eexists; reflexivity]).
      split; [intros _; now exists c|].
      eexists; split; [reflexivity|]. split; [apply append_dot_nonempty|].
      set_unfold in Hk. destruct Hk as [-> | [-> | [-> | [-> | []]]]].
      + rewrite Hundef. apply renders_undefined_left.
      + rewrite Hundef. apply renders_undefined_right.
        exists ".", ("." +:+ JS.slice c (-2) +:+ "." +:+ "2" +:+
                     JS.ToString (JS.get p "kd_kelurahan")). reflexivity.
      + congruence.
      + rewrite Hundef. do 5 apply renders_undefined_right.
        exists ".2", "". reflexivity. }
  destruct Hmain as [H1 Hn1].
  split; [exact H1|]. split; [|split; [|split]].
  - intros Hl. specialize (Hn1 Hl). split.
    + intros [H34 Hkec].
      destruct (transformProperties (Some p) level) as [d|e].
      * destruct Hn1 as [Hstr _]. exfalso.
        destruct (Hstr H34) as [c Hc]. destruct Hkec; congruence.
      * destruct Hn1 as (_ & _ & msg & ->). now exists msg.
    + intros Hnot.
      destruct (transformProperties (Some p) level) as [d|e].
      * destruct Hn1 as (_ & s & Hs & Hne & Hren). now exists d, s.
      * destruct Hn1 as (H34 & Hkec & _). exfalso. apply Hnot. now split.
  - intros ->.
    assert (Hl : level <> 1%Z).
    { intros ->. unfold required_codes in Hk. simpl in Hk.
      apply list_elem_of_singleton in Hk. discriminate Hk. }
    assert (H34 : (level = 3 \/ level = 4)%Z).
    { destruct Hcases as [-> | [-> | [-> | ->]]]; try lia.
      unfold required_codes in Hk. simpl in Hk. set_unfold in Hk.
      destruct Hk as [Hk | [Hk | []]]; discriminate Hk. }
    specialize (Hn1 Hl).
    destruct (transformProperties (Some p) level) as [d|e].
    + destruct Hn1 as [Hstr _]. exfalso.
      destruct (Hstr H34) as [c Hc]. congruence.
    + destruct Hn1 as (_ & _ & msg & ->). now exists msg.
  - intros d Hd. destruct (decide (level = 1%Z)) as [Hl|Hl].
    + rewrite (H1 Hl) in Hd. injection Hd as <-. discriminate.
    + specialize (Hn1 Hl). rewrite Hd in Hn1.
      destruct Hn1 as (_ & s & Hs & Hne & _). rewrite Hs. congruence.
  - intros E w w1 before rest f n m Hf Hadmin Hbefore.
    rewrite (sync_features_app E before (f :: rest) level n m w w1 Hbefore).
    simpl. unfold bind, lift. rewrite Hf.
    destruct (transformProperties (Some p) level) as [d|e]; [|reflexivity].
    destruct (upsertFeature_sends E (kode d) (nama d) level (geometry f) w1 Hadmin)
      as (c & w2 & Hrun & Hsent & Hnull).
    exists c, w2. split; [exact Hrun|]. split; [exact Hsent|]. split.
    + rewrite Hrun. now destruct c as [[]|e].
    + intros Hkode. apply Hnull. now rewrite Hkode.
Qed.

End Deriver.

Lemma derive_missing_code_witness :
  let E := Toy.env_of SUPABASE in
  let f := Toy.feature_of Sample.province_without_code "{a}" in
  match transformProperties (Some Sample.province_without_code) 1 with
  | Throw e =>
      @sync_features Toy.postgis Toy.json E ([] ++ f :: []) 1 0 (Toy.start ∅)
      = (Throw e, Toy.start ∅)
  | Normal d =>
      exists c w2,
        @upsertFeature Toy.postgis Toy.json E (kode d) (nama d) 1 (geometry f)
                       (Toy.start ∅) = (c, w2)
        /\ sent w2
           = sent (Toy.start ∅)
             ++ [upsert_statement E (to_param (kode d)) (to_param (nama d)) 1
                                  (@JSON_stringify Toy.json (geometry f))]
        /\ @sync_features Toy.postgis Toy.json E ([] ++ f :: []) 1 0 (Toy.start ∅)
           = match c with
             | Normal _ => @sync_features Toy.postgis Toy.json E [] 1 (0 + 1) w2
             | Throw e => (Throw e, w2)
             end
        /\ (kode d = JUndefined ->
              (exists e, c = Throw e) /\ table w2 = table (Toy.start ∅))
  end.
Proof.
  intros E f.
  assert (Hlevel : (1 <= 1 <= 4)%Z) by lia.
  assert (Hk : "kd_propinsi" ∈ required_codes 1)
    by (unfold required_codes; simpl; repeat constructor).
  assert (Hp : Sample.province_without_code !! "kd_propinsi" = None) by reflexivity.
  exact (proj2 (proj2 (proj2 (proj2
           (@derive_missing_code Toy.postgis Toy.json
              Sample.province_without_code 1 "kd_propinsi" Hlevel Hk Hp))))
           E (Toy.start ∅) (Toy.start ∅) [] [] f 0%Z 0%Z
           eq_refl (fun _ => eq_refl) eq_refl).
Defined.

(** ** The upsert *)

Section Upsert.
Context `{PostGIS} `{JSON}.

Lemma insert_on_conflict_inv now p1 p2 p3 p4 (t t' : gmap string Sql.row) :
  Sql.insert_on_conflict now p1 p2 p3 p4 t = Some t' ->
  exists k g,
    p1 = Some k /\ Sql.simplified p4 = Some g
    /\ is_MultiPolygon_4326 g = true
    /\ t' = <[k := upserted now p2 p3 g (t !! k)]> t.
Proof.
  unfold Sql.insert_on_conflict. intros Hrun.
  destruct (Sql.simplified p4) as [g|] eqn:Hg; [|discriminate].
  destruct p1 as [k|]; [|discriminate]. simpl in Hrun.
  destruct (is_MultiPolygon_4326 g) eqn:Hfit; [|discriminate].
  exists k, g. repeat split; trivial.
  injection Hrun as <-. unfold upserted. now destruct (t !! k).
Qed.

(** The SQL function and the inline statement are the same statement. *)
Lemma upsert_wilayah_is_insert_on_conflict now p1 p2 p3 p4 (t : gmap string Sql.row) :
  Sql.upsert_wilayah now p1 p2 p3 p4 t = Sql.insert_on_conflict now p1 p2 p3 p4 t.
Proof. reflexivity. Qed.

(** A call of [upsertFeature] that returns has run the statement, with
    either provider. *)
Lemma upsertFeature_normal (E : env) kode nama level (g : geojson) (w w' : world) :
  upsertFeature E kode nama level g w = (Normal tt, w') ->
  Sql.insert_on_conflict (NOW E (length (sent w))) (to_param kode) (to_param nama)
                         level (JSON_stringify g) (table w)
  = Some (table w').
Proof.
  unfold upsertFeature.
  destruct (DB_PROVIDER E).
  - unfold pool_query, send, writing.
    destruct (answers E _); [|discriminate].
    destruct (Sql.insert_on_conflict _ _ _ _ _ _); simpl; [|discriminate].
    now intros [= <-].
  - destruct (supabaseAdmin E) eqn:Hadmin; simpl; [|discriminate].
    unfold bind, supabase_call, send, writing. rewrite Hadmin.
    destruct (answers E _); [|discriminate].
    rewrite upsert_wilayah_is_insert_on_conflict.
    destruct (Sql.insert_on_conflict _ _ _ _ _ _); simpl; [|discriminate].
    now intros [= <-].
Qed.

(** A call of [upsertFeature] that throws leaves the table as it was. *)
Lemma upsertFeature_throw (E : env) kode nama level (g : geojson) (w w' : world) e :
  upsertFeature E kode nama level g w = (Throw e, w') ->
  table w' = table w.
Proof.
  unfold upsertFeature.
  destruct (DB_PROVIDER E).
  - unfold pool_query, send, writing.
    destruct (answers E _); [|now intros [= _ <-]].
    destruct (Sql.insert_on_conflict _ _ _ _ _ _); simpl; [discriminate|].
    now intros [= _ <-].
  - destruct (supabaseAdmin E) eqn:Hadmin; simpl; [|now intros [= _ <-]].
    unfold bind, supabase_call, send, writing. rewrite Hadmin.
    destruct (answers E _); [|now intros [= _ <-]].
    destruct (Sql.upsert_wilayah _ _ _ _ _ _); simpl; [discriminate|].
    now intros [= _ <-].
Qed.





End Upsert.


(** ** Ingestion *)

Section Ingestion.
Context `{PostGIS} `{JSON}.

Lemma upsert_acts (E : env) (f : feature) (level : Z) d (w w' : world) :
  transformProperties (properties f) level = Normal d ->
  upsertFeature E (kode d) (nama d) level (geometry f) w = (Normal tt, w') ->
  exists o, feature_op level f = Some o
    /\ forall k, observe <$> table w' !! k = act k (observe <$> table w !! k) o.
Proof.
  intros Hd Hrun.
  apply upsertFeature_normal, insert_on_conflict_inv in Hrun.
  destruct Hrun as (k0 & g & Hk & Hg & Hfit & ->).
  exists {| op_kode := k0; op_nama := to_param (nama d);
            op_level := level; op_geometry := g |}.
  split.
  - unfold feature_op. rewrite Hd, Hk. simpl. rewrite Hg. simpl. now rewrite Hfit.
  - intros k. unfold act. simpl. destruct (decide (k0 = k)) as [->|Hne].
    + rewrite lookup_insert_eq. simpl. unfold upserted.
      destruct (table w !! k) as [old|]; reflexivity.
    + now rewrite lookup_insert_ne.
Qed.

Lemma sync_features_acts (E : env) (features : list feature) (level : Z) :
  forall (n m : Z) (w w' : world),
    sync_features E features level n w = (Normal m, w') ->
    exists ops, mapM (feature_op level) features = Some ops
      /\ m = (n + Z.of_nat (length features))%Z
      /\ forall k, observe <$> table w' !! k
                   = foldl (act k) (observe <$> table w !! k) ops.
Proof.
  induction features as [|f rest IH]; intros n m w w' Hrun.
  - injection Hrun as <- <-. exists []. repeat split. simpl. lia.
  - simpl in Hrun. unfold bind, lift in Hrun.
    destruct (transformProperties (properties f) level) as [d|e] eqn:Hd;
      [|discriminate].
    destruct (upsertFeature E (kode d) (nama d) level (geometry f) w)
      as [[[]|e] w1] eqn:Hup; [|discriminate].
    destruct (upsert_acts E f level d w w1 Hd Hup) as (o & Ho & Hact).
    destruct (IH _ _ _ _ Hrun) as (ops & Hops & Hm & Hfold).
    exists (o :: ops). split; [|split].
    + simpl. rewrite Ho. simpl. now rewrite Hops.
    + rewrite Hm. simpl length. lia.
    + intros k. simpl. rewrite Hfold. now rewrite Hact.
Qed.


(** The count returned by a sync that completes is the number of
    features, whatever the store held. *)
Lemma sync_files_count (E : env) (files : list (Z * list feature)) :
  forall (n m : Z) (w w' : world),
    sync_files E files n w = (Normal m, w') ->
    m = (n + Z.of_nat (length (concat (snd <$> files))))%Z.
Proof.
  induction files as [|[level features] rest IH]; intros n m w w' Hrun.
  - injection Hrun as <- <-. simpl. lia.
  - simpl in Hrun. unfold bind in Hrun.
    destruct (sync_features E features level n w) as [[n1|e] w1] eqn:Hhere;
      [|discriminate].
    destruct (sync_features_acts E features level _ _ _ _ Hhere)
      as (_ & _ & -> & _).
    rewrite (IH _ _ _ _ Hrun), fmap_cons. cbn [concat snd].
    rewrite length_app. lia.
Qed.










End Ingestion.


(** ** The hierarchy query and the search *)

Section Queries.
Context `{PostGIS} `{JSON}.

Lemma falsy_nonempty (code : string) : code <> "" -> JS.falsy (JStr code) = false.
Proof. intros Hne. unfold JS.falsy. now apply bool_decide_eq_false. Qed.

(** A length that is none of 2, 5, 8 and below 13 selects no branch. *)
Lemma geojson_try_unclassified (E : env) (code : string) (w : world) :
  (JS.length code <> 2)%Z -> (JS.length code <> 5)%Z ->
  (JS.length code <> 8)%Z -> (JS.length code < 13)%Z ->
  geojson_try E code w = (Normal empty_bundle, w)
  /\ legacy_geojson_try E code w = (Normal empty_bundle, w).
Proof.
  intros H2 H5 H8 H13. unfold geojson_try, legacy_geojson_try.
  rewrite (proj2 (Z.eqb_neq _ _) H2), (proj2 (Z.eqb_neq _ _) H5),
          (proj2 (Z.eqb_neq _ _) H8), (proj2 (Z.leb_gt _ _) H13).
  now split.
Qed.

(** C9, amended. A non-empty query identifier whose length is none of 2,
    5 and 8 and is below 13 gets, from both servers, the bundle with its
    four slots null, and no statement is sent to the store: the depth is
    read off the number of characters. The identifier 11.1.05, three
    segments in seven characters, is such a case. *)
Theorem unclassified_length_empty_bundle (E : env) (code : string) (w : world) :
  code <> "" ->
  (JS.length code <> 2)%Z -> (JS.length code <> 5)%Z ->
  (JS.length code <> 8)%Z -> (JS.length code < 13)%Z ->
  geojson_route E (Some code) w = (geojson_200 empty_bundle, w)
  /\ legacy_geojson_route E (Some code) w = (geojson_200 empty_bundle, w)
  /\ JS.length "11.1.05" = 7%Z
  /\ geojson_route E (Some "11.1.05") w = (geojson_200 empty_bundle, w).
Proof.
  intros Hne H2 H5 H8 H13.
  destruct (geojson_try_unclassified E code w H2 H5 H8 H13) as [Hnew Hold].
  unfold geojson_route, legacy_geojson_route.
  rewrite (falsy_nonempty code Hne), Hnew, Hold. repeat split.
Qed.

(** C10. A search whose query is missing or shorter than three
    characters is answered with the empty list by both servers and sends
    nothing to the store; with the direct provider a query of three
    characters or more sends the lookup of the lowered query between two
    [%] against the lowered names. *)
Theorem short_query_no_lookup (E : env) (query : option string) (w : world) :
  query = None \/ (exists q, query = Some q /\ (JS.length q < 3)%Z) ->
  search_route E query w = (search_200 [], w)
  /\ legacy_search_route E query w = (search_200 [], w)
  /\ (forall q, (3 <= JS.length q)%Z -> DB_PROVIDER E = POSTGRES ->
        sent (search_route E (Some q) w).2
        = sent w ++ [pool_select_search ("%" +:+ JS.toLowerCase q +:+ "%")]).
Proof.
  intros Hshort.
  assert (Hguard : search_guard query = true).
  { destruct Hshort as [-> | (q & -> & Hlen)]; [reflexivity|].
    unfold search_guard. rewrite (proj2 (Z.ltb_lt _ _) Hlen).
    apply orb_true_r. }
  unfold search_route, legacy_search_route. rewrite Hguard.
  split; [reflexivity|]. split; [reflexivity|].
  intros q Hlen HE.
  assert (Hopen : search_guard (Some q) = false).
  { unfold search_guard. rewrite (proj2 (Z.ltb_ge _ _) Hlen), orb_false_r.
    apply falsy_nonempty. intros ->. unfold JS.length in Hlen. simpl in Hlen. lia. }
  rewrite Hopen. unfold search_try. rewrite HE. simpl.
  unfold pool_query, send, reading.
  destruct (answers E (length (sent w))); reflexivity.
Qed.


(** *** What the fetches select *)

Lemma like_percent (s : string) : Sql.like "%" s = true.
Proof. induction s as [|c s IH]; [reflexivity|]. simpl in *. exact IH. Qed.

(** For an identifier without wildcard characters, [LIKE code%] is the
    plain prefix test: no separator is asked for after the prefix. *)
Lemma like_plain_prefix (c s : string) :
  plain c = true -> Sql.like (c +:+ "%") s = String.prefix c s.
Proof.
  revert s. induction c as [|a c IH]; intros s Hplain.
  - change ("" +:+ "%") with "%". rewrite like_percent. now destruct s.
  - simpl in Hplain.
    apply andb_prop in Hplain as [Hplain Hrest].
    apply andb_prop in Hplain as [Hplain Hbs].
    apply andb_prop in Hplain as [Hpc Hus].
    apply negb_true_iff in Hpc, Hus, Hbs.
    change (String a c +:+ "%") with (String a (c +:+ "%")).
    simpl. rewrite Hpc, Hus, Hbs.
    destruct s as [|d s]; [reflexivity|].
    rewrite (IH s Hrest).
    simpl (String.prefix (String a c) (String d s)).
    destruct (ascii_dec a d) as [->|Hne].
    + now rewrite Ascii.eqb_refl.
    + now rewrite (proj2 (Ascii.eqb_neq a d) Hne).
Qed.

(** The rows a fetch of the current server returns with the direct
    provider: those of the level whose identifier matches the pattern. *)
Lemma select_level_like_rows (l : Z) (p : string) (t : gmap string Sql.row)
    (r : Sql.geo_row) :
  r ∈ Sql.select_level_like l p t
  <-> exists k row, t !! k = Some row /\ Sql.level row = l
                    /\ Sql.like p k = true /\ r = Sql.to_geo_row (k, row).
Proof.
  unfold Sql.select_level_like, Sql.scan. rewrite list_elem_of_fmap. split.
  - intros ([k row] & -> & Hin). apply list_elem_of_filter in Hin as [Hsel Hin].
    apply elem_of_map_to_list in Hin. apply andb_prop in Hsel as [Hl Hlike].
    apply bool_decide_eq_true in Hl. now exists k, row.
  - intros (k & row & Hin & Hl & Hlike & ->). exists (k, row).
    split; [reflexivity|]. apply list_elem_of_filter. split.
    + simpl. rewrite Hlike, andb_true_r. now apply bool_decide_eq_true.
    + now apply elem_of_map_to_list.
Qed.

(** The SQL function selects the same rows as the inline statement. *)
Lemma get_wilayah_by_level_is_select (l : Z) (c : string) (t : gmap string Sql.row) :
  Sql.get_wilayah_by_level l (Some c) t = Sql.select_level_like l (c +:+ "%") t.
Proof. reflexivity. Qed.

(** *** One fetch, by provider *)


Lemma fetchGeoData_postgres (E : env) (l : Z) (c : string) (w : world) :
  DB_PROVIDER E = POSTGRES ->
  fetchGeoData E l c w
  = if answers E (length (sent w)) then
      (Normal (driver_row <$> Sql.select_level_like l (c +:+ "%") (table w)),
       logged w (pool_select_level_like l (c +:+ "%")))
    else (Throw (Error "query failed"),
          logged w (pool_select_level_like l (c +:+ "%"))).
Proof.
  intros HE. unfold fetchGeoData, bind, pool_query, send, reading, logged.
  rewrite HE. now destruct (answers E (length (sent w))).
Qed.

Lemma length_sent_logged (w : world) (c : store_call) :
  length (sent (logged w c)) = S (length (sent w)).
Proof. unfold logged. simpl. rewrite length_app. simpl. lia. Qed.






(** *** The plan each server follows *)

Ltac legacy_step :=
  match goal with
  | |- context [pool_query ?E0 ?c ?run ?u] =>
      unfold pool_query at 1, send, reading;
      destruct (answers _ (length (sent u))); cbn [mbind option_bind];
      cbv beta iota; [|intros; discriminate]
  | |- context [legacy_fill ?rows ?old ?u] =>
      unfold legacy_fill at 1, bind, lift, ret;
      destruct (0 <? Z.of_nat (length rows))%Z;
      [destruct (legacy_toFeatureCollection rows); cbv beta iota;
       [|intros; discriminate] |]
  end.

(** When the older server answers 200 it has sent the plan of the
    specification, statement for statement: equality for the region
    itself and for its parent, [code.%] for the regions below. *)
Lemma legacy_route_follows_plan (E : env) (code : string) (w w' : world) b :
  code <> "" ->
  legacy_geojson_route E (Some code) w = (geojson_200 b, w') ->
  sent w' = sent w ++ (legacy_call <$> fetch_plan code).
Proof.
  intros Hne. unfold legacy_geojson_route.
  rewrite (falsy_nonempty code Hne).
  unfold legacy_geojson_try, legacy_exact, legacy_children, fetch_plan, bind, ret.
  repeat match goal with
         | |- context [if (JS.length code =? ?n)%Z then _ else _] =>
             destruct (JS.length code =? n)%Z
         | |- context [if (13 <=? JS.length code)%Z then _ else _] =>
             destruct (13 <=? JS.length code)%Z
         end;
    repeat legacy_step;
    intros [= _ <-]; simpl; rewrite <- ?app_assoc, ?app_nil_r; reflexivity.
Qed.



(** *** The two providers *)

(** JavaScript lowers the capitals of the Latin-1 supplement; the database
    does so when its locale folds them. On ASCII texts the two agree. *)
Lemma lower_unit_ascii (c : ascii) :
  (nat_of_ascii c < 128)%nat -> JS.lower_unit c = JS.lower_ascii c.
Proof.
  intros Hc. unfold JS.lower_unit. cbv zeta.
  destruct (192 <=? nat_of_ascii c)%nat eqn:Hhigh; [|reflexivity].
  apply Nat.leb_le in Hhigh. lia.
Qed.

Lemma toLowerCase_ascii (q : string) :
  ascii_text q = true -> JS.toLowerCase q = Sql.lower q.
Proof.
  induction q as [|c q IH]; [reflexivity|]. simpl. intros Hq.
  apply andb_true_iff in Hq as [Hc Hq]. apply Nat.ltb_lt in Hc.
  rewrite (IH Hq). unfold Sql.lower_char.
  rewrite (lower_unit_ascii c Hc). now destruct lower_folds_latin1.
Qed.

Lemma toLowerCase_folding (q : string) :
  lower_folds_latin1 = true -> JS.toLowerCase q = Sql.lower q.
Proof.
  intros Hfold. induction q as [|c q IH]; [reflexivity|]. simpl.
  unfold Sql.lower_char. now rewrite Hfold, IH.
Qed.

(** The rows the RPC client hands over carry the parsed form of the text
    the driver hands over. *)
Lemma rpc_rows_agree (rows : list Sql.geo_row) :
  Forall (fun r => is_Some (JSON_parse (Sql.geom r))) rows ->
  exists rs, mapM rpc_row rows = Some rs
    /\ toFeatureCollection rs = toFeatureCollection (driver_row <$> rows)
    /\ length rs = length rows.
Proof.
  induction 1 as [|r rows [j Hj] _ (rs & Hrs & Hfc & Hlen)].
  - now exists [].
  - exists ({| row_id := Sql.id r; row_name := Sql.name r;
               row_geom := geom_object j |} :: rs).
    split; [|split].
    + assert (Hr : rpc_row r
                   = Some {| row_id := Sql.id r; row_name := Sql.name r;
                             row_geom := geom_object j |})
        by (unfold rpc_row; now rewrite Hj).
      simpl. rewrite Hr. simpl. now rewrite Hrs.
    + unfold toFeatureCollection in *. rewrite !fmap_cons. f_equal.
      * simpl. now rewrite Hj.
      * exact Hfc.
    + simpl. now rewrite Hlen.
Qed.

(** One fetch through each provider, from worlds that hold the same table:
    the rows fill a slot of the bundle alike. *)
Lemma fetch_agrees (Ep Es : env) (l : Z) (c : string) (wp ws : world) :
  DB_PROVIDER Ep = POSTGRES ->
  DB_PROVIDER Es = SUPABASE -> supabaseAdmin Es = true ->
  answers Ep (length (sent wp)) = true ->
  answers Es (length (sent ws)) = true ->
  (forall g, is_Some (JSON_parse (ST_AsGeoJSON g))) ->
  table wp = table ws ->
  exists rp rs,
    fetchGeoData Ep l c wp
    = (Normal rp, logged wp (pool_select_level_like l (c +:+ "%")))
    /\ fetchGeoData Es l c ws
       = (Normal rs, logged ws (rpc_get_wilayah_by_level l c))
    /\ toFeatureCollection rp = toFeatureCollection rs
    /\ length rp = length rs.
Proof.
  intros HEp HEs Hadmin Hap Has Hjson Htable.
  rewrite (fetchGeoData_postgres Ep l c wp HEp), Hap.
  unfold fetchGeoData, bind, supabase_call, send, reading.
  rewrite HEs, Hadmin. cbv beta iota.
  rewrite Has, get_wilayah_by_level_is_select, <- Htable.
  destruct (rpc_rows_agree (Sql.select_level_like l (c +:+ "%") (table wp)))
    as (rs & Hrs & Hfc & Hlen).
  { apply Forall_forall. intros r Hr.
    apply select_level_like_rows in Hr as (k & row & _ & _ & _ & ->).
    apply Hjson. }
  rewrite Hrs. simpl. do 2 eexists.
  split; [reflexivity|]. split; [unfold logged; now rewrite Htable|].
  split; [now rewrite Hfc | now rewrite length_fmap, Hlen].
Qed.

Lemma fill_agrees (rp rs : list js_row) (old : option (list Feature)) :
  toFeatureCollection rp = toFeatureCollection rs ->
  length rp = length rs ->
  fill rp old = fill rs old.
Proof. intros Hfc Hlen. unfold fill. now rewrite Hfc, Hlen. Qed.

Ltac both_fetch HEp HEs Hadmin Hap Has Hjson :=
  match goal with
  | |- context [fetchGeoData ?Ep ?l ?c ?wp] =>
      match goal with
      | |- context [fetchGeoData ?Es l c ?ws] =>
          lazymatch Es with
          | Ep => fail
          | _ =>
              let rp := fresh "rp" in
              let rs := fresh "rs" in
              let Hfc := fresh "Hfc" in
              let Hlen := fresh "Hlen" in
              destruct (fetch_agrees Ep Es l c wp ws HEp HEs Hadmin
                          (Hap _) (Has _) Hjson eq_refl)
                as (rp & rs & -> & -> & Hfc & Hlen);
              cbv beta iota
          end
      end
  end.

(** With a store that answers, the hierarchy query gives the same answer
    through either provider. *)
Lemma geojson_route_agrees (Ep Es : env) (code : option string) (w : world) :
  DB_PROVIDER Ep = POSTGRES ->
  DB_PROVIDER Es = SUPABASE -> supabaseAdmin Es = true ->
  (forall n, answers Ep n = true) ->
  (forall n, answers Es n = true) ->
  (forall g, is_Some (JSON_parse (ST_AsGeoJSON g))) ->
  (geojson_route Ep code w).1 = (geojson_route Es code w).1.
Proof.
  intros HEp HEs Hadmin Hap Has Hjson. unfold geojson_route.
  destruct code as [code|]; [|reflexivity].
  destruct (JS.falsy (JStr code)); [reflexivity|].
  unfold geojson_try, bind, ret.
  repeat match goal with
         | |- context [if (JS.length code =? ?n)%Z then _ else _] =>
             destruct (JS.length code =? n)%Z
         | |- context [if (13 <=? JS.length code)%Z then _ else _] =>
             destruct (13 <=? JS.length code)%Z
         end;
    repeat both_fetch HEp HEs Hadmin Hap Has Hjson;
    simpl; unfold set_provinsi, set_kabupaten, set_kecamatan, set_kelurahan;
    simpl;
    repeat match goal with
           | Hfc : toFeatureCollection ?rp = toFeatureCollection ?rs,
             Hlen : length ?rp = length ?rs |- _ =>
               rewrite !(fill_agrees rp rs _ Hfc Hlen); clear Hfc Hlen
           end;
    reflexivity.
Qed.

(** C5, amended. Against the same table, with a store that answers every
    statement and the Supabase client present, the two providers agree: an
    upsert of a feature with a defined name succeeds with both or with
    neither and leaves the same table; a fetch returns rows that give the
    same feature collection, as many with one as with the other, and the
    hierarchy query gives the same answer; a search returns the same rows,
    at most ten, when the query lowered by JavaScript is the query lowered
    by the database, which is so for an ASCII query, and for every query
    when the locale of the database folds the capitals outside ASCII. The
    geometry texts of the store are taken to be JSON. *)
Theorem providers_agree (Ep Es : env) (w : world) :
  DB_PROVIDER Ep = POSTGRES ->
  DB_PROVIDER Es = SUPABASE -> supabaseAdmin Es = true ->
  (forall n, answers Ep n = true) ->
  (forall n, answers Es n = true) ->
  (forall n, NOW Ep n = NOW Es n) ->
  (forall g, is_Some (JSON_parse (ST_AsGeoJSON g))) ->
  (forall kode nama level (g : geojson),
      nama <> JUndefined ->
      table (upsertFeature Ep kode nama level g w).2
      = table (upsertFeature Es kode nama level g w).2
      /\ ((upsertFeature Ep kode nama level g w).1 = Normal tt
          <-> (upsertFeature Es kode nama level g w).1 = Normal tt))
  /\ (forall l c, exists rp rs wp ws,
         fetchGeoData Ep l c w = (Normal rp, wp)
         /\ fetchGeoData Es l c w = (Normal rs, ws)
         /\ toFeatureCollection rp = toFeatureCollection rs
         /\ length rp = length rs)
  /\ (forall code, (geojson_route Ep code w).1 = (geojson_route Es code w).1)
  /\ (forall q, JS.toLowerCase q = Sql.lower q ->
         exists hits wp ws,
           search_try Ep q w = (Normal hits, wp)
           /\ search_try Es q w = (Normal hits, ws)
           /\ (length hits <= 10)%nat)
  /\ (forall q : option string,
         (forall s, q = Some s -> JS.toLowerCase s = Sql.lower s) ->
         (search_route Ep q w).1 = (search_route Es q w).1)
  /\ (forall q, ascii_text q = true -> JS.toLowerCase q = Sql.lower q)
  /\ (lower_folds_latin1 = true -> forall q, JS.toLowerCase q = Sql.lower q).
Proof.
  intros HEp HEs Hadmin Hap Has Hnow Hjson.
  assert (Hsearch : forall q, JS.toLowerCase q = Sql.lower q ->
             exists hits wp ws,
               search_try Ep q w = (Normal hits, wp)
               /\ search_try Es q w = (Normal hits, ws)
               /\ (length hits <= 10)%nat).
  { intros q Hq.
    unfold search_try. rewrite HEp, HEs.
    unfold bind, pool_query, supabase_call, send, reading.
    rewrite Hadmin. cbv beta iota. rewrite Hap, Has, Hq. simpl. do 3 eexists.
    split; [reflexivity|]. split.
    + unfold ret, Sql.select_search, Sql.search_wilayah. reflexivity.
    + unfold Sql.select_search. rewrite length_fmap, length_take. lia. }
  split; [|split; [|split; [|split; [|split; [|split]]]]].
  - intros kode nama level g _.
    unfold upsertFeature. rewrite HEp, HEs, Hadmin. simpl.
    unfold bind, pool_query, supabase_call, send, writing.
    rewrite Hadmin. cbv beta iota.
    rewrite Hap, Has, Hnow.
    change (@Sql.upsert_wilayah H) with (@Sql.insert_on_conflict H).
    destruct (Sql.insert_on_conflict _ _ _ _ _ _); simpl;
      (split; [reflexivity | split; [reflexivity || discriminate ..]]).
  - intros l c.
    destruct (fetch_agrees Ep Es l c w w HEp HEs Hadmin (Hap _) (Has _) Hjson eq_refl)
      as (rp & rs & Hp & Hs & Hfc & Hlen).
    now exists rp, rs, (logged w (pool_select_level_like l (c +:+ "%"))),
               (logged w (rpc_get_wilayah_by_level l c)).
  - intros code. now apply geojson_route_agrees.
  - exact Hsearch.
  - intros q Hq. unfold search_route.
    destruct (search_guard q) eqn:Hguard; [reflexivity|].
    destruct q as [s|]; [|discriminate Hguard]. simpl default.
    destruct (Hsearch s (Hq s eq_refl)) as (hits & wp & ws & -> & -> & _).
    reflexivity.
  - exact toLowerCase_ascii.
  - intros Hfold q. now apply toLowerCase_folding.
Qed.

End Queries.

(** C9 as stated fails on the empty identifier: its length, 0, is none of
    2, 5 and 8 and is below 13, and the route answers 400 instead of a
    bundle. *)
Lemma empty_identifier_is_rejected :
  (JS.length "" <> 2 /\ JS.length "" <> 5 /\ JS.length "" <> 8
   /\ JS.length "" < 13)%Z
  /\ @geojson_route Toy.postgis Toy.json (Toy.env_of POSTGRES) (Some "")
                    (Toy.start Toy.wide_codes)
     = (geojson_400, Toy.start Toy.wide_codes).
Proof. split; [vm_compute; repeat split; discriminate | reflexivity]. Qed.

Lemma unclassified_length_empty_bundle_witness :
  @geojson_route Toy.postgis Toy.json (Toy.env_of SUPABASE) (Some "11.1.05")
                 (Toy.start Toy.wide_codes)
  = (geojson_200 empty_bundle, Toy.start Toy.wide_codes).
Proof.
  apply (@unclassified_length_empty_bundle Toy.postgis Toy.json
           (Toy.env_of SUPABASE) "11.1.05" (Toy.start Toy.wide_codes));
    vm_compute; discriminate || reflexivity.
Defined.

Lemma short_query_no_lookup_witness :
  @search_route Toy.postgis (Toy.env_of POSTGRES) (Some "ac")
                (Toy.start Toy.wide_codes)
  = (search_200 [], Toy.start Toy.wide_codes).
Proof.
  apply (@short_query_no_lookup Toy.postgis (Toy.env_of POSTGRES)
           (Some "ac") (Toy.start Toy.wide_codes)).
  right. exists "ac". split; [reflexivity | vm_compute; reflexivity].
Defined.



(** C5 as stated fails: the providers answer the same request against the
    same table differently when the store does not answer. The direct
    provider fails the fetch and the hierarchy query answers 500; the
    Supabase provider turns the failed fetch into no rows and the query
    answers 200 with every slot null. *)
Lemma providers_differ_when_store_fails :
  (@fetchGeoData Toy.postgis Toy.json (Toy.env_down POSTGRES) 2 "11.01"
                 (Toy.start Toy.bakongan)).1
  = Throw (Error "query failed")
  /\ (@fetchGeoData Toy.postgis Toy.json (Toy.env_down SUPABASE) 2 "11.01"
                    (Toy.start Toy.bakongan)).1
     = Normal []
  /\ (@geojson_route Toy.postgis Toy.json (Toy.env_down POSTGRES) (Some "11.01")
                     (Toy.start Toy.bakongan)).1
     = geojson_500
  /\ (@geojson_route Toy.postgis Toy.json (Toy.env_down SUPABASE) (Some "11.01")
                     (Toy.start Toy.bakongan)).1
     = geojson_200 empty_bundle.
Proof. repeat split. Qed.

Lemma providers_agree_witness :
  (@geojson_route Toy.postgis Toy.json (Toy.env_of POSTGRES) (Some "11.01.05")
                  (Toy.start Toy.bakongan)).1
  = (@geojson_route Toy.postgis Toy.json (Toy.env_of SUPABASE) (Some "11.01.05")
                    (Toy.start Toy.bakongan)).1.
Proof.
  assert (Hjson : forall g : @pg_geometry Toy.postgis,
             is_Some (@JSON_parse Toy.json (@ST_AsGeoJSON Toy.postgis g)))
    by (intros g; eexists; reflexivity).
  assert (Hap : forall n, answers (Toy.env_of POSTGRES) n = true) by reflexivity.
  assert (Has : forall n, answers (Toy.env_of SUPABASE) n = true) by reflexivity.
  assert (Hnow : forall n, NOW (Toy.env_of POSTGRES) n = NOW (Toy.env_of SUPABASE) n)
    by reflexivity.
  exact (proj1 (proj2 (proj2 (@providers_agree Toy.postgis Toy.json
                         (Toy.env_of POSTGRES) (Toy.env_of SUPABASE)
                         (Toy.start Toy.bakongan)
                         eq_refl eq_refl eq_refl Hap Has Hnow Hjson)))
               (Some "11.01.05")).
Defined.

(** C2. The current server does not ask for the separator. On a table
    holding the province 11, its regency 11.01 and the second-level region
    110.01, the query for 11 returns 110.01 among the children, with either
    provider, although 110.01 does not begin with 11 followed by a dot; the
    older server returns 11.01 alone. The SQL function
    [get_wilayah_by_level], asked for the second-level regions under 11.1,
    returns the region 11.10. *)
Theorem children_fetch_ignores_separator :
  let children := Some [Toy.named "Aceh Selatan" "11.01" "{}";
                        Toy.named "Lain" "110.01" "{}"] in
  let self := Some [Toy.named "Aceh" "11" "{}"] in
  (@geojson_route Toy.postgis Toy.json (Toy.env_of POSTGRES) (Some "11")
                  (Toy.start Toy.wide_codes)).1
  = geojson_200 {| provinsi := self; kabupaten := children;
                   kecamatan := None; kelurahan := None |}
  /\ (@geojson_route Toy.postgis Toy.json (Toy.env_of SUPABASE) (Some "11")
                     (Toy.start Toy.wide_codes)).1
     = geojson_200 {| provinsi := self; kabupaten := children;
                      kecamatan := None; kelurahan := None |}
  /\ String.prefix ("11" +:+ ".") "110.01" = false
  /\ (@legacy_geojson_route Toy.postgis Toy.json (Toy.env_of POSTGRES) (Some "11")
                            (Toy.start Toy.wide_codes)).1
     = geojson_200 {| provinsi := self;
                      kabupaten := Some [Toy.named "Aceh Selatan" "11.01" "{}"];
                      kecamatan := None; kelurahan := None |}
  /\ Sql.id <$> @Sql.get_wilayah_by_level Toy.postgis 2 (Some "11.1") Toy.narrow_codes
     = ["11.10"; "11.1"]
  /\ String.prefix ("11.1" +:+ ".") "11.10" = false.
Proof. vm_compute. repeat split. Qed.

(** C3. For the identifiers 11, 11.01, 11.01.05 and 11.01.05.2003 the
    current server fetches the levels of the plan and no other, but every
    fetch, also that of the region itself and of its parent, is a prefix
    match. On a table holding the regencies 11.01 and 11.011, the query
    for 11.01.05 returns both as parent context; the older server, whose
    statements are those of the plan, returns 11.01 alone. *)
Theorem context_fetch_is_prefix_match :
  let E := Toy.env_of POSTGRES in
  let w := Toy.start Toy.bakongan in
  sent (@geojson_route Toy.postgis Toy.json E (Some "11") w).2
  = [pool_select_level_like 1 "11%"; pool_select_level_like 2 "11%"]
  /\ sent (@geojson_route Toy.postgis Toy.json E (Some "11.01") w).2
     = [pool_select_level_like 2 "11.01%"; pool_select_level_like 3 "11.01%";
        pool_select_level_like 4 "11.01%"]
  /\ sent (@geojson_route Toy.postgis Toy.json E (Some "11.01.05") w).2
     = [pool_select_level_like 2 "11.01%"; pool_select_level_like 3 "11.01.05%";
        pool_select_level_like 4 "11.01.05%"]
  /\ sent (@geojson_route Toy.postgis Toy.json E (Some "11.01.05.2003") w).2
     = [pool_select_level_like 3 "11.01.05%";
        pool_select_level_like 4 "11.01.05.2003%"]
  /\ sent (@geojson_route Toy.postgis Toy.json (Toy.env_of SUPABASE)
                          (Some "11.01.05") w).2
     = [rpc_get_wilayah_by_level 2 "11.01"; rpc_get_wilayah_by_level 3 "11.01.05";
        rpc_get_wilayah_by_level 4 "11.01.05"]
  /\ (@geojson_route Toy.postgis Toy.json E (Some "11.01.05") w).1
     = geojson_200
         {| provinsi := None;
            kabupaten := Some [Toy.named "Lain" "11.011" "{}";
                               Toy.named "Aceh Selatan" "11.01" "{}"];
            kecamatan := Some [Toy.named "Bakongan" "11.01.05" "{}"];
            kelurahan := Some [Toy.named "Keude Bakongan" "11.01.05.2003" "{}"] |}
  /\ sent (@legacy_geojson_route Toy.postgis Toy.json E (Some "11.01.05") w).2
     = [pool_select_level_eq 2 "11.01"; pool_select_level_eq 3 "11.01.05";
        pool_select_level_like 4 "11.01.05.%"]
  /\ (@legacy_geojson_route Toy.postgis Toy.json E (Some "11.01.05") w).1
     = geojson_200
         {| provinsi := None;
            kabupaten := Some [Toy.named "Aceh Selatan" "11.01" "{}"];
            kecamatan := Some [Toy.named "Bakongan" "11.01.05" "{}"];
            kelurahan := Some [Toy.named "Keude Bakongan" "11.01.05.2003" "{}"] |}.
Proof. vm_compute. repeat split. Qed.


(* ===================================================================== *)
(** * Further properties of the server *)
(* ===================================================================== *)

(** ** The code deriver, all four levels *)

Lemma prefix_append (a b : string) : String.prefix a (a +:+ b) = true.
Proof.
  induction a as [|x a IH]; [now destruct b|].
  change (String x a +:+ b) with (String x (a +:+ b)). simpl.
  destruct (ascii_dec x x) as [_|Hne]; [exact IH | congruence].
Qed.

Lemma length_append (a b : string) :
  String.length (a +:+ b) = (String.length a + String.length b)%nat.
Proof.
  induction a as [|x a IH]; [reflexivity|].
  change (String x a +:+ b) with (String x (a +:+ b)). simpl. now rewrite IH.
Qed.

Lemma count_char_append (c : ascii) (a b : string) :
  count_char c (a +:+ b) = (count_char c a + count_char c b)%nat.
Proof.
  induction a as [|x a IH]; [reflexivity|].
  change (String x a +:+ b) with (String x (a +:+ b)). simpl. rewrite IH. lia.
Qed.

Lemma count_char_substring (c : ascii) (s : string) (n m : nat) :
  (count_char c (String.substring n m s) <= count_char c s)%nat.
Proof.
  revert n m. induction s as [|x s IH]; intros [|n] [|m]; simpl; try lia.
  - specialize (IH 0%nat m). lia.
  - specialize (IH n 0%nat). lia.
  - specialize (IH n (S m)). lia.
Qed.

Lemma length_slice_last2 (s : string) :
  String.length (JS.slice s (-2)) = min 2 (String.length s).
Proof.
  rewrite slice_last_chars. unfold last_chars.
  rewrite <- length_list_of_string, String.list_ascii_of_string_of_list_ascii.
  rewrite length_reverse, length_take, length_reverse, length_list_of_string.
  reflexivity.
Qed.

(** The identifiers and names of one property bag at the four levels. *)
Lemma derive_all_levels (p : gmap string jsval) (a b c d : string) :
  JS.get p "kd_propinsi" = JStr a ->
  JS.get p "kd_dati2" = JStr b ->
  JS.get p "kd_kecamatan" = JStr c ->
  JS.get p "kd_kelurahan" = JStr d ->
  transformProperties (Some p) 1
  = Normal {| kode := JStr a; nama := JS.get p "nm_propinsi" |}
  /\ transformProperties (Some p) 2
     = Normal {| kode := JStr (a +:+ "." +:+ b); nama := JS.get p "nm_dati2" |}
  /\ transformProperties (Some p) 3
     = Normal {| kode := JStr (a +:+ "." +:+ b +:+ "." +:+ JS.slice c (-2));
                 nama := JS.get p "nm_kecamatan" |}
  /\ transformProperties (Some p) 4
     = Normal {| kode := JStr (a +:+ "." +:+ b +:+ "." +:+ JS.slice c (-2)
                               +:+ "." +:+ "2" +:+ d);
                 nama := JS.get p "nm_kelurahan" |}.
Proof.
  intros Ha Hb Hc Hd. unfold transformProperties. simpl.
  rewrite Ha, Hb, Hc, Hd. simpl. repeat split.
Qed.

(** X1. For one property bag with its four codes present, the identifier
    derived at each level below the first is the identifier derived at the
    level above, a dot, and one more segment: every derived identifier
    begins with its parent's identifier followed by the separator. *)
Theorem derived_identifier_extends_parent
    (p : gmap string jsval) (a b c d : string) :
  JS.get p "kd_propinsi" = JStr a ->
  JS.get p "kd_dati2" = JStr b ->
  JS.get p "kd_kecamatan" = JStr c ->
  JS.get p "kd_kelurahan" = JStr d ->
  exists k1 k2 k3 k4 n1 n2 n3 n4,
    transformProperties (Some p) 1 = Normal {| kode := JStr k1; nama := n1 |}
    /\ transformProperties (Some p) 2 = Normal {| kode := JStr k2; nama := n2 |}
    /\ transformProperties (Some p) 3 = Normal {| kode := JStr k3; nama := n3 |}
    /\ transformProperties (Some p) 4 = Normal {| kode := JStr k4; nama := n4 |}
    /\ k2 = (k1 +:+ ".") +:+ b
    /\ k3 = (k2 +:+ ".") +:+ JS.slice c (-2)
    /\ k4 = (k3 +:+ ".") +:+ ("2" +:+ d)
    /\ String.prefix (k1 +:+ ".") k2 = true
    /\ String.prefix (k2 +:+ ".") k3 = true
    /\ String.prefix (k3 +:+ ".") k4 = true.
Proof.
  intros Ha Hb Hc Hd.
  destruct (derive_all_levels p a b c d Ha Hb Hc Hd) as (H1 & H2 & H3 & H4).
  assert (E2 : a +:+ "." +:+ b = (a +:+ ".") +:+ b)
    by now rewrite append_assoc.
  assert (E3 : a +:+ "." +:+ b +:+ "." +:+ JS.slice c (-2)
               = ((a +:+ "." +:+ b) +:+ ".") +:+ JS.slice c (-2))
    by now rewrite !append_assoc.
  assert (E4 : a +:+ "." +:+ b +:+ "." +:+ JS.slice c (-2) +:+ "." +:+ "2" +:+ d
               = ((a +:+ "." +:+ b +:+ "." +:+ JS.slice c (-2)) +:+ ".")
                 +:+ ("2" +:+ d))
    by now rewrite !append_assoc.
  do 8 eexists.
  split; [exact H1|]. split; [exact H2|]. split; [exact H3|]. split; [exact H4|].
  split; [exact E2|]. split; [exact E3|]. split; [exact E4|].
  split; [rewrite E2 | split; [rewrite E3 | rewrite E4]]; apply prefix_append.
Qed.

Lemma derived_identifier_extends_parent_witness :
  exists k1 k2 k3 k4 n1 n2 n3 n4,
    transformProperties (Some Toy.kelurahan_003) 1
    = Normal {| kode := JStr k1; nama := n1 |}
    /\ transformProperties (Some Toy.kelurahan_003) 2
       = Normal {| kode := JStr k2; nama := n2 |}
    /\ transformProperties (Some Toy.kelurahan_003) 3
       = Normal {| kode := JStr k3; nama := n3 |}
    /\ transformProperties (Some Toy.kelurahan_003) 4
       = Normal {| kode := JStr k4; nama := n4 |}
    /\ k2 = (k1 +:+ ".") +:+ "01"
    /\ k3 = (k2 +:+ ".") +:+ JS.slice "0105" (-2)
    /\ k4 = (k3 +:+ ".") +:+ ("2" +:+ "003")
    /\ String.prefix (k1 +:+ ".") k2 = true
    /\ String.prefix (k2 +:+ ".") k3 = true
    /\ String.prefix (k3 +:+ ".") k4 = true.
Proof.
  apply (derived_identifier_extends_parent Toy.kelurahan_003 "11" "01" "0105" "003");
    reflexivity.
Defined.

(** X2. When the raw codes hold no dot, the identifier derived at a level
    from 1 to 4 holds exactly level - 1 dots: the number of segments of a
    derived identifier tells its level. *)
Theorem derived_identifier_segments
    (p : gmap string jsval) (a b c d : string) (level : Z) :
  JS.get p "kd_propinsi" = JStr a ->
  JS.get p "kd_dati2" = JStr b ->
  JS.get p "kd_kecamatan" = JStr c ->
  JS.get p "kd_kelurahan" = JStr d ->
  count_char "." a = 0%nat -> count_char "." b = 0%nat ->
  count_char "." c = 0%nat -> count_char "." d = 0%nat ->
  (1 <= level <= 4)%Z ->
  exists k n,
    transformProperties (Some p) level = Normal {| kode := JStr k; nama := n |}
    /\ Z.of_nat (count_char "." k) = (level - 1)%Z.
Proof.
  intros Ha Hb Hc Hd Da Db Dc Dd Hlevel.
  destruct (derive_all_levels p a b c d Ha Hb Hc Hd) as (H1 & H2 & H3 & H4).
  assert (Dk : count_char "." (JS.slice c (-2)) = 0%nat).
  { unfold JS.slice.
    pose proof (count_char_substring "."%char c
                  (Z.to_nat (if (-2 <? 0)%Z
                             then Z.max (JS.length c + -2) 0
                             else Z.min (-2) (JS.length c)))
                  (Z.to_nat (JS.length c -
                             (if (-2 <? 0)%Z
                              then Z.max (JS.length c + -2) 0
                              else Z.min (-2) (JS.length c))))) as Hle.
    lia. }
  assert (Hcases : level = 1%Z \/ level = 2%Z \/ level = 3%Z \/ level = 4%Z) by lia.
  destruct Hcases as [-> | [-> | [-> | ->]]]; do 2 eexists;
    (split; [eassumption|]);
    rewrite ?count_char_append, ?Da, ?Db, ?Dk, ?Dd; simpl; lia.
Qed.

Lemma derived_identifier_segments_witness :
  exists k n,
    transformProperties (Some Toy.kelurahan_003) 4
    = Normal {| kode := JStr k; nama := n |}
    /\ Z.of_nat (count_char "." k) = (4 - 1)%Z.
Proof.
  apply (derived_identifier_segments Toy.kelurahan_003 "11" "01" "0105" "003" 4);
    reflexivity || lia.
Defined.

(** X3. With a top code and a second code of two characters, a third code
    of at least two and a fourth code of three, the identifiers derived at
    levels 1, 2, 3 and 4 are 2, 5, 8 and 13 characters long, the lengths by
    which the hierarchy query tells the levels apart, and the plan for such
    an identifier fetches the region itself at its own level. *)
Theorem derived_identifier_lengths
    (p : gmap string jsval) (a b c d : string) (level : Z) :
  JS.get p "kd_propinsi" = JStr a ->
  JS.get p "kd_dati2" = JStr b ->
  JS.get p "kd_kecamatan" = JStr c ->
  JS.get p "kd_kelurahan" = JStr d ->
  String.length a = 2%nat -> String.length b = 2%nat ->
  (2 <= String.length c)%nat -> String.length d = 3%nat ->
  (1 <= level <= 4)%Z ->
  exists k n,
    transformProperties (Some p) level = Normal {| kode := JStr k; nama := n |}
    /\ JS.length k = (if (level =? 4)%Z then 13 else 3 * level - 1)%Z
    /\ (level, exact, k) ∈ fetch_plan k.
Proof.
  intros Ha Hb Hc Hd La Lb Lc Ld Hlevel.
  destruct (derive_all_levels p a b c d Ha Hb Hc Hd) as (H1 & H2 & H3 & H4).
  pose proof (length_slice_last2 c) as Lk.
  assert (Lk' : String.length (JS.slice c (-2)) = 2%nat) by lia.
  assert (Hcases : level = 1%Z \/ level = 2%Z \/ level = 3%Z \/ level = 4%Z) by lia.
  assert (Hplan : forall k n, JS.length k = n ->
            (n = 2%Z -> (1%Z, exact, k) ∈ fetch_plan k)
            /\ (n = 5%Z -> (2%Z, exact, k) ∈ fetch_plan k)
            /\ (n = 8%Z -> (3%Z, exact, k) ∈ fetch_plan k)
            /\ (n = 13%Z -> (4%Z, exact, k) ∈ fetch_plan k)).
  { intros k n Hn. unfold fetch_plan. rewrite Hn.
    repeat split; intros ->; simpl; repeat constructor. }
  destruct Hcases as [-> | [-> | [-> | ->]]]; do 2 eexists;
    (split; [eassumption|]).
  - assert (Hlen : JS.length a = 2%Z) by (unfold JS.length; lia).
    split; [exact Hlen | now apply (Hplan a 2%Z Hlen)].
  - assert (Hlen : JS.length (a +:+ "." +:+ b) = 5%Z)
      by (unfold JS.length; rewrite !length_append, La, Lb; simpl; lia).
    split; [exact Hlen | now apply (Hplan _ 5%Z Hlen)].
  - assert (Hlen : JS.length (a +:+ "." +:+ b +:+ "." +:+ JS.slice c (-2)) = 8%Z)
      by (unfold JS.length; rewrite !length_append, La, Lb, Lk'; simpl; lia).
    split; [exact Hlen | now apply (Hplan _ 8%Z Hlen)].
  - assert (Hlen : JS.length (a +:+ "." +:+ b +:+ "." +:+ JS.slice c (-2)
                               +:+ "." +:+ "2" +:+ d) = 13%Z)
      by (unfold JS.length; rewrite !length_append, La, Lb, Lk', Ld; simpl; lia).
    split; [exact Hlen | now apply (Hplan _ 13%Z Hlen)].
Qed.

Lemma derived_identifier_lengths_witness :
  exists k n,
    transformProperties (Some Toy.kelurahan_003) 3
    = Normal {| kode := JStr k; nama := n |}
    /\ JS.length k = (if (3 =? 4)%Z then 13 else 3 * 3 - 1)%Z
    /\ (3%Z, exact, k) ∈ fetch_plan k.
Proof.
  apply (derived_identifier_lengths Toy.kelurahan_003 "11" "01" "0105" "003" 3);
    reflexivity || (simpl; lia).
Defined.

(** X4. The outcomes of [transformProperties] on a feature whose codes
    are strings, [null] or absent. Outside the levels 1 to 4 it returns the
    empty identifier and the empty name without reading the feature. At a
    level from 1 to 4 it throws a [TypeError] when the feature has no
    property bag, and at levels 3 and 4 also when the third-level code is
    absent or [null]. At levels 1 and 2 with a property bag, and at levels
    3 and 4 with a third-level code that is a string, it returns, whatever
    the other properties are. *)
Theorem derive_outcomes (level : Z) :
  (~ (1 <= level <= 4)%Z ->
     forall p, transformProperties p level
               = Normal {| kode := JStr ""; nama := JStr "" |})
  /\ ((1 <= level <= 4)%Z ->
        exists msg, transformProperties None level = Throw (TypeError msg))
  /\ (forall q, (level = 1 \/ level = 2)%Z ->
        exists d, transformProperties (Some q) level = Normal d)
  /\ (forall q, (level = 3 \/ level = 4)%Z ->
        JS.get q "kd_kecamatan" = JUndefined \/ JS.get q "kd_kecamatan" = JNull ->
        exists msg, transformProperties (Some q) level = Throw (TypeError msg))
  /\ (forall q c, (level = 3 \/ level = 4)%Z ->
        JS.get q "kd_kecamatan" = JStr c ->
        exists d, transformProperties (Some q) level = Normal d).
Proof.
  split; [|split; [|split; [|split]]].
  - intros Hout p. unfold transformProperties.
    destruct (Z.eqb_spec level 1); [lia|].
    destruct (Z.eqb_spec level 2); [lia|].
    destruct (Z.eqb_spec level 3); [lia|].
    destruct (Z.eqb_spec level 4); [lia|]. reflexivity.
  - intros Hin.
    assert (Hcases : (level = 1 \/ level = 2 \/ level = 3 \/ level = 4)%Z) by lia.
    destruct Hcases as [-> | [-> | [-> | ->]]]; eexists; reflexivity.
  - intros q [-> | ->]; eexists; reflexivity.
  - intros q [-> | ->] [Hkec | Hkec]; unfold transformProperties; simpl;
      rewrite Hkec; eexists; reflexivity.
  - intros q c [-> | ->] Hkec; unfold transformProperties; simpl;
      rewrite Hkec; eexists; reflexivity.
Qed.

(** ** Rows, feature collections and single fetches *)

Section Fetches.
Context `{PostGIS} `{JSON}.

Lemma filter_ext_in {A} (P1 P2 : A -> Prop)
    `{!forall x, Decision (P1 x), !forall x, Decision (P2 x)} (l : list A) :
  (forall x, x ∈ l -> P1 x <-> P2 x) -> filter P1 l = filter P2 l.
Proof.
  induction l as [|a l IH]; intros Hiff; [reflexivity|].
  assert (Hl : forall x, x ∈ l -> P1 x <-> P2 x)
    by (intros x Hx; apply Hiff; now right).
  destruct (decide (P1 a)) as [Ha|Ha].
  - rewrite !filter_cons_True; [now rewrite IH | apply Hiff; [now left | exact Ha] | exact Ha].
  - rewrite !filter_cons_False; [now rewrite IH | | exact Ha].
    intros Hb. apply Ha, Hiff; [now left | exact Hb].
Qed.

Lemma feature_ids (rows : list js_row) :
  f_id <$> toFeatureCollection rows = row_id <$> rows.
Proof. unfold toFeatureCollection. now rewrite <- list_fmap_compose. Qed.

Lemma feature_names (rows : list js_row) :
  f_name <$> toFeatureCollection rows = row_name <$> rows.
Proof. unfold toFeatureCollection. now rewrite <- list_fmap_compose. Qed.

Lemma legacy_collection_parsed (rows : list Sql.geo_row) :
  Forall (fun r => is_Some (JSON_parse (Sql.geom r))) rows ->
  legacy_toFeatureCollection rows
  = Normal (toFeatureCollection (driver_row <$> rows)).
Proof.
  unfold toFeatureCollection.
  induction 1 as [|r rows [j Hj] _ IH]; [reflexivity|].
  simpl. rewrite Hj, IH. reflexivity.
Qed.

(** X5. [toFeatureCollection] of the current server never throws and gives
    one feature per row, in order, with the row's identifier and name; a
    geometry text that does not parse becomes a null geometry. The older
    [toFeatureCollection] throws as soon as one text does not parse, and
    when every text parses the two give the same collection. *)
Theorem feature_collection_of_rows (rows : list Sql.geo_row) :
  length (toFeatureCollection (driver_row <$> rows)) = length rows
  /\ f_id <$> toFeatureCollection (driver_row <$> rows) = Sql.id <$> rows
  /\ f_name <$> toFeatureCollection (driver_row <$> rows) = Sql.name <$> rows
  /\ f_geometry <$> toFeatureCollection (driver_row <$> rows)
     = (fun r => JSON_parse (Sql.geom r)) <$> rows
  /\ (Forall (fun r => is_Some (JSON_parse (Sql.geom r))) rows ->
        legacy_toFeatureCollection rows
        = Normal (toFeatureCollection (driver_row <$> rows)))
  /\ (~ Forall (fun r => is_Some (JSON_parse (Sql.geom r))) rows ->
        exists e, legacy_toFeatureCollection rows = Throw e).
Proof.
  unfold toFeatureCollection.
  split; [now rewrite !length_fmap|].
  split; [now rewrite <- !list_fmap_compose|].
  split; [now rewrite <- !list_fmap_compose|].
  split; [now rewrite <- !list_fmap_compose|].
  split.
  - apply legacy_collection_parsed.
  - induction rows as [|r rows IH]; intros Hnot.
    + destruct Hnot. constructor.
    + simpl. destruct (JSON_parse (Sql.geom r)) as [j|] eqn:Hj; [|eauto].
      destruct IH as [e ->]; [|eauto].
      intros Hall. apply Hnot. constructor; [rewrite Hj; eauto | exact Hall].
Qed.

Lemma select_level_like_ids (l : Z) (p : string) (t : gmap string Sql.row) :
  NoDup (Sql.id <$> Sql.select_level_like l p t)
  /\ forall k, k ∈ Sql.id <$> Sql.select_level_like l p t
               <-> exists row, t !! k = Some row /\ Sql.level row = l
                               /\ Sql.like p k = true.
Proof.
  split.
  - unfold Sql.select_level_like, Sql.scan. rewrite <- list_fmap_compose.
    change (Sql.id ∘ Sql.to_geo_row) with (@fst string Sql.row).
    apply (sublist_NoDup _ ((map_to_list t).*1));
      [apply NoDup_fst_map_to_list | apply fmap_sublist, sublist_filter].
  - intros k. rewrite list_elem_of_fmap. split.
    + intros (r & -> & Hr).
      apply select_level_like_rows in Hr as (k' & row & Hin & Hl & Hlike & ->).
      now exists row.
    + intros (row & Hin & Hl & Hlike). exists (Sql.to_geo_row (k, row)).
      split; [reflexivity|]. apply select_level_like_rows. now exists k, row.
Qed.

(** What an answered fetch returns, through either provider: the rows the
    inline statement selects, up to the form of the geometry. *)
Lemma fetch_answered (E : env) (l : Z) (c : string) (w : world) :
  answers E (length (sent w)) = true ->
  (DB_PROVIDER E = SUPABASE -> supabaseAdmin E = true) ->
  (forall g, is_Some (JSON_parse (ST_AsGeoJSON g))) ->
  exists rows w',
    fetchGeoData E l c w = (Normal rows, w')
    /\ table w' = table w
    /\ length (sent w') = S (length (sent w))
    /\ toFeatureCollection rows
       = toFeatureCollection
           (driver_row <$> Sql.select_level_like l (c +:+ "%") (table w)).
Proof.
  intros Hans Hadmin Hjson.
  destruct (DB_PROVIDER E) eqn:HE.
  - rewrite (fetchGeoData_postgres E l c w HE), Hans.
    do 2 eexists. split; [reflexivity|]. split; [reflexivity|].
    split; [apply length_sent_logged | reflexivity].
  - unfold fetchGeoData, bind, supabase_call, send, reading.
    rewrite HE, (Hadmin eq_refl). cbv beta iota.
    rewrite Hans, get_wilayah_by_level_is_select.
    destruct (rpc_rows_agree (Sql.select_level_like l (c +:+ "%") (table w)))
      as (rs & Hrs & Hfc & Hlen).
    { apply Forall_forall. intros r Hr.
      apply select_level_like_rows in Hr as (k & row & _ & _ & _ & ->).
      apply Hjson. }
    rewrite Hrs. simpl. do 2 eexists. split; [reflexivity|]. split; [reflexivity|].
    split; [simpl; rewrite ?length_app; simpl; lia | exact Hfc].
Qed.

Lemma driver_feature_ids (rows : list Sql.geo_row) :
  f_id <$> toFeatureCollection (driver_row <$> rows) = Sql.id <$> rows.
Proof. rewrite feature_ids, <- list_fmap_compose. reflexivity. Qed.

(** X6. A fetch that the store answers returns, through either provider
    and for a prefix without wildcard characters, each region of the asked
    level whose identifier begins with the prefix, once, and nothing else;
    the table is left as it was. *)
Theorem fetch_returns_regions_with_prefix
    (E : env) (l : Z) (c : string) (w : world) :
  plain c = true ->
  answers E (length (sent w)) = true ->
  (DB_PROVIDER E = SUPABASE -> supabaseAdmin E = true) ->
  (forall g, is_Some (JSON_parse (ST_AsGeoJSON g))) ->
  exists rows w',
    fetchGeoData E l c w = (Normal rows, w')
    /\ table w' = table w
    /\ NoDup (f_id <$> toFeatureCollection rows)
    /\ forall k, k ∈ f_id <$> toFeatureCollection rows
                 <-> exists row, table w !! k = Some row
                                 /\ Sql.level row = l
                                 /\ String.prefix c k = true.
Proof.
  intros Hplain Hans Hadmin Hjson.
  destruct (fetch_answered E l c w Hans Hadmin Hjson)
    as (rows & w' & Hrun & Htable & _ & Hfc).
  destruct (select_level_like_ids l (c +:+ "%") (table w)) as [Hnodup Hids].
  exists rows, w'. split; [exact Hrun|]. split; [exact Htable|].
  rewrite Hfc, driver_feature_ids. split; [exact Hnodup|].
  intros k. rewrite Hids. now setoid_rewrite (like_plain_prefix c k Hplain).
Qed.

Lemma like_underscores (n : nat) (s : string) :
  Sql.like (underscores n +:+ "%") s = (n <=? String.length s)%nat.
Proof.
  revert s. induction n as [|n IH]; intros s.
  - change (underscores 0 +:+ "%") with "%". now rewrite like_percent.
  - change (underscores (S n) +:+ "%") with (String "_" (underscores n +:+ "%")).
    destruct s as [|d s]; [reflexivity|]. simpl. apply IH.
Qed.

(** X7. The identifier of a query is read as a [LIKE] pattern: a fetch for
    a prefix made of [n] underscores returns every region of the asked
    level whose identifier has at least [n] characters, whatever the
    characters are. *)
Theorem fetch_reads_underscore_as_wildcard
    (E : env) (l : Z) (n : nat) (w : world) :
  answers E (length (sent w)) = true ->
  (DB_PROVIDER E = SUPABASE -> supabaseAdmin E = true) ->
  (forall g, is_Some (JSON_parse (ST_AsGeoJSON g))) ->
  exists rows w',
    fetchGeoData E l (underscores n) w = (Normal rows, w')
    /\ forall k, k ∈ f_id <$> toFeatureCollection rows
                 <-> exists row, table w !! k = Some row
                                 /\ Sql.level row = l
                                 /\ (n <= String.length k)%nat.
Proof.
  intros Hans Hadmin Hjson.
  destruct (fetch_answered E l (underscores n) w Hans Hadmin Hjson)
    as (rows & w' & Hrun & _ & _ & Hfc).
  destruct (select_level_like_ids l (underscores n +:+ "%") (table w))
    as [_ Hids].
  exists rows, w'. split; [exact Hrun|].
  rewrite Hfc, driver_feature_ids. intros k. rewrite Hids.
  setoid_rewrite like_underscores. now setoid_rewrite Nat.leb_le.
Qed.

Lemma prefix_refl (k : string) : String.prefix k k = true.
Proof.
  induction k as [|x k IH]; [reflexivity|]. simpl.
  destruct (ascii_dec x x); [exact IH | congruence].
Qed.

(** X8. After an upsert that returned, a fetch for the identifier itself,
    at the level the row is stored with, returns the region with the name
    given and the geometry as simplified by the store; that level is the
    level of the upsert when the identifier was new, and the level already
    stored otherwise, and no fetch at another level returns the region. *)
Theorem upsert_then_fetch
    (E : env) (kode nama : jsval) (l : Z) (g : geojson) (w w1 : world) :
  upsertFeature E kode nama l g w = (Normal tt, w1) ->
  (forall n, answers E n = true) ->
  (DB_PROVIDER E = SUPABASE -> supabaseAdmin E = true) ->
  (forall x, is_Some (JSON_parse (ST_AsGeoJSON x))) ->
  exists k gm,
    to_param kode = Some k
    /\ Sql.simplified (JSON_stringify g) = Some gm
    /\ (plain k = true ->
          exists rows w2,
            fetchGeoData E
              (match table w !! k with Some old => Sql.level old | None => l end)
              k w1 = (Normal rows, w2)
            /\ {| f_name := to_param nama; f_id := k;
                  f_geometry := JSON_parse (ST_AsGeoJSON gm) |}
               ∈ toFeatureCollection rows)
    /\ (forall l' c,
          l' <> match table w !! k with Some old => Sql.level old | None => l end ->
          exists rows w2,
            fetchGeoData E l' c w1 = (Normal rows, w2)
            /\ k ∉ f_id <$> toFeatureCollection rows).
Proof.
  intros Hup Hans Hadmin Hjson.
  apply upsertFeature_normal, insert_on_conflict_inv in Hup.
  destruct Hup as (k & gm & Hk & Hg & _ & Htable).
  exists k, gm. split; [exact Hk|]. split; [exact Hg|].
  set (now := NOW E (length (sent w))) in *.
  set (stored := match table w !! k with
                 | Some old => Sql.level old | None => l end).
  assert (Hrow : table w1 !! k = Some (upserted now (to_param nama) l gm (table w !! k)))
    by (rewrite Htable; apply lookup_insert_eq).
  assert (Hlevel : Sql.level (upserted now (to_param nama) l gm (table w !! k)) = stored)
    by (unfold stored, upserted; now destruct (table w !! k)).
  split.
  - intros Hplain.
    destruct (fetch_answered E stored k w1 (Hans _) Hadmin Hjson)
      as (rows & w2 & Hrun & _ & _ & Hfc).
    exists rows, w2. split; [exact Hrun|]. rewrite Hfc.
    unfold toFeatureCollection.
    apply (list_elem_of_fmap_2' _ _
             (driver_row (Sql.to_geo_row
                (k, upserted now (to_param nama) l gm (table w !! k))))).
    + apply list_elem_of_fmap_2, select_level_like_rows.
      exists k, (upserted now (to_param nama) l gm (table w !! k)).
      split; [exact Hrow|]. split; [exact Hlevel|]. split; [|reflexivity].
      rewrite (like_plain_prefix k k Hplain). apply prefix_refl.
    + unfold upserted. destruct (table w !! k); reflexivity.
  - intros l' c Hne.
    destruct (fetch_answered E l' c w1 (Hans _) Hadmin Hjson)
      as (rows & w2 & Hrun & _ & _ & Hfc).
    exists rows, w2. split; [exact Hrun|].
    rewrite Hfc, driver_feature_ids.
    destruct (select_level_like_ids l' (c +:+ "%") (table w1)) as [_ Hids].
    rewrite Hids. intros (row & Hin & Hl & _).
    rewrite Hrow in Hin. injection Hin as <-. congruence.
Qed.

(** ** The two servers on identifiers of fixed width *)

Lemma prefix_not_longer (c k : string) :
  (String.length k <= String.length c)%nat ->
  String.prefix c k = true <-> k = c.
Proof.
  revert k. induction c as [|a c IH]; intros [|d k] Hlen; simpl in *;
    try (split; [reflexivity || discriminate | reflexivity || discriminate]);
    try lia.
  destruct (ascii_dec a d) as [->|Hne].
  - rewrite IH by lia. split; [now intros -> | now intros [= ->]].
  - split; [discriminate | intros [= ? ?]; congruence].
Qed.

Lemma prefix_with_dot (c k : string) :
  String.get (String.length c) k = Some "."%char ->
  String.prefix (c +:+ ".") k = String.prefix c k.
Proof.
  revert k. induction c as [|a c IH]; intros [|d k] Hdot;
    try discriminate Hdot.
  - injection Hdot as ->.
    transitivity true; [exact (prefix_append "." k) | reflexivity].
  - change (String a c +:+ ".") with (String a (c +:+ ".")).
    change (String.get (String.length c) k = Some "."%char) in Hdot.
    simpl String.prefix.
    destruct (ascii_dec a d); [now apply IH | reflexivity].
Qed.

Lemma plain_append (a b : string) :
  plain a = true -> plain b = true -> plain (a +:+ b) = true.
Proof.
  intros Ha Hb. induction a as [|x a IH]; [exact Hb|].
  change (String x a +:+ b) with (String x (a +:+ b)). simpl in *.
  apply andb_prop in Ha as [Hx Ha]. now rewrite Hx, IH.
Qed.

Lemma plain_substring (s : string) (n m : nat) :
  plain s = true -> plain (String.substring n m s) = true.
Proof.
  revert n m. induction s as [|x s IH]; intros [|n] [|m] Hs; simpl in *;
    try reflexivity; apply andb_prop in Hs as [Hx Hs].
  - now rewrite Hx, (IH 0%nat m Hs).
  - now apply (IH n 0%nat).
  - now apply (IH n (S m)).
Qed.

Lemma length_substring0 (s : string) (n : nat) :
  (n <= String.length s)%nat ->
  String.length (JS.substring0 s (Z.of_nat n)) = n.
Proof.
  intros Hn. unfold JS.substring0, JS.length.
  rewrite <- length_list_of_string, list_of_substring, drop_0, length_take,
          length_list_of_string.
  lia.
Qed.

Lemma select_like_is_eq (l : Z) (c : string) (t : gmap string Sql.row) :
  plain c = true ->
  (forall k row, t !! k = Some row -> Sql.level row = l ->
                 (String.length k <= String.length c)%nat) ->
  Sql.select_level_like l (c +:+ "%") t = Sql.select_level_eq l c t.
Proof.
  intros Hplain Hlen. unfold Sql.select_level_like, Sql.select_level_eq, Sql.scan.
  f_equal. apply filter_ext_in. intros [k row] Hin.
  apply elem_of_map_to_list in Hin. simpl.
  rewrite (like_plain_prefix c k Hplain).
  destruct (bool_decide (Sql.level row = l)) eqn:Hl; simpl; [|tauto].
  apply bool_decide_eq_true in Hl.
  rewrite (prefix_not_longer c k (Hlen k row Hin Hl)).
  now rewrite bool_decide_eq_true.
Qed.

Lemma select_like_with_dot (l : Z) (c : string) (t : gmap string Sql.row) :
  plain c = true ->
  (forall k row, t !! k = Some row -> Sql.level row = l ->
                 String.get (String.length c) k = Some "."%char) ->
  Sql.select_level_like l (c +:+ "%") t = Sql.select_level_like l (c +:+ ".%") t.
Proof.
  intros Hplain Hdot. unfold Sql.select_level_like, Sql.scan.
  f_equal. apply filter_ext_in. intros [k row] Hin.
  apply elem_of_map_to_list in Hin. simpl.
  destruct (bool_decide (Sql.level row = l)) eqn:Hl; simpl; [|tauto].
  apply bool_decide_eq_true in Hl.
  change (c +:+ ".%") with (c +:+ "." +:+ "%").
  rewrite <- append_assoc.
  rewrite (like_plain_prefix c k Hplain),
          (like_plain_prefix (c +:+ ".") k (plain_append c "." Hplain eq_refl)),
          (prefix_with_dot c k (Hdot k row Hin Hl)).
  tauto.
Qed.

Lemma fixed_width_facts (t : gmap string Sql.row) (k : string) (row : Sql.row) :
  fixed_width t -> t !! k = Some row ->
  (Sql.level row = 1%Z -> String.length k = 2%nat)
  /\ (Sql.level row = 2%Z ->
        String.length k = 5%nat /\ String.get 2 k = Some "."%char)
  /\ (Sql.level row = 3%Z ->
        String.length k = 8%nat /\ String.get 5 k = Some "."%char)
  /\ (Sql.level row = 4%Z ->
        String.length k = 13%nat /\ String.get 5 k = Some "."%char
        /\ String.get 8 k = Some "."%char).
Proof.
  intros Hfw Hk. specialize (Hfw k row Hk). simpl in Hfw.
  unfold canonical_id, dot_at in Hfw.
  split; [|split; [|split]]; intros Hl; rewrite Hl in Hfw; simpl in Hfw;
    repeat (apply andb_prop in Hfw as [Hfw ?]);
    repeat match goal with
           | Hb : bool_decide _ = true |- _ => apply bool_decide_eq_true in Hb
           | Hb : (_ =? _)%nat = true |- _ => apply Nat.eqb_eq in Hb
           end; repeat split; assumption.
Qed.

Lemma legacy_exact_run (E : env) (l : Z) (c : string) (w : world) :
  legacy_exact E l c w
  = if answers E (length (sent w)) then
      (Normal (Sql.select_level_eq l c (table w)),
       logged w (pool_select_level_eq l c))
    else (Throw (Error "query failed"), logged w (pool_select_level_eq l c)).
Proof.
  unfold legacy_exact, pool_query, send, reading, logged.
  now destruct (answers E (length (sent w))).
Qed.

Lemma legacy_children_run (E : env) (l : Z) (c : string) (w : world) :
  legacy_children E l c w
  = if answers E (length (sent w)) then
      (Normal (Sql.select_level_like l (c +:+ ".%") (table w)),
       logged w (pool_select_level_like l (c +:+ ".%")))
    else (Throw (Error "query failed"),
          logged w (pool_select_level_like l (c +:+ ".%"))).
Proof.
  unfold legacy_children, pool_query, send, reading, logged.
  now destruct (answers E (length (sent w))).
Qed.

Lemma legacy_fill_parsed (rows : list Sql.geo_row) (old : option (list Feature))
    (w : world) :
  Forall (fun r => is_Some (JSON_parse (Sql.geom r))) rows ->
  legacy_fill rows old w = (Normal (fill (driver_row <$> rows) old), w).
Proof.
  intros Hall. unfold legacy_fill, fill, bind, lift, ret.
  rewrite length_fmap.
  destruct (0 <? Z.of_nat (length rows))%Z; [|reflexivity].
  now rewrite (legacy_collection_parsed rows Hall).
Qed.

Lemma selected_rows_parse (l : Z) (p : string) (t : gmap string Sql.row) :
  (forall g, is_Some (JSON_parse (ST_AsGeoJSON g))) ->
  Forall (fun r => is_Some (JSON_parse (Sql.geom r))) (Sql.select_level_like l p t).
Proof.
  intros Hjson. apply Forall_forall. intros r Hr.
  apply select_level_like_rows in Hr as (k & row & _ & _ & _ & ->). apply Hjson.
Qed.

Lemma table_logged (w : world) (c : store_call) : table (logged w c) = table w.
Proof. reflexivity. Qed.

Ltac run_both HE Hjson :=
  rewrite ?length_sent_logged;
  match goal with
  | |- context [fetchGeoData ?E ?l ?c ?wa] =>
      rewrite (fetchGeoData_postgres E l c wa HE)
  end;
  match goal with
  | |- context [legacy_exact ?E ?l ?c ?wb] => rewrite (legacy_exact_run E l c wb)
  | |- context [legacy_children ?E ?l ?c ?wb] =>
      rewrite (legacy_children_run E l c wb)
  end;
  rewrite ?length_sent_logged, ?table_logged;
  match goal with
  | |- context [answers ?E ?n] => destruct (answers E n)
  end;
  [cbv beta iota | reflexivity].

(** X9. On a table whose identifiers have the fixed widths (2, 5, 8 and 13
    characters, with the dots in their places) and for a query identifier
    without wildcard characters, the current server with the direct
    provider and the older server give the same answer to the hierarchy
    query: there the bare prefix match selects what the exact match and the
    match with the separator select. *)
Theorem servers_agree_on_fixed_width (E : env) (code : option string) (w : world) :
  DB_PROVIDER E = POSTGRES ->
  fixed_width (table w) ->
  (forall c, code = Some c -> plain c = true) ->
  (forall g, is_Some (JSON_parse (ST_AsGeoJSON g))) ->
  (geojson_route E code w).1 = (legacy_geojson_route E code w).1.
Proof.
  intros HE Hfw Hplain Hjson.
  unfold geojson_route, legacy_geojson_route.
  destruct code as [c|]; [|reflexivity].
  specialize (Hplain c eq_refl).
  destruct (JS.falsy (JStr c)); [reflexivity|].
  assert (Hparse : forall l p,
    Forall (fun r => is_Some (JSON_parse (Sql.geom r)))
           (Sql.select_level_like l p (table w)))
    by (intros l p; now apply selected_rows_parse).
  assert (Hfacts := fun k row => fixed_width_facts (table w) k row Hfw).
  unfold geojson_try, legacy_geojson_try, bind, ret.
  destruct (JS.length c =? 2)%Z eqn:L2.
  { apply Z.eqb_eq in L2. unfold JS.length in L2.
    assert (Eq1 : Sql.select_level_eq 1 c (table w)
                  = Sql.select_level_like 1 (c +:+ "%") (table w)).
    { symmetry. apply select_like_is_eq; [exact Hplain|].
      intros k row Hk Hl. destruct (Hfacts k row Hk) as (F1 & _). rewrite (F1 Hl). lia. }
    assert (Ch2 : Sql.select_level_like 2 (c +:+ ".%") (table w)
                  = Sql.select_level_like 2 (c +:+ "%") (table w)).
    { symmetry. apply select_like_with_dot; [exact Hplain|].
      intros k row Hk Hl. destruct (Hfacts k row Hk) as (_ & F2 & _).
      replace (String.length c) with 2%nat by lia. now apply F2. }
    run_both HE Hjson. rewrite Eq1, legacy_fill_parsed by apply Hparse. cbv beta iota.
    run_both HE Hjson. rewrite Ch2, legacy_fill_parsed by apply Hparse. reflexivity. }
  destruct (JS.length c =? 5)%Z eqn:L5.
  { apply Z.eqb_eq in L5. unfold JS.length in L5.
    assert (Eq2 : Sql.select_level_eq 2 c (table w)
                  = Sql.select_level_like 2 (c +:+ "%") (table w)).
    { symmetry. apply select_like_is_eq; [exact Hplain|].
      intros k row Hk Hl. destruct (Hfacts k row Hk) as (_ & F2 & _).
      destruct (F2 Hl) as [-> _]. lia. }
    assert (Ch3 : Sql.select_level_like 3 (c +:+ ".%") (table w)
                  = Sql.select_level_like 3 (c +:+ "%") (table w)).
    { symmetry. apply select_like_with_dot; [exact Hplain|].
      intros k row Hk Hl. destruct (Hfacts k row Hk) as (_ & _ & F3 & _).
      replace (String.length c) with 5%nat by lia. now apply F3. }
    assert (Ch4 : Sql.select_level_like 4 (c +:+ ".%") (table w)
                  = Sql.select_level_like 4 (c +:+ "%") (table w)).
    { symmetry. apply select_like_with_dot; [exact Hplain|].
      intros k row Hk Hl. destruct (Hfacts k row Hk) as (_ & _ & _ & F4).
      replace (String.length c) with 5%nat by lia. now apply F4. }
    run_both HE Hjson. rewrite Eq2, legacy_fill_parsed by apply Hparse. cbv beta iota.
    run_both HE Hjson. rewrite Ch3, legacy_fill_parsed by apply Hparse. cbv beta iota.
    run_both HE Hjson. rewrite Ch4, legacy_fill_parsed by apply Hparse. reflexivity. }
  destruct (JS.length c =? 8)%Z eqn:L8.
  { apply Z.eqb_eq in L8. unfold JS.length in L8.
    assert (L5' : String.length (JS.substring0 c 5) = 5%nat)
      by (apply (length_substring0 c 5); lia).
    assert (Eq2 : Sql.select_level_eq 2 (JS.substring0 c 5) (table w)
                  = Sql.select_level_like 2 (JS.substring0 c 5 +:+ "%") (table w)).
    { symmetry. apply select_like_is_eq; [now apply plain_substring|].
      intros k row Hk Hl. destruct (Hfacts k row Hk) as (_ & F2 & _).
      destruct (F2 Hl) as [-> _]. lia. }
    assert (Eq3 : Sql.select_level_eq 3 c (table w)
                  = Sql.select_level_like 3 (c +:+ "%") (table w)).
    { symmetry. apply select_like_is_eq; [exact Hplain|].
      intros k row Hk Hl. destruct (Hfacts k row Hk) as (_ & _ & F3 & _).
      destruct (F3 Hl) as [-> _]. lia. }
    assert (Ch4 : Sql.select_level_like 4 (c +:+ ".%") (table w)
                  = Sql.select_level_like 4 (c +:+ "%") (table w)).
    { symmetry. apply select_like_with_dot; [exact Hplain|].
      intros k row Hk Hl. destruct (Hfacts k row Hk) as (_ & _ & _ & F4).
      replace (String.length c) with 8%nat by lia. now apply F4. }
    run_both HE Hjson. rewrite Eq2, legacy_fill_parsed by apply Hparse. cbv beta iota.
    run_both HE Hjson. rewrite Eq3, legacy_fill_parsed by apply Hparse. cbv beta iota.
    run_both HE Hjson. rewrite Ch4, legacy_fill_parsed by apply Hparse. reflexivity. }
  destruct (13 <=? JS.length c)%Z eqn:L13; [|reflexivity].
  apply Z.leb_le in L13. unfold JS.length in L13.
  assert (L8' : String.length (JS.substring0 c 8) = 8%nat)
    by (apply (length_substring0 c 8); lia).
  assert (Eq3 : Sql.select_level_eq 3 (JS.substring0 c 8) (table w)
                = Sql.select_level_like 3 (JS.substring0 c 8 +:+ "%") (table w)).
  { symmetry. apply select_like_is_eq; [now apply plain_substring|].
    intros k row Hk Hl. destruct (Hfacts k row Hk) as (_ & _ & F3 & _).
    destruct (F3 Hl) as [-> _]. lia. }
  assert (Eq4 : Sql.select_level_eq 4 c (table w)
                = Sql.select_level_like 4 (c +:+ "%") (table w)).
  { symmetry. apply select_like_is_eq; [exact Hplain|].
    intros k row Hk Hl. destruct (Hfacts k row Hk) as (_ & _ & _ & F4).
    destruct (F4 Hl) as [-> _]. lia. }
  run_both HE Hjson. rewrite Eq3, legacy_fill_parsed by apply Hparse. cbv beta iota.
  run_both HE Hjson. rewrite Eq4, legacy_fill_parsed by apply Hparse. reflexivity.
Qed.

End Fetches.

Lemma feature_collection_of_rows_witness :
  @legacy_toFeatureCollection Toy.json
    (Sql.select_level_like 2 "11%" Toy.wide_codes)
  = Normal (@toFeatureCollection Toy.json
              (driver_row <$> Sql.select_level_like 2 "11%" Toy.wide_codes)).
Proof.
  assert (Hall : Forall (fun r => is_Some (@JSON_parse Toy.json (Sql.geom r)))
                         (Sql.select_level_like 2 "11%" Toy.wide_codes))
    by (apply Forall_forall; intros r _; exists (Sql.geom r); reflexivity).
  exact (proj1 (proj2 (proj2 (proj2 (proj2
           (@feature_collection_of_rows Toy.json
              (Sql.select_level_like 2 "11%" Toy.wide_codes)))))) Hall).
Defined.

Lemma fetch_returns_regions_with_prefix_witness :
  exists rows w',
    @fetchGeoData Toy.postgis Toy.json (Toy.env_of SUPABASE) 2 "11.0"
                  (Toy.start Toy.bakongan) = (Normal rows, w')
    /\ table w' = Toy.bakongan
    /\ NoDup (f_id <$> toFeatureCollection rows)
    /\ forall k, k ∈ f_id <$> toFeatureCollection rows
                 <-> exists row, Toy.bakongan !! k = Some row
                                 /\ Sql.level row = 2%Z
                                 /\ String.prefix "11.0" k = true.
Proof.
  apply (@fetch_returns_regions_with_prefix Toy.postgis Toy.json
           (Toy.env_of SUPABASE) 2 "11.0" (Toy.start Toy.bakongan));
    try reflexivity.
  intros g. exists g. reflexivity.
Defined.

Lemma fetch_reads_underscore_as_wildcard_witness :
  exists rows w',
    @fetchGeoData Toy.postgis Toy.json (Toy.env_of POSTGRES) 2 "______"
                  (Toy.start Toy.bakongan) = (Normal rows, w')
    /\ forall k, k ∈ f_id <$> toFeatureCollection rows
                 <-> exists row, Toy.bakongan !! k = Some row
                                 /\ Sql.level row = 2%Z
                                 /\ (6 <= String.length k)%nat.
Proof.
  apply (@fetch_reads_underscore_as_wildcard Toy.postgis Toy.json
           (Toy.env_of POSTGRES) 2 6 (Toy.start Toy.bakongan));
    try reflexivity.
  intros g. exists g. reflexivity.
Defined.

Lemma upsert_then_fetch_witness :
  exists rows w2,
    @fetchGeoData Toy.postgis Toy.json (Toy.env_of POSTGRES) 2 "11.01"
      (@upsertFeature Toy.postgis Toy.json (Toy.env_of POSTGRES)
         (JStr "11.01") (JStr "Aceh Selatan Baru") 3 "{n}"
         (Toy.start Toy.bakongan)).2
    = (Normal rows, w2)
    /\ Toy.named "Aceh Selatan Baru" "11.01" "{n}" ∈ toFeatureCollection rows.
Proof.
  destruct (@upsert_then_fetch Toy.postgis Toy.json (Toy.env_of POSTGRES)
              (JStr "11.01") (JStr "Aceh Selatan Baru") 3 "{n}"
              (Toy.start Toy.bakongan)
              (@upsertFeature Toy.postgis Toy.json (Toy.env_of POSTGRES)
                 (JStr "11.01") (JStr "Aceh Selatan Baru") 3 "{n}"
                 (Toy.start Toy.bakongan)).2)
    as (k & gm & Hk & Hg & Hfetch & _).
  - reflexivity.
  - reflexivity.
  - reflexivity.
  - intros g. exists g. reflexivity.
  - injection Hk as <-. injection Hg as <-.
    exact (Hfetch eq_refl).
Defined.

Lemma servers_agree_on_fixed_width_witness :
  (@geojson_route Toy.postgis Toy.json (Toy.env_of POSTGRES) (Some "11.01")
                  (Toy.start Sample.aceh_selatan)).1
  = (@legacy_geojson_route Toy.postgis Toy.json (Toy.env_of POSTGRES)
                           (Some "11.01") (Toy.start Sample.aceh_selatan)).1.
Proof.
  apply (@servers_agree_on_fixed_width Toy.postgis Toy.json
           (Toy.env_of POSTGRES) (Some "11.01") (Toy.start Sample.aceh_selatan)).
  - reflexivity.
  - apply (bool_decide_unpack _). vm_compute. exact I.
  - intros c [= <-]. reflexivity.
  - intros g. exists g. reflexivity.
Defined.

(** ** The sync route: files, levels, and what a run leaves *)

Lemma prefix_same_length (a b s : string) :
  String.prefix a s = true -> String.prefix b s = true ->
  String.length a = String.length b -> a = b.
Proof.
  revert b s. induction a as [|x a IH]; intros [|y b] [|z s]; simpl;
    try discriminate; try reflexivity.
  destruct (ascii_dec x z) as [->|]; [|discriminate].
  destruct (ascii_dec y z) as [->|]; [|discriminate].
  intros Ha Hb [= Hlen]. f_equal. exact (IH b s Ha Hb Hlen).
Qed.

(** X10. The level read off a file name depends on the two suffixes and on
    the pattern of two digits and an underscore only: the suffixes exclude
    each other, so the order of their tests does not matter, and the test
    for the name [11_Aceh.geojson] never changes the result, since that name
    fits the pattern. The level is one of 1, 2, 3 and 4. *)
Theorem detectLevel_by_name (file : string) :
  (JSText.endsWith file "_kecamatan.geojson" = true ->
   JSText.endsWith file "_kelurahan.geojson" = false)
  /\ (detectLevel file = 3%Z <-> JSText.endsWith file "_kecamatan.geojson" = true)
  /\ (detectLevel file = 4%Z <-> JSText.endsWith file "_kelurahan.geojson" = true)
  /\ (detectLevel file = 1%Z <->
        JSText.endsWith file "_kecamatan.geojson" = false
        /\ JSText.endsWith file "_kelurahan.geojson" = false
        /\ JSText.province_pattern file = true)
  /\ (detectLevel file = 2%Z <->
        JSText.endsWith file "_kecamatan.geojson" = false
        /\ JSText.endsWith file "_kelurahan.geojson" = false
        /\ JSText.province_pattern file = false)
  /\ (1 <= detectLevel file <= 4)%Z.
Proof.
  assert (Hex : JSText.endsWith file "_kecamatan.geojson" = true ->
                JSText.endsWith file "_kelurahan.geojson" = false).
  { unfold JSText.endsWith. intros Hkec.
    destruct (String.prefix (String.rev "_kelurahan.geojson") (String.rev file))
      eqn:Hkel; [|reflexivity].
    pose proof (prefix_same_length _ _ _ Hkec Hkel eq_refl) as Heq.
    vm_compute in Heq. discriminate Heq. }
  assert (Hname : bool_decide (file = "11_Aceh.geojson") = true ->
                  JSText.province_pattern file = true).
  { intros Hb. apply bool_decide_eq_true in Hb. subst file. reflexivity. }
  split; [exact Hex|].
  unfold detectLevel.
  destruct (JSText.endsWith file "_kecamatan.geojson") eqn:Hkec.
  { rewrite (Hex eq_refl).
    repeat split; try discriminate; try lia; intros; intuition discriminate. }
  destruct (JSText.endsWith file "_kelurahan.geojson") eqn:Hkel.
  { repeat split; try discriminate; try lia; intros; intuition discriminate. }
  destruct (JSText.province_pattern file) eqn:Hpat.
  { rewrite orb_true_r.
    repeat split; try discriminate; try lia; intros; intuition discriminate. }
  destruct (bool_decide (file = "11_Aceh.geojson")) eqn:Hb.
  { specialize (Hname eq_refl). discriminate Hname. }
  simpl. repeat split; try discriminate; try lia; intros; intuition discriminate.
Qed.

Section Sync.
Context `{PostGIS} `{JSON}.

Lemma upsertFeature_sends_one (E : env) kode nama level (g : geojson)
    (w w' : world) c :
  upsertFeature E kode nama level g w = (c, w') ->
  (length (sent w') <= S (length (sent w)))%nat
  /\ (c = Normal tt -> length (sent w') = S (length (sent w))).
Proof.
  assert (Hlen : forall x : store_call,
            length (sent w ++ [x]) = S (length (sent w)))
    by (intros x; rewrite length_app; simpl; lia).
  unfold upsertFeature.
  destruct (DB_PROVIDER E).
  - unfold pool_query, send, writing.
    destruct (answers E _).
    + destruct (Sql.insert_on_conflict _ _ _ _ _ _); simpl;
        intros [= <- <-]; simpl; rewrite Hlen; split; auto; discriminate.
    + intros [= <- <-]; simpl; rewrite Hlen; split; auto; discriminate.
  - destruct (supabaseAdmin E) eqn:Hadmin; simpl.
    + unfold bind, supabase_call, send, writing. rewrite Hadmin.
      destruct (answers E _).
      * destruct (Sql.upsert_wilayah _ _ _ _ _ _); simpl;
          intros [= <- <-]; simpl; rewrite Hlen; split; auto; discriminate.
      * intros [= <- <-]; simpl; rewrite Hlen; split; auto; discriminate.
    + intros [= <- <-]. split; [lia | discriminate].
Qed.

Lemma grows_by_refl (P : Z -> Prop) (t : gmap string Sql.row) : grows_by P t t.
Proof.
  split.
  - intros k r Hk. now exists r.
  - intros k r Hnone Hsome. congruence.
Qed.

Lemma grows_by_trans (P : Z -> Prop) (t1 t2 t3 : gmap string Sql.row) :
  grows_by P t1 t2 -> grows_by P t2 t3 -> grows_by P t1 t3.
Proof.
  intros [K12 N12] [K23 N23]. split.
  - intros k r Hk.
    destruct (K12 k r Hk) as (r2 & H2 & Hl2 & Hc2).
    destruct (K23 k r2 H2) as (r3 & H3 & Hl3 & Hc3).
    exists r3. split; [exact H3|]. split; congruence.
  - intros k r3 Hnone H3.
    destruct (t2 !! k) as [r2|] eqn:H2.
    + destruct (K23 k r2 H2) as (r3' & H3' & Hl3 & _).
      rewrite H3 in H3'. injection H3' as <-.
      rewrite Hl3. exact (N12 k r2 Hnone H2).
    + exact (N23 k r3 H2 H3).
Qed.

Lemma grows_by_weaken (P Q : Z -> Prop) (t t' : gmap string Sql.row) :
  (forall l, P l -> Q l) -> grows_by P t t' -> grows_by Q t t'.
Proof. intros HPQ [K N]. split; [exact K|]. intros k r' Hn Hs. eauto. Qed.

Lemma upsertFeature_grows (E : env) kode nama level (g : geojson)
    (w w' : world) c :
  upsertFeature E kode nama level g w = (c, w') ->
  grows_by (eq level) (table w) (table w').
Proof.
  intros Hrun. destruct c as [[]|e].
  - apply upsertFeature_normal, insert_on_conflict_inv in Hrun.
    destruct Hrun as (k & gm & _ & _ & _ & ->). split.
    + intros k' r Hk'. destruct (decide (k = k')) as [<-|Hne].
      * rewrite lookup_insert_eq, Hk'. eexists. split; [reflexivity|].
        split; reflexivity.
      * rewrite lookup_insert_ne by exact Hne. now exists r.
    + intros k' r' Hnone. destruct (decide (k = k')) as [<-|Hne].
      * rewrite lookup_insert_eq, Hnone. now intros [= <-].
      * rewrite lookup_insert_ne by exact Hne. congruence.
  - rewrite (upsertFeature_throw _ _ _ _ _ _ _ _ Hrun). apply grows_by_refl.
Qed.

Lemma sync_features_grows (E : env) (features : list feature) (level : Z) :
  forall (n : Z) (w w' : world) c,
    sync_features E features level n w = (c, w') ->
    grows_by (eq level) (table w) (table w').
Proof.
  induction features as [|f rest IH]; intros n w w' c Hrun.
  - injection Hrun as _ <-. apply grows_by_refl.
  - simpl in Hrun. unfold bind, lift in Hrun.
    destruct (transformProperties (properties f) level) as [d|e].
    + destruct (upsertFeature E (kode d) (nama d) level (geometry f) w)
        as [[[]|e] w1] eqn:Hup.
      * apply (grows_by_trans _ _ (table w1)).
        -- exact (upsertFeature_grows _ _ _ _ _ _ _ _ Hup).
        -- exact (IH _ _ _ _ Hrun).
      * injection Hrun as _ <-.
        exact (upsertFeature_grows _ _ _ _ _ _ _ _ Hup).
    + injection Hrun as _ <-. apply grows_by_refl.
Qed.

Lemma detectLevel_range (file : string) : (1 <= detectLevel file <= 4)%Z.
Proof.
  unfold detectLevel.
  repeat match goal with |- context [if ?b then _ else _] => destruct b end; lia.
Qed.

Lemma sync_loop_extends (E : env) (files : list geojson_file) :
  forall (n : Z) (w w' : world) c,
    sync_loop E files n w = (c, w') ->
    extends_table (table w) (table w').
Proof.
  induction files as [|file rest IH]; intros n w w' c Hrun.
  - injection Hrun as _ <-. apply grows_by_refl.
  - simpl in Hrun. destruct (file_features file) as [features|].
    + unfold bind in Hrun.
      assert (Hhere' : forall c1 w1,
                sync_features E features (detectLevel (file_name file)) n w
                = (c1, w1) ->
                extends_table (table w) (table w1)).
      { intros c1 w1 Hhere.
        apply (grows_by_weaken (eq (detectLevel (file_name file)))).
        - intros l <-. apply detectLevel_range.
        - exact (sync_features_grows _ _ _ _ _ _ _ Hhere). }
      destruct (sync_features E features (detectLevel (file_name file)) n w)
        as [[m|e] w1] eqn:Hhere.
      * apply (grows_by_trans _ _ (table w1)).
        -- exact (Hhere' _ _ eq_refl).
        -- exact (IH _ _ _ _ Hrun).
      * injection Hrun as _ <-. exact (Hhere' _ _ eq_refl).
    + injection Hrun as _ <-. apply grows_by_refl.
Qed.

(** X11. Whatever the sync route answers, and also when it stops on an
    error, it leaves every row that was stored, with the level and the
    creation time the row had, and each row it adds has one of the levels
    1 to 4. *)
Theorem sync_request_extends_table (E : env) (code : option string)
    (directory : option (list geojson_file)) (w : world) :
  extends_table (table w) (table (sync_request E code directory w).2).
Proof.
  unfold sync_request.
  destruct code as [code|]; [|apply grows_by_refl].
  destruct (JS.falsy (JStr code)); [apply grows_by_refl|].
  destruct directory as [dir|]; [|apply grows_by_refl].
  cbv zeta.
  destruct (Z.of_nat (length (filter (fun f => sync_selects code f = true) dir)) =? 0)%Z;
    [apply grows_by_refl|].
  destruct (sync_loop E (filter (fun f => sync_selects code f = true) dir) 0 w)
    as [[n|e] w'] eqn:Hrun; exact (sync_loop_extends _ _ _ _ _ _ Hrun).
Qed.

(** The levelled files the loop works on when every file can be read. *)
Lemma sync_loop_is_sync_files (E : env) (files : list geojson_file) fss :
  mapM file_features files = Some fss ->
  forall (n : Z) (w : world),
    sync_loop E files n w
    = sync_files E (zip ((fun f => detectLevel (file_name f)) <$> files) fss) n w.
Proof.
  revert fss. induction files as [|file rest IH]; intros fss Hall n w.
  - reflexivity.
  - simpl in Hall. simpl.
    destruct (file_features file) as [features|]; [|discriminate].
    simpl in Hall. destruct (mapM file_features rest) as [fss'|] eqn:Hrest;
      [|discriminate].
    injection Hall as <-. simpl. unfold bind.
    destruct (sync_features E features (detectLevel (file_name file)) n w)
      as [[m|e] w1]; [|reflexivity].
    exact (IH fss' eq_refl m w1).
Qed.

Lemma sync_features_sent (E : env) (features : list feature) (level : Z) :
  forall (n m : Z) (w w' : world),
    sync_features E features level n w = (Normal m, w') ->
    length (sent w') = (length (sent w) + length features)%nat.
Proof.
  induction features as [|f rest IH]; intros n m w w' Hrun.
  - injection Hrun as _ <-. simpl. lia.
  - simpl in Hrun. unfold bind, lift in Hrun.
    destruct (transformProperties (properties f) level) as [d|e]; [|discriminate].
    destruct (upsertFeature E (kode d) (nama d) level (geometry f) w)
      as [[[]|e] w1] eqn:Hup; [|discriminate].
    destruct (upsertFeature_sends_one _ _ _ _ _ _ _ _ Hup) as [_ Hone].
    rewrite (IH _ _ _ _ Hrun), (Hone eq_refl). simpl. lia.
Qed.

Lemma sync_files_sent (E : env) (files : list (Z * list feature)) :
  forall (n m : Z) (w w' : world),
    sync_files E files n w = (Normal m, w') ->
    length (sent w')
    = (length (sent w) + length (concat (snd <$> files)))%nat.
Proof.
  induction files as [|[level features] rest IH]; intros n m w w' Hrun.
  - injection Hrun as _ <-. simpl. lia.
  - simpl in Hrun. unfold bind in Hrun.
    destruct (sync_features E features level n w) as [[n1|e] w1] eqn:Hhere;
      [|discriminate].
    rewrite (IH _ _ _ _ Hrun), (sync_features_sent _ _ _ _ _ _ _ Hhere), fmap_cons.
    cbn [concat snd]. rewrite length_app. lia.
Qed.

Lemma snd_zip_levels (files : list geojson_file) (fss : list (list feature)) :
  mapM file_features files = Some fss ->
  snd <$> zip ((fun f => detectLevel (file_name f)) <$> files) fss = fss.
Proof.
  intros Hall. apply snd_zip.
  rewrite length_fmap. apply length_mapM in Hall. lia.
Qed.

(** X12. A sync that answers with a count has read every selected file: the
    count is the number of features of the selected files together, and
    the route sent one statement per feature. *)
Theorem sync_request_counts_features (E : env) (code : string)
    (dir : list geojson_file) (w w' : world) (n : Z) :
  sync_request E (Some code) (Some dir) w = (sync_done (sync_ok n), w') ->
  exists fss,
    mapM file_features (filter (fun f => sync_selects code f = true) dir) = Some fss
    /\ n = Z.of_nat (length (concat fss))
    /\ length (sent w') = (length (sent w) + length (concat fss))%nat.
Proof.
  unfold sync_request.
  destruct (JS.falsy (JStr code)); [discriminate|]. cbv zeta.
  set (files := filter (fun f => sync_selects code f = true) dir).
  destruct (Z.of_nat (length files) =? 0)%Z; [discriminate|].
  destruct (sync_loop E files 0 w) as [[m|e] w1] eqn:Hrun; [|discriminate].
  intros [= -> ->].
  assert (Hall : exists fss, mapM file_features files = Some fss).
  { clear -Hrun. revert w Hrun. generalize 0%Z.
    induction files as [|file rest IH]; intros z w Hrun; [now exists []|].
    simpl in Hrun. simpl. destruct (file_features file) as [features|];
      [|discriminate].
    unfold bind in Hrun.
    destruct (sync_features E features (detectLevel (file_name file)) z w)
      as [[m|e] w1'] eqn:Hhere; [|discriminate].
    destruct (IH _ _ Hrun) as [fss ->]. simpl. eauto. }
  destruct Hall as [fss Hall]. exists fss. split; [exact Hall|].
  rewrite (sync_loop_is_sync_files E files fss Hall) in Hrun.
  rewrite (sync_files_count _ _ _ _ _ _ Hrun), (sync_files_sent _ _ _ _ _ _ Hrun).
  rewrite (snd_zip_levels files fss Hall). split; [lia | reflexivity].
Qed.

Lemma sync_loop_app (E : env) (before after : list geojson_file) :
  forall (n : Z) (w : world),
    sync_loop E (before ++ after) n w
    = bind (sync_loop E before n) (sync_loop E after) w.
Proof.
  induction before as [|file rest IH]; intros n w; [reflexivity|].
  simpl. destruct (file_features file) as [features|]; [|reflexivity].
  unfold bind.
  destruct (sync_features E features (detectLevel (file_name file)) n w)
    as [[m|e] w1]; [|reflexivity].
  rewrite IH. reflexivity.
Qed.

(** X13. A sync does not undo what it did: when the selected files hold
    one that cannot be read, the route answers 500 and leaves the world the
    loop over the files before that one leaves, whether that loop got to
    its end or failed; no file after the unreadable one is looked at. *)
Theorem sync_request_stops_at_unreadable_file (E : env) (code : string)
    (dir before after : list geojson_file) (bad : geojson_file) (w : world) :
  code <> "" ->
  filter (fun f => sync_selects code f = true) dir = before ++ bad :: after ->
  file_features bad = None ->
  sync_request E (Some code) (Some dir) w
  = (sync_done sync_500, (sync_loop E before 0 w).2).
Proof.
  intros Hcode Hsel Hbad. unfold sync_request.
  replace (JS.falsy (JStr code)) with false
    by (symmetry; simpl; now apply bool_decide_eq_false).
  cbv zeta. rewrite Hsel.
  replace (Z.of_nat (length (before ++ bad :: after)) =? 0)%Z with false
    by (symmetry; apply Z.eqb_neq; rewrite length_app; simpl; lia).
  rewrite sync_loop_app. unfold bind.
  destruct (sync_loop E before 0 w) as [[m|e] w1]; [|reflexivity].
  simpl. rewrite Hbad. reflexivity.
Qed.

End Sync.

Lemma sync_request_counts_features_witness :
  exists fss,
    mapM file_features
      (filter (fun f => @sync_selects Toy.json "11" f = true)
              [Sample.province_file; Sample.kecamatan_file]) = Some fss
    /\ 2%Z = Z.of_nat (length (concat fss))
    /\ length (sent (@sync_request Toy.postgis Toy.json (Toy.env_of POSTGRES)
                       (Some "11")
                       (Some [Sample.province_file; Sample.kecamatan_file])
                       (Toy.start ∅)).2)
       = (length (sent (Toy.start ∅)) + length (concat fss))%nat.
Proof.
  apply (@sync_request_counts_features Toy.postgis Toy.json
           (Toy.env_of POSTGRES) "11"
           [Sample.province_file; Sample.kecamatan_file] (Toy.start ∅)).
  vm_compute. reflexivity.
Defined.

Lemma sync_request_stops_at_unreadable_file_witness :
  @sync_request Toy.postgis Toy.json (Toy.env_of SUPABASE) (Some "11")
                (Some Sample.directory) (Toy.start ∅)
  = (sync_done sync_500,
     (@sync_loop Toy.postgis Toy.json (Toy.env_of SUPABASE)
        [Sample.province_file; Sample.kecamatan_file] 0 (Toy.start ∅)).2).
Proof.
  apply (@sync_request_stops_at_unreadable_file Toy.postgis Toy.json
           (Toy.env_of SUPABASE) "11" Sample.directory
           [Sample.province_file; Sample.kecamatan_file] [] Sample.broken_file
           (Toy.start ∅)).
  - discriminate.
  - reflexivity.
  - reflexivity.
Defined.

(** ** The search route *)

Section SearchRoute.
Context `{PostGIS}.

Lemma like_any (rest s : string) :
  Sql.like (String "%" rest) s = true
  <-> exists u v, s = u +:+ v /\ Sql.like rest v = true.
Proof.
  induction s as [|c s IH].
  - change (Sql.like (String "%" rest) "") with (Sql.like rest "" || false).
    rewrite orb_false_r. split.
    + intros Hl. now exists "", "".
    + intros ([|? ?] & v & Heq & Hl); [|discriminate].
      change ("" = v) in Heq. now subst v.
  - change (Sql.like (String "%" rest) (String c s))
      with (Sql.like rest (String c s) || Sql.like (String "%" rest) s).
    rewrite orb_true_iff, IH. split.
    + intros [Hl | (u & v & -> & Hl)].
      * now exists "", (String c s).
      * now exists (String c u), v.
    + intros ([|d u] & v & Heq & Hl).
      * left. change (String c s = v) in Heq. now subst v.
      * right. change (String c s = String d (u +:+ v)) in Heq.
        injection Heq as -> ->. now exists u, v.
Qed.

Lemma prefix_iff (p s : string) :
  String.prefix p s = true <-> exists v, s = p +:+ v.
Proof.
  revert s. induction p as [|x p IH]; intros s.
  - split; [intros _; now exists s | intros _; now destruct s].
  - destruct s as [|y s]; simpl.
    + split; [discriminate | intros [v Hv]; discriminate Hv].
    + destruct (ascii_dec x y) as [->|Hne].
      * rewrite IH. split; intros [v Hv]; exists v.
        -- now rewrite Hv.
        -- now injection Hv.
      * split; [discriminate | intros [v Hv]; injection Hv as -> _; congruence].
Qed.

Lemma like_contains (p s : string) :
  plain p = true ->
  Sql.like ("%" +:+ p +:+ "%") s = true <-> occurs_in p s.
Proof.
  intros Hplain.
  change ("%" +:+ p +:+ "%") with (String "%" (p +:+ "%")).
  rewrite like_any. unfold occurs_in. split.
  - intros (u & v & -> & Hl).
    rewrite (like_plain_prefix p v Hplain) in Hl.
    apply prefix_iff in Hl as [v' ->]. now exists u, v'.
  - intros (u & v & ->). exists u, (p +:+ v). split; [reflexivity|].
    rewrite (like_plain_prefix p _ Hplain). apply prefix_append.
Qed.

Lemma like_percents (n : nat) (s : string) :
  Sql.like ("%" +:+ percents n +:+ "%") s = true.
Proof.
  change ("%" +:+ percents n +:+ "%") with (String "%" (percents n +:+ "%")).
  apply like_any. exists "", s. split; [reflexivity|].
  induction n as [|n IH]; [apply like_percent|].
  change (percents (S n) +:+ "%") with (String "%" (percents n +:+ "%")).
  apply like_any. now exists "", s.
Qed.

Lemma lower_percents (n : nat) : Sql.lower (percents n) = percents n.
Proof.
  induction n as [|n IH]; [reflexivity|]. simpl. rewrite IH.
  unfold Sql.lower_char. now destruct lower_folds_latin1.
Qed.

Lemma toLowerCase_percents (n : nat) : JS.toLowerCase (percents n) = percents n.
Proof. induction n as [|n IH]; [reflexivity|]. simpl. now rewrite IH. Qed.

Lemma length_percents (n : nat) : String.length (percents n) = n.
Proof. induction n as [|n IH]; [reflexivity|]. simpl. now rewrite IH. Qed.

Lemma lower_ascii_special (c : ascii) :
  Ascii.eqb (JS.lower_ascii c) "%" = Ascii.eqb c "%"
  /\ Ascii.eqb (JS.lower_ascii c) "_" = Ascii.eqb c "_"
  /\ Ascii.eqb (JS.lower_ascii c) "\" = Ascii.eqb c "\".
Proof.
  destruct c as [[] [] [] [] [] [] [] []]; vm_compute; repeat split.
Qed.

Lemma lower_unit_special (c : ascii) :
  Ascii.eqb (JS.lower_unit c) "%" = Ascii.eqb c "%"
  /\ Ascii.eqb (JS.lower_unit c) "_" = Ascii.eqb c "_"
  /\ Ascii.eqb (JS.lower_unit c) "\" = Ascii.eqb c "\".
Proof.
  destruct c as [[] [] [] [] [] [] [] []]; vm_compute; repeat split.
Qed.

Lemma plain_lower (q : string) : plain (Sql.lower q) = plain q.
Proof.
  induction q as [|c q IH]; [reflexivity|]. simpl. unfold Sql.lower_char.
  destruct lower_folds_latin1.
  - destruct (lower_unit_special c) as (-> & -> & ->). now rewrite IH.
  - destruct (lower_ascii_special c) as (-> & -> & ->). now rewrite IH.
Qed.

Lemma plain_toLowerCase (q : string) : plain (JS.toLowerCase q) = plain q.
Proof.
  induction q as [|c q IH]; [reflexivity|]. simpl.
  destruct (lower_unit_special c) as (-> & -> & ->). now rewrite IH.
Qed.

Lemma plain_search_needle (E : env) (q : string) :
  plain (search_needle E q) = plain q.
Proof.
  unfold search_needle.
  destruct (DB_PROVIDER E); [apply plain_toLowerCase | apply plain_lower].
Qed.

Lemma order_total (a b : string * Sql.row) :
  Sql.order_by_level_nama a b = false -> Sql.order_by_level_nama b a = true.
Proof.
  unfold Sql.order_by_level_nama.
  destruct (Sql.level a.2 <? Sql.level b.2)%Z eqn:Hab; [discriminate|].
  destruct (Sql.level b.2 <? Sql.level a.2)%Z eqn:Hba; [reflexivity|].
  destruct (Sql.nama_wilayah_kemendagri a.2) as [x|],
           (Sql.nama_wilayah_kemendagri b.2) as [y|];
    try discriminate; try reflexivity.
  intros Hxy. destruct (String.leb_total x y) as [Hle|Hle]; congruence.
Qed.

Lemma insert_by_perm le (x : string * Sql.row) (l : list (string * Sql.row)) :
  Sql.insert_by le x l ≡ₚ x :: l.
Proof.
  induction l as [|y l IH]; [reflexivity|]. simpl.
  destruct (le x y); [reflexivity|]. rewrite IH. apply Permutation_swap.
Qed.

Lemma sort_by_perm le (l : list (string * Sql.row)) : Sql.sort_by le l ≡ₚ l.
Proof.
  induction l as [|x l IH]; [reflexivity|].
  unfold Sql.sort_by in *. simpl. rewrite insert_by_perm. now rewrite IH.
Qed.

Lemma insert_by_sorted (x : string * Sql.row) (l : list (string * Sql.row)) :
  Sorted (fun a b => Sql.order_by_level_nama a b = true) l ->
  Sorted (fun a b => Sql.order_by_level_nama a b = true)
         (Sql.insert_by Sql.order_by_level_nama x l).
Proof.
  induction 1 as [|y l Hs IH Hhd]; simpl.
  - repeat constructor.
  - destruct (Sql.order_by_level_nama x y) eqn:Hxy.
    + constructor; [constructor; assumption | constructor; exact Hxy].
    + constructor; [exact IH|].
      destruct Hhd as [|z l Hyz]; simpl.
      * constructor. now apply order_total.
      * destruct (Sql.order_by_level_nama x z); constructor;
          [now apply order_total | exact Hyz].
Qed.

Lemma sort_by_sorted (l : list (string * Sql.row)) :
  Sorted (fun a b => Sql.order_by_level_nama a b = true)
         (Sql.sort_by Sql.order_by_level_nama l).
Proof.
  induction l as [|x l IH]; [constructor|].
  unfold Sql.sort_by in *. simpl. now apply insert_by_sorted.
Qed.

Lemma Sorted_take {A} (R : A -> A -> Prop) (l : list A) (n : nat) :
  Sorted R l -> Sorted R (take n l).
Proof.
  intros Hs. revert n. induction Hs as [|x l Hs IH Hhd]; intros [|n]; simpl;
    try constructor.
  - apply IH.
  - destruct Hhd as [|y l Hxy]; destruct n; simpl; constructor. exact Hxy.
Qed.

Lemma sorted_hits (l : list (string * Sql.row)) :
  Sorted (fun a b => Sql.order_by_level_nama a b = true) l ->
  Sorted (fun a b => hit_le a b = true) (Sql.to_hit <$> l).
Proof.
  induction 1 as [|x l Hs IH Hhd]; [constructor|].
  rewrite fmap_cons. constructor; [exact IH|].
  destruct Hhd as [|y l Hxy]; [constructor|].
  rewrite fmap_cons. constructor. exact Hxy.
Qed.

(** What a statement of the form [WHERE <test on the name> ORDER BY level,
    nama LIMIT 10] returns. *)
Lemma limited_sorted_hits (P : string -> bool) (t : gmap string Sql.row) :
  let hits :=
    Sql.to_hit <$>
      take 10 (Sql.sort_by Sql.order_by_level_nama
        (filter (fun kr => match Sql.nama_wilayah_kemendagri kr.2 with
                           | Some n => P n
                           | None => false
                           end = true) (Sql.scan t))) in
  (length hits <= 10)%nat
  /\ Sorted (fun a b => hit_le a b = true) hits
  /\ NoDup (Sql.hit_id <$> hits)
  /\ (forall h, h ∈ hits ->
        exists row n, t !! Sql.hit_id h = Some row
          /\ Sql.nama_wilayah_kemendagri row = Some n
          /\ Sql.hit_name h = Some n
          /\ Sql.hit_level h = Sql.level row
          /\ P n = true)
  /\ (forall k row n, t !! k = Some row ->
        Sql.nama_wilayah_kemendagri row = Some n -> P n = true ->
        k ∈ Sql.hit_id <$> hits \/ length hits = 10%nat).
Proof.
  set (Q := fun kr : string * Sql.row =>
              match Sql.nama_wilayah_kemendagri kr.2 with
              | Some n => P n
              | None => false
              end = true).
  set (sorted := Sql.sort_by Sql.order_by_level_nama (filter Q (Sql.scan t))).
  cbv zeta.
  assert (Hin : forall kr, kr ∈ sorted <-> Q kr /\ t !! kr.1 = Some kr.2).
  { intros [k row]. unfold sorted. rewrite sort_by_perm, list_elem_of_filter.
    unfold Sql.scan. now rewrite elem_of_map_to_list. }
  split; [rewrite length_fmap, length_take; lia|].
  split.
  { apply sorted_hits, Sorted_take, sort_by_sorted. }
  split.
  { rewrite <- list_fmap_compose.
    change (Sql.hit_id ∘ Sql.to_hit) with (@fst string Sql.row).
    apply (sublist_NoDup _ (sorted.*1)); [|apply fmap_sublist, sublist_take].
    unfold sorted. rewrite sort_by_perm.
    apply (sublist_NoDup _ ((map_to_list t).*1));
      [apply NoDup_fst_map_to_list | apply fmap_sublist, sublist_filter]. }
  split.
  { intros h Hh. apply list_elem_of_fmap in Hh as ([k row] & -> & Hkr).
    apply (fun H => elem_of_sublist _ _ _ H (sublist_take sorted 10)) in Hkr.
    apply Hin in Hkr as [HQ Hrow]. unfold Q in HQ. simpl in *.
    destruct (Sql.nama_wilayah_kemendagri row) as [n|] eqn:Hn; [|discriminate].
    exists row, n. repeat split; assumption. }
  intros k row n Hrow Hn HP.
  assert (Hkr : (k, row) ∈ sorted).
  { apply Hin. split; [|exact Hrow]. unfold Q. simpl. now rewrite Hn. }
  destruct (decide (length sorted <= 10)%nat) as [Hle|Hgt].
  - left. rewrite (take_ge sorted 10 Hle).
    rewrite <- list_fmap_compose. apply list_elem_of_fmap.
    now exists (k, row).
  - right. rewrite length_fmap, length_take. lia.
Qed.

(** An answered search, through either provider: the rows whose lowered
    name matches the needle between two [%]. *)
Lemma search_answered (E : env) (q : string) (w : world) :
  (3 <= JS.length q)%Z ->
  answers E (length (sent w)) = true ->
  (DB_PROVIDER E = SUPABASE -> supabaseAdmin E = true) ->
  exists w',
    search_route E (Some q) w
    = (search_200 (Sql.select_search ("%" +:+ search_needle E q +:+ "%")
                                     (table w)), w')
    /\ table w' = table w.
Proof.
  intros Hlen Hans Hadmin. unfold search_route, search_guard, search_needle.
  assert (Hq : JS.falsy (JStr q) = false).
  { simpl. apply bool_decide_eq_false. intros ->. vm_compute in Hlen.
    now apply Hlen. }
  rewrite Hq. replace (JS.length q <? 3)%Z with false
    by (symmetry; apply Z.ltb_ge; exact Hlen).
  simpl orb. cbv iota. simpl default. unfold search_try.
  destruct (DB_PROVIDER E) eqn:HE.
  - unfold pool_query, send, reading. rewrite Hans. simpl.
    eexists. split; reflexivity.
  - unfold bind, supabase_call, send, reading. rewrite (Hadmin eq_refl).
    cbv beta iota. rewrite Hans. simpl. eexists. split; reflexivity.
Qed.

(** X14. A search of three characters or more that the store answers
    returns, through either provider and for a query without wildcard
    characters, at most ten hits, ordered by level and then by name, no
    region twice; each hit is a stored region whose name, lowered by the
    database, holds the needle of the search, which is the query lowered
    by JavaScript with the direct provider and the query lowered by the
    database with the Supabase provider; and a region with such a name is
    among the hits unless there are ten of them. The table is left as it
    was. *)
Theorem search_returns_matching_names (E : env) (q : string) (w : world) :
  (3 <= JS.length q)%Z ->
  plain q = true ->
  answers E (length (sent w)) = true ->
  (DB_PROVIDER E = SUPABASE -> supabaseAdmin E = true) ->
  exists hits w',
    search_route E (Some q) w = (search_200 hits, w')
    /\ table w' = table w
    /\ (length hits <= 10)%nat
    /\ Sorted (fun a b => hit_le a b = true) hits
    /\ NoDup (Sql.hit_id <$> hits)
    /\ (forall h, h ∈ hits ->
          exists row n, table w !! Sql.hit_id h = Some row
            /\ Sql.nama_wilayah_kemendagri row = Some n
            /\ Sql.hit_name h = Some n
            /\ Sql.hit_level h = Sql.level row
            /\ occurs_in (search_needle E q) (Sql.lower n))
    /\ (forall k row n, table w !! k = Some row ->
          Sql.nama_wilayah_kemendagri row = Some n ->
          occurs_in (search_needle E q) (Sql.lower n) ->
          k ∈ Sql.hit_id <$> hits \/ length hits = 10%nat).
Proof.
  intros Hlen Hplain Hans Hadmin.
  destruct (search_answered E q w Hlen Hans Hadmin) as (w' & Hrun & Htable).
  exists (Sql.select_search ("%" +:+ search_needle E q +:+ "%") (table w)), w'.
  split; [exact Hrun|]. split; [exact Htable|].
  assert (Hp : plain (search_needle E q) = true)
    by (now rewrite plain_search_needle).
  destruct (limited_sorted_hits
              (fun n => Sql.like ("%" +:+ search_needle E q +:+ "%") (Sql.lower n))
              (table w)) as (Hle & Hsorted & Hnodup & Hsound & Hcomplete).
  split; [exact Hle|]. split; [exact Hsorted|]. split; [exact Hnodup|]. split.
  - intros h Hh. destruct (Hsound h Hh) as (row & n & Hrow & Hn & Hhn & Hhl & Hl).
    exists row, n. repeat split; try assumption.
    now apply (like_contains (search_needle E q) (Sql.lower n) Hp).
  - intros k row n Hrow Hn Hocc. apply (Hcomplete k row n Hrow Hn).
    now apply (like_contains (search_needle E q) (Sql.lower n) Hp).
Qed.

(** X15. The text of a search is read as a [LIKE] pattern: a query of
    three percent signs or more passes the test on the length and lists
    named regions whatever their names are: every region with a name is
    among the hits unless there are ten of them. *)
Theorem search_reads_percent_as_wildcard (E : env) (n : nat) (w : world) :
  (3 <= n)%nat ->
  answers E (length (sent w)) = true ->
  (DB_PROVIDER E = SUPABASE -> supabaseAdmin E = true) ->
  exists hits w',
    search_route E (Some (percents n)) w = (search_200 hits, w')
    /\ forall k row name, table w !! k = Some row ->
         Sql.nama_wilayah_kemendagri row = Some name ->
         k ∈ Sql.hit_id <$> hits \/ length hits = 10%nat.
Proof.
  intros Hn Hans Hadmin.
  assert (Hlen : (3 <= JS.length (percents n))%Z)
    by (unfold JS.length; rewrite length_percents; lia).
  destruct (search_answered E (percents n) w Hlen Hans Hadmin)
    as (w' & Hrun & _).
  assert (Hneedle : search_needle E (percents n) = percents n).
  { unfold search_needle.
    destruct (DB_PROVIDER E); [apply toLowerCase_percents | apply lower_percents]. }
  rewrite Hneedle in Hrun.
  exists (Sql.select_search ("%" +:+ percents n +:+ "%") (table w)), w'.
  split; [exact Hrun|].
  destruct (limited_sorted_hits
              (fun s => Sql.like ("%" +:+ percents n +:+ "%") (Sql.lower s))
              (table w)) as (_ & _ & _ & _ & Hcomplete).
  intros k row name Hrow Hname. apply (Hcomplete k row name Hrow Hname).
  apply like_percents.
Qed.

End SearchRoute.

Lemma search_returns_matching_names_witness :
  exists hits w',
    @search_route Toy.postgis (Toy.env_of SUPABASE) (Some "Selat")
                  (Toy.start Sample.aceh_selatan) = (search_200 hits, w')
    /\ table w' = Sample.aceh_selatan
    /\ (length hits <= 10)%nat
    /\ Sorted (fun a b => hit_le a b = true) hits
    /\ NoDup (Sql.hit_id <$> hits)
    /\ (forall h, h ∈ hits ->
          exists row n, Sample.aceh_selatan !! Sql.hit_id h = Some row
            /\ Sql.nama_wilayah_kemendagri row = Some n
            /\ Sql.hit_name h = Some n
            /\ Sql.hit_level h = Sql.level row
            /\ occurs_in (@search_needle Toy.postgis (Toy.env_of SUPABASE) "Selat")
                         (@Sql.lower Toy.postgis n))
    /\ (forall k row n, Sample.aceh_selatan !! k = Some row ->
          Sql.nama_wilayah_kemendagri row = Some n ->
          occurs_in (@search_needle Toy.postgis (Toy.env_of SUPABASE) "Selat")
                    (@Sql.lower Toy.postgis n) ->
          k ∈ Sql.hit_id <$> hits \/ length hits = 10%nat).
Proof.
  apply (@search_returns_matching_names Toy.postgis (Toy.env_of SUPABASE)
           "Selat" (Toy.start Sample.aceh_selatan));
    try reflexivity.
  vm_compute. discriminate.
Defined.

Lemma search_reads_percent_as_wildcard_witness :
  exists hits w',
    @search_route Toy.postgis (Toy.env_of POSTGRES) (Some "%%%")
                  (Toy.start Sample.aceh_selatan) = (search_200 hits, w')
    /\ forall k row name, Sample.aceh_selatan !! k = Some row ->
         Sql.nama_wilayah_kemendagri row = Some name ->
         k ∈ Sql.hit_id <$> hits \/ length hits = 10%nat.
Proof.
  apply (@search_reads_percent_as_wildcard Toy.postgis (Toy.env_of POSTGRES)
           3 (Toy.start Sample.aceh_selatan)); [lia | reflexivity | reflexivity].
Defined.

(** ** Seeding at start-up *)

Section Seed.
Context `{PostGIS} `{JSON}.

Lemma seed_check_finds (E : env) (w : world) k r :
  table w !! k = Some r -> Sql.level r = 1%Z ->
  seed_check E w = None \/ seed_check E w = Some true.
Proof.
  intros Hk Hl.
  assert (Hin : (k, r) ∈ filter (fun kr : string * Sql.row => Sql.level kr.2 = 1%Z)
                                (Sql.scan (table w))).
  { apply list_elem_of_filter. split; [exact Hl|].
    unfold Sql.scan. now apply elem_of_map_to_list. }
  unfold seed_check, select_1_where_level_1, count_where_level_1.
  destruct (filter (fun kr : string * Sql.row => Sql.level kr.2 = 1%Z)
                   (Sql.scan (table w))) as [|x l];
    [now apply elem_of_nil in Hin|].
  destruct (DB_PROVIDER E).
  - destruct (answers E _); [right; reflexivity | left; reflexivity].
  - destruct (supabaseAdmin E); simpl; [|left; reflexivity].
    destruct (answers E _); [right; reflexivity | left; reflexivity].
Qed.

Lemma seed_with_province_stored (E : env)
    (seed_file : option geojson_file) (w : world) k r :
  table w !! k = Some r -> Sql.level r = 1%Z ->
  seedInitialData E seed_file w = w.
Proof.
  intros Hk Hl. unfold seedInitialData.
  destruct (seed_check_finds E w k r Hk Hl) as [-> | ->]; reflexivity.
Qed.

(** X16. When a region of level 1 is stored, seeding does nothing, whatever
    the provider, the store and the file are. *)
Theorem seed_skips_when_province_stored (E : env)
    (seed_file : option geojson_file) (w : world) k r :
  table w !! k = Some r -> Sql.level r = 1%Z ->
  seedInitialData E seed_file w = w.
Proof. apply seed_with_province_stored. Qed.

Lemma seed_grows (E : env) (seed_file : option geojson_file) (w : world) :
  grows_by (eq 1%Z) (table w) (table (seedInitialData E seed_file w)).
Proof.
  unfold seedInitialData.
  destruct (seed_check E w) as [[]|]; try apply grows_by_refl.
  destruct seed_file as [file|]; [|apply grows_by_refl].
  destruct (file_features file) as [features|]; [|apply grows_by_refl].
  destruct (sync_features (later E) features 1 0 w) as [c w'] eqn:Hrun.
  exact (sync_features_grows _ _ _ _ _ _ _ Hrun).
Qed.

(** X17. Seeding leaves every row that was stored, with its level and
    creation time, and stores new rows at level 1 only, also when it stops
    on an error; and once a seeding has added a row, a later seeding does
    nothing, whatever its provider, store and file are. *)
Theorem seed_adds_provinces_once (E E' : env)
    (seed_file seed_file' : option geojson_file) (w : world) :
  grows_by (eq 1%Z) (table w) (table (seedInitialData E seed_file w))
  /\ ((exists k, table w !! k = None
                 /\ is_Some (table (seedInitialData E seed_file w) !! k)) ->
      seedInitialData E' seed_file' (seedInitialData E seed_file w)
      = seedInitialData E seed_file w).
Proof.
  split; [apply seed_grows|].
  intros (k & Hnone & [r Hr]).
  destruct (seed_grows E seed_file w) as [_ Hnew].
  apply (seed_with_province_stored E' seed_file' _ k r Hr).
  symmetry. exact (Hnew k r Hnone Hr).
Qed.

End Seed.

Lemma seed_adds_provinces_once_witness :
  @seedInitialData Toy.postgis Toy.json (Toy.env_down SUPABASE) None
    (@seedInitialData Toy.postgis Toy.json (Toy.env_of POSTGRES)
       (Some Sample.province_file) (Toy.start ∅))
  = @seedInitialData Toy.postgis Toy.json (Toy.env_of POSTGRES)
      (Some Sample.province_file) (Toy.start ∅).
Proof.
  apply (proj2 (@seed_adds_provinces_once Toy.postgis Toy.json
                  (Toy.env_of POSTGRES) (Toy.env_down SUPABASE)
                  (Some Sample.province_file) None (Toy.start ∅))).
  exists "11". split; [reflexivity|]. vm_compute. eauto.
Defined.

Lemma seed_skips_when_province_stored_witness :
  @seedInitialData Toy.postgis Toy.json (Toy.env_of SUPABASE)
    (Some Sample.province_file) (Toy.start Sample.aceh_selatan)
  = Toy.start Sample.aceh_selatan.
Proof.
  apply (@seed_skips_when_province_stored Toy.postgis Toy.json
           (Toy.env_of SUPABASE) (Some Sample.province_file)
           (Toy.start Sample.aceh_selatan) "11" (Toy.mk_row "Aceh" 1));
    reflexivity.
Defined.

(** ** The status route *)

Section Status.
Context `{PostGIS}.

Lemma id_char_code (x : ascii) :
  is_id_char x = true ->
  (48 <= nat_of_ascii x <= 57)%nat \/ nat_of_ascii x = 46%nat.
Proof.
  unfold is_id_char, JSText.is_digit. intros Hx.
  apply orb_true_iff in Hx as [Hd | Hdot].
  - left. apply andb_true_iff in Hd as [H1 H2].
    apply Nat.leb_le in H1, H2. lia.
  - right. apply Ascii.eqb_eq in Hdot. now subst x.
Qed.

Lemma id_char_lower_ascii (x y : ascii) :
  is_id_char x = true -> x = JS.lower_ascii y <-> x = y.
Proof.
  intros Hx. apply id_char_code in Hx. unfold JS.lower_ascii.
  destruct ((65 <=? nat_of_ascii y)%nat && (nat_of_ascii y <=? 90)%nat) eqn:Hup;
    [|reflexivity].
  apply andb_true_iff in Hup as [H1 H2]. apply Nat.leb_le in H1, H2.
  split; intros ->; exfalso.
  - rewrite nat_ascii_embedding in Hx by lia. lia.
  - lia.
Qed.

Lemma id_char_lower_unit (x y : ascii) :
  is_id_char x = true -> x = JS.lower_unit y <-> x = y.
Proof.
  intros Hx. unfold JS.lower_unit. cbv zeta.
  destruct ((192 <=? nat_of_ascii y)%nat && (nat_of_ascii y <=? 222)%nat
            && negb (nat_of_ascii y =? 215)%nat) eqn:Hup;
    [|now apply id_char_lower_ascii].
  apply id_char_code in Hx.
  apply andb_true_iff in Hup as [Hup _].
  apply andb_true_iff in Hup as [H1 H2]. apply Nat.leb_le in H1, H2.
  split; intros ->; exfalso.
  - rewrite nat_ascii_embedding in Hx by lia. lia.
  - lia.
Qed.

Lemma id_char_lower (x y : ascii) :
  is_id_char x = true -> x = Sql.lower_char y <-> x = y.
Proof.
  intros Hx. unfold Sql.lower_char.
  destruct lower_folds_latin1;
    [now apply id_char_lower_unit | now apply id_char_lower_ascii].
Qed.

Lemma id_char_lower_self (x : ascii) :
  is_id_char x = true -> Sql.lower_char x = x.
Proof.
  intros Hx. symmetry. now apply (id_char_lower x x Hx).
Qed.

Lemma id_char_plain (x : ascii) :
  is_id_char x = true ->
  Ascii.eqb x "%" = false /\ Ascii.eqb x "_" = false /\ Ascii.eqb x "\" = false.
Proof.
  intros Hx.
  repeat split; apply Ascii.eqb_neq; intros ->; discriminate Hx.
Qed.

Lemma digits_and_dots_plain (code : string) :
  digits_and_dots code = true -> plain code = true.
Proof.
  induction code as [|x code IH]; [reflexivity|]. simpl.
  intros Hx. apply andb_true_iff in Hx as [Hx Hrest].
  destruct (id_char_plain x Hx) as (-> & -> & ->). simpl. now apply IH.
Qed.

Lemma digits_and_dots_lower (code : string) :
  digits_and_dots code = true -> Sql.lower code = code.
Proof.
  induction code as [|x code IH]; [reflexivity|]. simpl.
  intros Hx. apply andb_true_iff in Hx as [Hx Hrest].
  now rewrite (id_char_lower_self x Hx), IH.
Qed.

Lemma prefix_lower (code k : string) :
  digits_and_dots code = true ->
  String.prefix code (Sql.lower k) = String.prefix code k.
Proof.
  revert k. induction code as [|x code IH]; intros k Hcode.
  - now destruct k.
  - simpl in Hcode. apply andb_true_iff in Hcode as [Hx Hrest].
    destruct k as [|y k]; [reflexivity|]. simpl.
    pose proof (id_char_lower x y Hx) as Hiff.
    destruct (ascii_dec x (Sql.lower_char y)) as [Hl|Hl],
             (ascii_dec x y) as [Hr|Hr].
    + now apply IH.
    + now apply Hiff in Hl.
    + now apply Hiff in Hr.
    + reflexivity.
Qed.

Lemma lower_append (a b : string) :
  Sql.lower (a +:+ b) = Sql.lower a +:+ Sql.lower b.
Proof.
  induction a as [|x a IH]; [reflexivity|].
  change (String x a +:+ b) with (String x (a +:+ b)). simpl. rewrite IH.
  reflexivity.
Qed.

Lemma ilike_is_like (code k : string) :
  digits_and_dots code = true ->
  Sql.ilike (code +:+ "%") k = Sql.like (code +:+ "%") k.
Proof.
  intros Hcode. unfold Sql.ilike.
  rewrite lower_append, (digits_and_dots_lower code Hcode).
  replace (Sql.lower "%") with "%"
    by (simpl; unfold Sql.lower_char; now destruct lower_folds_latin1).
  rewrite !(like_plain_prefix code _ (digits_and_dots_plain code Hcode)).
  now apply prefix_lower.
Qed.

Lemma levels_ilike_is_like (code : string) (t : gmap string Sql.row) :
  digits_and_dots code = true ->
  levels_ilike (code +:+ "%") t = levels_like (code +:+ "%") t.
Proof.
  intros Hcode. unfold levels_ilike, levels_like. f_equal.
  apply filter_ext_in. intros [k row] _. simpl. now rewrite ilike_is_like.
Qed.

Lemma count_level_of_rows (l : Z) (p : string) (t : gmap string Sql.row) :
  length (filter (fun x => x = l) (levels_like p t))
  = length (Sql.select_level_like l p t).
Proof.
  unfold levels_like, Sql.select_level_like. rewrite length_fmap.
  induction (Sql.scan t) as [|[k row] xs IH]; [reflexivity|].
  destruct (Sql.like p k) eqn:Hlike.
  - rewrite (filter_cons_True (fun kr : string * Sql.row => Sql.like p kr.1 = true))
      by exact Hlike.
    rewrite fmap_cons. simpl fst; simpl snd.
    destruct (decide (Sql.level row = l)) as [Hl|Hl].
    + rewrite (filter_cons_True (fun x => x = l)) by exact Hl.
      rewrite (filter_cons_True
                 (fun kr : string * Sql.row =>
                    bool_decide (Sql.level kr.2 = l) && Sql.like p kr.1 = true))
        by (simpl; rewrite Hlike, bool_decide_eq_true_2 by exact Hl; reflexivity).
      simpl. now rewrite IH.
    + rewrite (filter_cons_False (fun x => x = l)) by exact Hl.
      rewrite (filter_cons_False
                 (fun kr : string * Sql.row =>
                    bool_decide (Sql.level kr.2 = l) && Sql.like p kr.1 = true))
        by (simpl; rewrite bool_decide_eq_false_2 by exact Hl; discriminate).
      exact IH.
  - rewrite (filter_cons_False (fun kr : string * Sql.row => Sql.like p kr.1 = true))
      by (simpl; rewrite Hlike; discriminate).
    rewrite (filter_cons_False
               (fun kr : string * Sql.row =>
                  bool_decide (Sql.level kr.2 = l) && Sql.like p kr.1 = true))
      by (simpl; rewrite Hlike, andb_false_r; discriminate).
    exact IH.
Qed.

Lemma levels_like_rows (p : string) (t : gmap string Sql.row) :
  levels_like p t <> []
  <-> exists k row, t !! k = Some row /\ Sql.like p k = true.
Proof.
  unfold levels_like, Sql.scan. split.
  - intros Hne.
    destruct (filter (fun kr : string * Sql.row => Sql.like p kr.1 = true)
                     (map_to_list t)) as [|[k row] xs] eqn:Hf; [now destruct Hne|].
    assert (Hin : (k, row) ∈ filter (fun kr : string * Sql.row =>
                                       Sql.like p kr.1 = true) (map_to_list t))
      by (rewrite Hf; now left).
    apply list_elem_of_filter in Hin as [Hl Hin].
    apply elem_of_map_to_list in Hin. now exists k, row.
  - intros (k & row & Hrow & Hl).
    assert (Hin : (k, row) ∈ filter (fun kr : string * Sql.row =>
                                       Sql.like p kr.1 = true) (map_to_list t))
      by (apply list_elem_of_filter; split;
          [exact Hl | now apply elem_of_map_to_list]).
    destruct (filter (fun kr : string * Sql.row => Sql.like p kr.1 = true)
                     (map_to_list t)); [now apply elem_of_nil in Hin|].
    discriminate.
Qed.

(** The counts after [forEach] over the rows of the grouped statement. *)
Lemma fold_set_count (f : Z -> Z) (ls : list Z) :
  forall s,
    let s' := foldl set_count s ((fun l => (l, f l)) <$> ls) in
    s_provinsi s' = (if decide (1%Z ∈ ls) then f 1%Z else s_provinsi s)
    /\ s_kabupaten s' = (if decide (2%Z ∈ ls) then f 2%Z else s_kabupaten s)
    /\ s_kecamatan s' = (if decide (3%Z ∈ ls) then f 3%Z else s_kecamatan s)
    /\ s_kelurahan s' = (if decide (4%Z ∈ ls) then f 4%Z else s_kelurahan s)
    /\ s_available s' = s_available s
    /\ s_fileAvailable s' = s_fileAvailable s.
Proof.
  induction ls as [|l ls IH]; intros s; cbv zeta.
  - simpl. repeat split.
  - rewrite fmap_cons. simpl foldl.
    destruct (IH (set_count s (l, f l))) as (I1 & I2 & I3 & I4 & I5 & I6).
    cbv zeta in *. rewrite I1, I2, I3, I4, I5, I6. clear IH I1 I2 I3 I4 I5 I6.
    unfold set_count. simpl fst; simpl snd.
    repeat split;
      repeat match goal with
      | |- context [decide (?x ∈ ?a :: ?b)] =>
          destruct (decide (x ∈ a :: b)) as [Hin|Hin];
          [apply elem_of_cons in Hin | rewrite not_elem_of_cons in Hin]
      | |- context [decide (?x ∈ ?b)] => destruct (decide (x ∈ b))
      end;
      repeat match goal with
      | |- context [(?a =? ?x)%Z] => destruct (Z.eqb_spec a x)
      end;
      simpl; try reflexivity; try congruence;
      try (exfalso; intuition congruence);
      try (destruct Hin as [Hin|Hin]; [congruence | contradiction]).
Qed.

(** The counts after [forEach] over the levels of the matching rows. *)
Lemma fold_count_level (ls : list Z) :
  forall s,
    let s' := foldl count_level s ls in
    s_provinsi s'
    = (s_provinsi s + Z.of_nat (length (filter (fun x => x = 1%Z) ls)))%Z
    /\ s_kabupaten s'
       = (s_kabupaten s + Z.of_nat (length (filter (fun x => x = 2%Z) ls)))%Z
    /\ s_kecamatan s'
       = (s_kecamatan s + Z.of_nat (length (filter (fun x => x = 3%Z) ls)))%Z
    /\ s_kelurahan s'
       = (s_kelurahan s + Z.of_nat (length (filter (fun x => x = 4%Z) ls)))%Z
    /\ s_available s' = s_available s
    /\ s_fileAvailable s' = s_fileAvailable s.
Proof.
  induction ls as [|l ls IH]; intros s; cbv zeta.
  - simpl. repeat split; lia.
  - simpl foldl.
    destruct (IH (count_level s l)) as (I1 & I2 & I3 & I4 & I5 & I6).
    cbv zeta in *. rewrite I1, I2, I3, I4, I5, I6. clear IH I1 I2 I3 I4 I5 I6.
    unfold count_level.
    repeat split;
      repeat match goal with
      | |- context [filter (fun x => x = ?v) (?a :: ?b)] =>
          let Hl := fresh "Hl" in
          destruct (decide (a = v)) as [Hl|Hl];
          [rewrite (filter_cons_True (fun x => x = v)) by exact Hl
          |rewrite (filter_cons_False (fun x => x = v)) by exact Hl]
      end;
      repeat match goal with
      | |- context [(?a =? ?x)%Z] => destruct (Z.eqb_spec a x)
      end;
      simpl; try reflexivity; try lia.
Qed.

End Status.

Section StatusRoute.
Context `{PostGIS}.

Lemma filter_absent (x : Z) (ls : list Z) :
  x ∉ ls -> filter (fun y => y = x) ls = [].
Proof.
  induction ls as [|y ls IH]; [reflexivity|]. intros Hnot.
  apply not_elem_of_cons in Hnot as [Hne Hnot].
  rewrite filter_cons_False by congruence. now apply IH.
Qed.

Lemma remove_dups_nil (ls : list Z) : remove_dups ls = [] <-> ls = [].
Proof.
  split; [|now intros ->].
  destruct ls as [|x ls]; [reflexivity|]. intros Hnil.
  assert (Hin : x ∈ remove_dups (x :: ls))
    by (apply elem_of_remove_dups; now left).
  rewrite Hnil in Hin. now apply elem_of_nil in Hin.
Qed.

(** The statistics read from a store that answers, for an identifier of
    digits and dots. *)
Lemma status_stats_counts (E : env) (code : string) (w : world) :
  digits_and_dots code = true ->
  (forall n, answers E n = true) ->
  (DB_PROVIDER E = SUPABASE -> supabaseAdmin E = true) ->
  exists s,
    status_stats E code w = Normal s
    /\ (forall l, (1 <= l <= 4)%Z ->
          (if (l =? 1)%Z then s_provinsi s
           else if (l =? 2)%Z then s_kabupaten s
           else if (l =? 3)%Z then s_kecamatan s
           else s_kelurahan s)
          = Z.of_nat (length (filter (fun x => x = l)
                                (levels_like (code +:+ "%") (table w)))))
    /\ (s_available s = true <-> levels_like (code +:+ "%") (table w) <> [])
    /\ s_fileAvailable s = false.
Proof.
  intros Hcode Hans Hadmin. unfold status_stats.
  set (ls := levels_like (code +:+ "%") (table w)).
  destruct (DB_PROVIDER E) eqn:HE.
  - rewrite Hans. eexists. split; [reflexivity|].
    unfold select_count_group_by_level. fold ls.
    destruct (fold_set_count
                (fun l => Z.of_nat (length (filter (fun x => x = l) ls)))
                (remove_dups ls) zero_stats) as (F1 & F2 & F3 & F4 & F5 & F6).
    cbv zeta in F1, F2, F3, F4, F5, F6.
    split; [|split].
    + intros l Hl. simpl.
      assert (Hcases : (l = 1 \/ l = 2 \/ l = 3 \/ l = 4)%Z) by lia.
      destruct Hcases as [-> | [-> | [-> | ->]]]; simpl;
        [rewrite F1 | rewrite F2 | rewrite F3 | rewrite F4];
        (match goal with
         | |- context [decide (?x ∈ ?l)] =>
             destruct (decide (x ∈ l)) as [Hin|Hin]
         end;
         [reflexivity|];
         rewrite elem_of_remove_dups in Hin;
         now rewrite (filter_absent _ ls Hin)).
    + simpl. rewrite length_fmap. rewrite <- remove_dups_nil.
      destruct (remove_dups ls); simpl; split; try congruence; try discriminate;
        try reflexivity.
    + simpl. exact F6.
  - rewrite (Hadmin eq_refl). simpl negb. cbv iota.
    rewrite !Hans, (levels_ilike_is_like code (table w) Hcode). fold ls.
    destruct (fold_count_level ls
                (set_available (0 <? Z.of_nat (length ls))%Z zero_stats))
      as (F1 & F2 & F3 & F4 & F5 & F6).
    cbv zeta in F1, F2, F3, F4, F5, F6.
    destruct ls as [|x ls'] eqn:Hls.
    + simpl. eexists. split; [reflexivity|]. split; [|split].
      * intros l Hl. simpl. now repeat destruct (_ =? _)%Z.
      * simpl. split; [discriminate | congruence].
      * reflexivity.
    + replace (s_available (set_available (0 <? Z.of_nat (length (x :: ls')))%Z
                                          zero_stats)) with true by reflexivity.
      eexists. split; [reflexivity|]. split; [|split].
      * intros l Hl.
        assert (Hcases : (l = 1 \/ l = 2 \/ l = 3 \/ l = 4)%Z) by lia.
        destruct Hcases as [-> | [-> | [-> | ->]]]; simpl Z.eqb; cbv iota;
          [rewrite F1 | rewrite F2 | rewrite F3 | rewrite F4]; reflexivity.
      * rewrite F5. simpl. split; [discriminate | reflexivity].
      * rewrite F6. reflexivity.
Qed.

(** X18. For an identifier made of digits and dots and a store that
    answers, the status route reports, through either provider, at each of
    the four levels the number of regions a fetch of that level for the
    same identifier selects, and [available] exactly when some stored
    identifier begins with the identifier, whatever the level of its row;
    [fileAvailable] is the outcome of the test of the directory. *)
Theorem status_counts_regions (E : env) (code : string)
    (hasFile : option bool) (w : world) :
  code <> "" ->
  digits_and_dots code = true ->
  (forall n, answers E n = true) ->
  (DB_PROVIDER E = SUPABASE -> supabaseAdmin E = true) ->
  exists s,
    status_route E (Some code) (Normal <$> hasFile) w = status_200 s
    /\ s_provinsi s
       = Z.of_nat (length (Sql.select_level_like 1 (code +:+ "%") (table w)))
    /\ s_kabupaten s
       = Z.of_nat (length (Sql.select_level_like 2 (code +:+ "%") (table w)))
    /\ s_kecamatan s
       = Z.of_nat (length (Sql.select_level_like 3 (code +:+ "%") (table w)))
    /\ s_kelurahan s
       = Z.of_nat (length (Sql.select_level_like 4 (code +:+ "%") (table w)))
    /\ (s_available s = true
        <-> exists k row, table w !! k = Some row /\ String.prefix code k = true)
    /\ s_fileAvailable s = default false hasFile.
Proof.
  intros Hne Hcode Hans Hadmin.
  destruct (status_stats_counts E code w Hcode Hans Hadmin)
    as (s & Hstats & Hcount & Havail & Hfile).
  assert (Hplain := digits_and_dots_plain code Hcode).
  assert (Hav : s_available s = true
                <-> exists k row, table w !! k = Some row
                                  /\ String.prefix code k = true).
  { rewrite Havail, levels_like_rows.
    now setoid_rewrite (like_plain_prefix code _ Hplain). }
  pose proof (Hcount 1%Z ltac:(lia)) as C1.
  pose proof (Hcount 2%Z ltac:(lia)) as C2.
  pose proof (Hcount 3%Z ltac:(lia)) as C3.
  pose proof (Hcount 4%Z ltac:(lia)) as C4.
  simpl in C1, C2, C3, C4. rewrite count_level_of_rows in C1, C2, C3, C4.
  unfold status_route.
  replace (JS.falsy (JStr code)) with false
    by (symmetry; simpl; now apply bool_decide_eq_false).
  rewrite Hstats. destruct hasFile as [b|]; simpl.
  - eexists. split; [reflexivity|]. simpl. repeat split; try assumption;
      apply Hav.
  - exists s. split; [reflexivity|]. repeat split; try assumption; apply Hav.
Qed.

(** X19. When the store answers nothing, the status route gives the answer
    [{ available: false, error }] with the direct provider; with the
    Supabase provider and its client present it gives the statistics all
    zero and [available] false, without an error, and still reports the
    test of the directory. *)
Theorem status_when_store_is_down (E : env) (code : string)
    (hasFile : option bool) (w : world) :
  code <> "" ->
  (forall n, answers E n = false) ->
  (DB_PROVIDER E = POSTGRES ->
     status_route E (Some code) (Normal <$> hasFile) w = status_unavailable)
  /\ (DB_PROVIDER E = SUPABASE -> supabaseAdmin E = true ->
        status_route E (Some code) (Normal <$> hasFile) w
        = status_200 (set_fileAvailable (default false hasFile) zero_stats))
  /\ (DB_PROVIDER E = SUPABASE -> supabaseAdmin E = false ->
        status_route E (Some code) (Normal <$> hasFile) w = status_unavailable).
Proof.
  intros Hne Hans. unfold status_route, status_stats.
  replace (JS.falsy (JStr code)) with false
    by (symmetry; simpl; now apply bool_decide_eq_false).
  repeat split.
  - intros ->. now rewrite Hans.
  - intros -> ->. simpl negb. cbv iota. rewrite Hans.
    now destruct hasFile.
  - intros -> ->. reflexivity.
Qed.

End StatusRoute.

Lemma status_counts_regions_witness :
  exists s,
    @status_route Toy.postgis (Toy.env_of SUPABASE) (Some "11.01")
                  (Normal <$> Some true) (Toy.start Sample.aceh_selatan)
    = status_200 s
    /\ s_provinsi s
       = Z.of_nat (length (Sql.select_level_like 1 "11.01%" Sample.aceh_selatan))
    /\ s_kabupaten s
       = Z.of_nat (length (Sql.select_level_like 2 "11.01%" Sample.aceh_selatan))
    /\ s_kecamatan s
       = Z.of_nat (length (Sql.select_level_like 3 "11.01%" Sample.aceh_selatan))
    /\ s_kelurahan s
       = Z.of_nat (length (Sql.select_level_like 4 "11.01%" Sample.aceh_selatan))
    /\ (s_available s = true
        <-> exists k row, Sample.aceh_selatan !! k = Some row
                          /\ String.prefix "11.01" k = true)
    /\ s_fileAvailable s = true.
Proof.
  apply (@status_counts_regions Toy.postgis (Toy.env_of SUPABASE) "11.01"
           (Some true) (Toy.start Sample.aceh_selatan));
    [discriminate | reflexivity | reflexivity | reflexivity].
Defined.

Lemma status_when_store_is_down_witness :
  @status_route Toy.postgis (Toy.env_down SUPABASE) (Some "11")
                (Normal <$> Some true) (Toy.start Sample.aceh_selatan)
  = status_200 (set_fileAvailable true zero_stats).
Proof.
  assert (Hne : "11" <> "") by discriminate.
  exact (proj1 (proj2 (@status_when_store_is_down Toy.postgis
                         (Toy.env_down SUPABASE) "11" (Some true)
                         (Toy.start Sample.aceh_selatan) Hne
                         (fun _ => eq_refl)))
               eq_refl eq_refl).
Defined.
